(** * AgentCore sample notebooks: a shallow embedding of their Python cells

    The repository holds tutorial notebooks that call the Bedrock AgentCore
    services through an SDK.  The Python that the notebooks own is glue:
    an async generator that forwards streamed chunks, a polling loop, a
    server-sent-events line parser, a helper that returns the first event of
    a response stream, and [try]/[except]/[finally] blocks around SDK calls.

    This development embeds those cells in Rocq.  Python values are an
    inductive type, exceptions carry their class (so that [except Exception]
    can be told from a bare [except]), and every cell is a computation in a
    small monad that threads the notebook's variables, records the
    observable actions (prints, yields, calls into the SDK) and ends in a
    value, a raised exception, or a loop that is still running when the
    fuel is spent.  The answers of the SDK and of the remote services are
    parameters of the cells. *)

From Stdlib Require Import List String Ascii ZArith NArith Bool Lia.
From Stdlib Require Import Strings.Byte.
From Stdlib Require Import DecimalString.
Import ListNotations.

Local Open Scope string_scope.
Local Open Scope list_scope.

Set Warnings "-register-all".

(* ================================================================= *)
(** ** Python values and exceptions *)

Module Py.

(** A Python [str] is a sequence of Unicode code points. *)
Definition str : Type := list N.

(** The [str] of an ASCII source literal. *)
Definition lit (s : string) : str :=
  map N_of_ascii (list_ascii_of_string s).

Fixpoint str_eqb (a b : str) : bool :=
  match a, b with
  | [], [] => true
  | x :: a', y :: b' => N.eqb x y && str_eqb a' b'
  | _, _ => false
  end.

(** Values that the cells handle: JSON-like data as boto3 and the agent
    library hand it over, [bytes] blobs, and opaque objects (an open file,
    an SDK object) known only by the name of their class.  A [float] is
    held by the text that [repr] gives for it (["0.0123"], ["1e+22"],
    ["nan"], ["inf"]): the cells only format and serialize floats, and
    both go through that text.  A [dict] keeps its insertion order, as
    Python's does. *)
Inductive value : Type :=
| VNone
| VBool (b : bool)
| VInt (z : Z)
| VFloat (repr : str)
| VStr (s : str)
| VBytes (bs : list byte)
| VList (xs : list value)
| VDict (kvs : list (str * value))
| VObj (label : string).

Definition dict : Type := list (str * value).

Fixpoint lookup (k : str) (d : dict) : option value :=
  match d with
  | [] => None
  | (k', v) :: d' => if str_eqb k k' then Some v else lookup k d'
  end.

(** [k in d] *)
Definition dict_contains (k : str) (d : dict) : bool :=
  match lookup k d with Some _ => true | None => false end.

(** [d.get(k)], with the default [None]. *)
Definition dict_get (d : dict) (k : str) : value :=
  match lookup k d with Some v => v | None => VNone end.

(** The part of Python's exception hierarchy the cells can tell apart.
    [UserError] stands for any class a library derives from [Exception]
    (botocore's [ClientError], [EventStreamError], ...). *)
Inductive pyclass : Type :=
| BaseException
| Exception
| KeyboardInterrupt
| SystemExit
| GeneratorExit
| CancelledError
| LookupError
| KeyError
| IndexError
| TypeError
| AttributeError
| NameError
| ValueError
| UnicodeDecodeError
| OSError
| FileNotFoundError
| UserError (name : string).

(** The direct base class. [asyncio.CancelledError] derives from
    [BaseException] since Python 3.8; both notebooks run on 3.10 or later. *)
Definition base (c : pyclass) : option pyclass :=
  match c with
  | BaseException => None
  | Exception | KeyboardInterrupt | SystemExit | GeneratorExit
  | CancelledError => Some BaseException
  | LookupError | TypeError | AttributeError | NameError | ValueError
  | OSError | UserError _ => Some Exception
  | KeyError | IndexError => Some LookupError
  | UnicodeDecodeError => Some ValueError
  | FileNotFoundError => Some OSError
  end.

Definition pyclass_eqb (c d : pyclass) : bool :=
  match c, d with
  | BaseException, BaseException | Exception, Exception
  | KeyboardInterrupt, KeyboardInterrupt | SystemExit, SystemExit
  | GeneratorExit, GeneratorExit | CancelledError, CancelledError
  | LookupError, LookupError | KeyError, KeyError
  | IndexError, IndexError | TypeError, TypeError
  | AttributeError, AttributeError
  | NameError, NameError | ValueError, ValueError
  | UnicodeDecodeError, UnicodeDecodeError | OSError, OSError
  | FileNotFoundError, FileNotFoundError => true
  | UserError a, UserError b => String.eqb a b
  | _, _ => false
  end.

(** [issubclass(c, d)]: climb the base classes; the hierarchy above is
    three levels deep. *)
Fixpoint issubclass_upto (depth : nat) (c d : pyclass) : bool :=
  pyclass_eqb c d ||
  match depth with
  | O => false
  | S depth' =>
      match base c with
      | Some c' => issubclass_upto depth' c' d
      | None => false
      end
  end.

Definition issubclass : pyclass -> pyclass -> bool := issubclass_upto 4.

(** A raised exception: its class and what [str(e)] gives. *)
Record exn : Type := MkExn { exn_class : pyclass; exn_str : str }.

Definition isinstance (e : exn) (c : pyclass) : bool :=
  issubclass (exn_class e) c.
Arguments isinstance : simpl never.

(** How a function call ends: it returns a value or it raises. *)
Inductive answer (A : Type) : Type :=
| Returns (a : A)
| Raises (e : exn).
Arguments Returns {A} a.
Arguments Raises {A} e.

(** [d[k]]: the value, or [KeyError] with the key's [repr]. *)
Definition dict_getitem (d : dict) (k : str) : answer value :=
  match lookup k d with
  | Some v => Returns v
  | None => Raises (MkExn KeyError (lit "'" ++ k ++ lit "'"))
  end.

(** Structural equality of values. *)
Fixpoint value_eqb (a b : value) : bool :=
  match a, b with
  | VNone, VNone => true
  | VBool x, VBool y => Bool.eqb x y
  | VInt x, VInt y => Z.eqb x y
  | VFloat x, VFloat y => str_eqb x y
  | VStr x, VStr y => str_eqb x y
  | VBytes x, VBytes y =>
      (fix bytes_eqb (x y : list byte) : bool :=
         match x, y with
         | [], [] => true
         | c :: x', d :: y' => Byte.eqb c d && bytes_eqb x' y'
         | _, _ => false
         end) x y
  | VList xs, VList ys =>
      (fix all_eqb (xs ys : list value) : bool :=
         match xs, ys with
         | [], [] => true
         | x :: xs', y :: ys' => value_eqb x y && all_eqb xs' ys'
         | _, _ => false
         end) xs ys
  | VDict xs, VDict ys =>
      (fix all_eqb (xs ys : list (str * value)) : bool :=
         match xs, ys with
         | [], [] => true
         | (k, x) :: xs', (l, y) :: ys' =>
             str_eqb k l && value_eqb x y && all_eqb xs' ys'
         | _, _ => false
         end) xs ys
  | VObj x, VObj y => String.eqb x y
  | _, _ => false
  end.

(** [v[k]] for a [str] key: only a [dict] can be subscripted by one. *)
Definition getitem (v : value) (k : str) : answer value :=
  match v with
  | VDict d => dict_getitem d k
  | _ => Raises (MkExn TypeError (lit "object cannot be subscripted by a str"))
  end.

(** [v[i]] for an [int] index that is not negative. *)
Definition getindex (v : value) (i : nat) : answer value :=
  match v with
  | VList xs =>
      match nth_error xs i with
      | Some x => Returns x
      | None => Raises (MkExn IndexError (lit "list index out of range"))
      end
  | _ => Raises (MkExn TypeError (lit "object cannot be indexed by an int"))
  end.

(** [type(v).__name__] *)
Definition type_name (v : value) : string :=
  match v with
  | VNone => "NoneType"
  | VBool _ => "bool"
  | VInt _ => "int"
  | VFloat _ => "float"
  | VStr _ => "str"
  | VBytes _ => "bytes"
  | VList _ => "list"
  | VDict _ => "dict"
  | VObj label => label
  end.

(** Truth value of an object in an [if]: empty containers, zero, [False]
    and [None] are false; an SDK object is true. *)
Definition truthy (v : value) : bool :=
  match v with
  | VNone => false
  | VBool b => b
  | VInt z => negb (Z.eqb z 0)
  | VFloat r => negb (str_eqb r (lit "0.0") || str_eqb r (lit "-0.0"))
  | VStr s => match s with [] => false | _ => true end
  | VBytes bs => match bs with [] => false | _ => true end
  | VList xs => match xs with [] => false | _ => true end
  | VDict kvs => match kvs with [] => false | _ => true end
  | VObj _ => true
  end.

(** An iterator, as a [for] loop sees it: it is exhausted, it raises, or it
    hands over an item and goes on. *)
Inductive iter (A : Type) : Type :=
| Stop
| Fail (e : exn)
| Next (a : A) (rest : iter A).
Arguments Stop {A}.
Arguments Fail {A} e.
Arguments Next {A} a rest.

(** The iterator that hands over [xs] and then is exhausted, or raises
    [e] when [raised] is [Some e]. *)
Fixpoint iter_of {A} (xs : list A) (raised : option exn) : iter A :=
  match xs with
  | [] => match raised with None => Stop | Some e => Fail e end
  | x :: xs' => Next x (iter_of xs' raised)
  end.

(** The exception an iterator ends with, if it ends with one. *)
Fixpoint raised_by {A} (it : iter A) : option exn :=
  match it with
  | Stop => None
  | Fail e => Some e
  | Next _ rest => raised_by rest
  end.

(** The items an iterator hands over. *)
Fixpoint items {A} (it : iter A) : list A :=
  match it with
  | Next a rest => a :: items rest
  | _ => []
  end.

End Py.

Import Py.

(* ================================================================= *)
(** ** Effects: variables, observable actions, exceptions *)

Module Eff.

(** A part of a printed line: literal text of the source, or an
    interpolated value. *)
Inductive piece : Type :=
| Txt (s : string)
| Val (v : value).

(** What a cell does that can be seen from outside.  [Call] is a call into
    the SDK or a library, with its arguments and how it ended; [Fetch] is
    one item taken from an iterator by a [for] loop. *)
Inductive action : Type :=
| Print (ps : list piece)
| Yield (v : value)
| Call (target : string) (args : list value) (res : answer value)
| Fetch (item : value)
| Sleep (seconds : Z).

(** How a computation ends: with a value, with a raised exception, or not
    yet (a loop that is still running when the fuel is spent). *)
Inductive outcome (A : Type) : Type :=
| Ok (a : A)
| Raise (e : exn)
| Running.
Arguments Ok {A} a.
Arguments Raise {A} e.
Arguments Running {A}.

Definition ended {A} (r : answer A) : outcome A :=
  match r with
  | Returns a => Ok a
  | Raises e => Raise e
  end.

Section Monad.
Context {St : Type}.

(** A computation over the variables [St]: the actions it performed, the
    variables afterwards (assignments made before a [raise] stay), and
    how it ended. *)
Definition M (A : Type) : Type := St -> list action * St * outcome A.

Definition ret {A} (a : A) : M A := fun s => ([], s, Ok a).

Definition bind {A B} (m : M A) (f : A -> M B) : M B :=
  fun s =>
    let '(t1, s1, r) := m s in
    match r with
    | Ok a => let '(t2, s2, r2) := f a s1 in (t1 ++ t2, s2, r2)
    | Raise e => (t1, s1, Raise e)
    | Running => (t1, s1, Running)
    end.

Definition raise {A} (e : exn) : M A := fun s => ([], s, Raise e).

(** A pure step that may raise. *)
Definition lift {A} (r : answer A) : M A := fun s => ([], s, ended r).

Definition emit (a : action) : M unit := fun s => ([a], s, Ok tt).

Definition modify (f : St -> St) : M unit := fun s => ([], f s, Ok tt).

Definition print (ps : list piece) : M unit := emit (Print ps).

(** A call into the SDK: it is recorded, and ends as the SDK decides. *)
Definition call (target : string) (args : list value)
    (res : answer value) : M value :=
  fun s => ([Call target args res], s, ended res).

(** A constructor call [cls(...)]: an object of the class, or the
    exception of the constructor. *)
Definition construct (cls : string) (args : list value)
    (res : answer unit) : M value :=
  call cls args
    (match res with
     | Returns _ => Returns (VObj cls)
     | Raises e => Raises e
     end).

(** [try: body  except <clauses>]: [handler e] is the body of the first
    clause that matches [e], or [None] when no clause does and the
    exception goes on. *)
Definition try_except {A} (body : M A) (handler : exn -> option (M A))
    : M A :=
  fun s =>
    let '(t1, s1, r) := body s in
    match r with
    | Raise e =>
        match handler e with
        | Some h => let '(t2, s2, r2) := h s1 in (t1 ++ t2, s2, r2)
        | None => (t1, s1, Raise e)
        end
    | _ => (t1, s1, r)
    end.

(** [try: body  finally: fin]: [fin] runs however [body] ended; an
    exception of [fin] replaces the outcome of [body], otherwise the
    outcome of [body] stands (a pending exception is re-raised). *)
Definition try_finally {A} (body : M A) (fin : M unit) : M A :=
  fun s =>
    let '(t1, s1, r) := body s in
    match r with
    | Running => (t1, s1, Running)
    | _ =>
        let '(t2, s2, r2) := fin s1 in
        (t1 ++ t2, s2,
         match r2 with
         | Ok _ => r
         | Raise e2 => Raise e2
         | Running => Running
         end)
    end.

(** [with contextlib.suppress(cls): body] *)
Definition suppress (cls : pyclass) (body : M unit) : M unit :=
  try_except body
    (fun e => if isinstance e cls then Some (ret tt) else None).

(** [while cond: body], unrolled at most [fuel] times. *)
Fixpoint while (fuel : nat) (cond : M bool) (body : M unit) : M unit :=
  bind cond (fun c =>
    if c then
      match fuel with
      | O => fun s => ([], s, Running)
      | S fuel' => bind body (fun _ => while fuel' cond body)
      end
    else ret tt).

(** [for x in it: body x]; [inj] shows the item in the record. *)
Fixpoint for_each {A} (inj : A -> value) (it : iter A)
    (body : A -> M unit) : M unit :=
  match it with
  | Stop => ret tt
  | Fail e => raise e
  | Next a rest =>
      bind (emit (Fetch (inj a))) (fun _ =>
      bind (body a) (fun _ => for_each inj rest body))
  end.

(** A [for] loop whose body may [return]: the body gives [Some r] to
    return [r] from the enclosing function, [None] to go on. *)
Fixpoint for_returning {A R} (inj : A -> value) (it : iter A)
    (body : A -> M (option R)) : M (option R) :=
  match it with
  | Stop => ret None
  | Fail e => raise e
  | Next a rest =>
      bind (emit (Fetch (inj a))) (fun _ =>
      bind (body a) (fun r =>
        match r with
        | Some x => ret (Some x)
        | None => for_returning inj rest body
        end))
  end.

End Monad.

Arguments M St A : clear implicits.

Declare Scope py_scope.
Delimit Scope py_scope with py.
Notation "x <- m ;; k" := (bind m (fun x => k))
  (at level 61, m at next level, right associativity) : py_scope.
Notation "m ;; k" := (bind m (fun _ => k))
  (at level 61, right associativity) : py_scope.

(** The notebook kernel: the names bound so far (the latest binding of a
    name is the first in the list) and how many answers the cells have
    taken from the services that are asked repeatedly. *)
Record kernel : Type := MkKernel {
  ns : list (string * value);
  ticks : nat
}.

Definition fresh : kernel := MkKernel [] 0.

Fixpoint find_name (x : string) (bindings : list (string * value))
    : option value :=
  match bindings with
  | [] => None
  | (y, v) :: rest => if String.eqb x y then Some v else find_name x rest
  end.

Definition name_error (x : string) : exn :=
  MkExn NameError (lit "name '" ++ lit x ++ lit "' is not defined").

(** Reading a global name: its value, or [NameError]. *)
Definition read (x : string) : M kernel value :=
  fun k =>
    match find_name x (ns k) with
    | Some v => ([], k, Ok v)
    | None => ([], k, Raise (name_error x))
    end.

(** [x = v] *)
Definition assign (x : string) (v : value) : M kernel unit :=
  modify (fun k => MkKernel ((x, v) :: ns k) (ticks k)).

(** The number of the next answer of a service, which is then used up. *)
Definition tick : M kernel nat :=
  fun k => ([], MkKernel (ns k) (S (ticks k)), Ok (ticks k)).

(** Readings of a finished run. *)
Definition trace {St A} (r : list action * St * outcome A) : list action :=
  fst (fst r).
Definition vars {St A} (r : list action * St * outcome A) : St :=
  snd (fst r).
Definition result {St A} (r : list action * St * outcome A) : outcome A :=
  snd r.

(** The chunks a generator yielded, in order. *)
Fixpoint yields (t : list action) : list value :=
  match t with
  | [] => []
  | Yield v :: t' => v :: yields t'
  | _ :: t' => yields t'
  end.

(** The lines printed, in order. *)
Fixpoint prints (t : list action) : list (list piece) :=
  match t with
  | [] => []
  | Print ps :: t' => ps :: prints t'
  | _ :: t' => prints t'
  end.

(** The calls made to [target], in order, with how each ended. *)
Fixpoint calls_to (target : string) (t : list action)
    : list (list value * answer value) :=
  match t with
  | [] => []
  | Call f args res :: t' =>
      if String.eqb f target then (args, res) :: calls_to target t'
      else calls_to target t'
  | _ :: t' => calls_to target t'
  end.

(** Whether some call to [target] returned. *)
Definition succeeded (target : string) (t : list action) : bool :=
  existsb (fun c =>
             match snd c with
             | Returns _ => true
             | Raises _ => false
             end)
          (calls_to target t).

(** The items a [for] loop took from its iterator, in order. *)
Fixpoint fetched (t : list action) : list value :=
  match t with
  | [] => []
  | Fetch v :: t' => v :: fetched t'
  | _ :: t' => fetched t'
  end.

End Eff.

Import Eff.
Local Open Scope py_scope.

(* ================================================================= *)
(** ** Library functions the cells rely on *)

(** [str] methods and built-ins used by the cells. *)
Module Str.

(** [s.startswith(p)] *)
Fixpoint startswith (p s : str) : bool :=
  match p, s with
  | [], _ => true
  | x :: p', y :: s' => N.eqb x y && startswith p' s'
  | _ :: _, [] => false
  end.

(** [s.replace(c, '')] for a one-character [c]: every occurrence goes. *)
Definition delete_char (c : N) (s : str) : str :=
  filter (fun x => negb (N.eqb x c)) s.

(** [sep.join(xs)] *)
Fixpoint join (sep : str) (xs : list str) : str :=
  match xs with
  | [] => []
  | [x] => x
  | x :: xs' => x ++ sep ++ join sep xs'
  end.

(** [p in s] for strings: [p] occurs in [s] as a substring. *)
Fixpoint contains (p s : str) : bool :=
  startswith p s ||
  match s with
  | [] => false
  | _ :: s' => contains p s'
  end.

(** [str(z)] for an [int]. *)
Definition of_int (z : Z) : str :=
  lit (NilZero.string_of_int (Z.to_int z)).

(** The double quote and the backslash, by code point. *)
Definition dquote : N := 34.
Definition backslash : N := 92.

End Str.

(** [bytes.decode("utf-8")] with the default strict error handling:
    shortest-form sequences only, no surrogates, nothing above U+10FFFF. *)
Module Utf8.

Definition is_cont (b : N) : bool := (128 <=? b)%N && (b <=? 191)%N.

Definition within (lo hi b : N) : bool := (lo <=? b)%N && (b <=? hi)%N.

Definition low6 (b : N) : N := N.land b 63.

Fixpoint decode_points (bs : list byte) : option str :=
  match bs with
  | [] => Some []
  | b0 :: t0 =>
      let n0 := Byte.to_N b0 in
      if (n0 <? 128)%N then option_map (cons n0) (decode_points t0)
      else if within 194 223 n0 then
        match t0 with
        | b1 :: t1 =>
            let n1 := Byte.to_N b1 in
            if is_cont n1 then
              option_map (cons (N.land n0 31 * 64 + low6 n1)%N)
                         (decode_points t1)
            else None
        | [] => None
        end
      else if within 224 239 n0 then
        match t0 with
        | b1 :: b2 :: t2 =>
            let n1 := Byte.to_N b1 in
            let n2 := Byte.to_N b2 in
            let second_ok :=
              if (n0 =? 224)%N then within 160 191 n1
              else if (n0 =? 237)%N then within 128 159 n1
              else is_cont n1 in
            if second_ok && is_cont n2 then
              option_map
                (cons (N.land n0 15 * 4096 + low6 n1 * 64 + low6 n2)%N)
                (decode_points t2)
            else None
        | _ => None
        end
      else if within 240 244 n0 then
        match t0 with
        | b1 :: b2 :: b3 :: t3 =>
            let n1 := Byte.to_N b1 in
            let n2 := Byte.to_N b2 in
            let n3 := Byte.to_N b3 in
            let second_ok :=
              if (n0 =? 240)%N then within 144 191 n1
              else if (n0 =? 244)%N then within 128 143 n1
              else is_cont n1 in
            if second_ok && is_cont n2 && is_cont n3 then
              option_map
                (cons (N.land n0 7 * 262144 + low6 n1 * 4096
                       + low6 n2 * 64 + low6 n3)%N)
                (decode_points t3)
            else None
        | _ => None
        end
      else None
  end.

(** Where decoding stops: the position of the first byte of the sequence
    that cannot be decoded, the position after the last byte the decoder
    blames, and its reason. *)
Definition second_of_three (n0 n1 : N) : bool :=
  if (n0 =? 224)%N then within 160 191 n1
  else if (n0 =? 237)%N then within 128 159 n1
  else is_cont n1.

Definition second_of_four (n0 n1 : N) : bool :=
  if (n0 =? 240)%N then within 144 191 n1
  else if (n0 =? 244)%N then within 128 143 n1
  else is_cont n1.

Definition end_of_data : string := "unexpected end of data".
Definition invalid_continuation : string := "invalid continuation byte".
Definition invalid_start : string := "invalid start byte".

Fixpoint first_error (pos : N) (bs : list byte)
    : option (N * N * string) :=
  match bs with
  | [] => None
  | b0 :: t0 =>
      let n0 := Byte.to_N b0 in
      if (n0 <? 128)%N then first_error (pos + 1) t0
      else if within 194 223 n0 then
        match t0 with
        | [] => Some (pos, pos + 1, end_of_data)%N
        | b1 :: t1 =>
            if is_cont (Byte.to_N b1) then first_error (pos + 2) t1
            else Some (pos, pos + 1, invalid_continuation)%N
        end
      else if within 224 239 n0 then
        match t0 with
        | [] => Some (pos, pos + 1, end_of_data)%N
        | b1 :: t1 =>
            if second_of_three n0 (Byte.to_N b1) then
              match t1 with
              | [] => Some (pos, pos + 2, end_of_data)%N
              | b2 :: t2 =>
                  if is_cont (Byte.to_N b2) then first_error (pos + 3) t2
                  else Some (pos, pos + 2, invalid_continuation)%N
              end
            else Some (pos, pos + 1, invalid_continuation)%N
        end
      else if within 240 244 n0 then
        match t0 with
        | [] => Some (pos, pos + 1, end_of_data)%N
        | b1 :: t1 =>
            if second_of_four n0 (Byte.to_N b1) then
              match t1 with
              | [] => Some (pos, pos + 2, end_of_data)%N
              | b2 :: t2 =>
                  if is_cont (Byte.to_N b2) then
                    match t2 with
                    | [] => Some (pos, pos + 3, end_of_data)%N
                    | b3 :: t3 =>
                        if is_cont (Byte.to_N b3)
                        then first_error (pos + 4) t3
                        else Some (pos, pos + 3, invalid_continuation)%N
                    end
                  else Some (pos, pos + 2, invalid_continuation)%N
              end
            else Some (pos, pos + 1, invalid_continuation)%N
        end
      else Some (pos, pos + 1, invalid_start)%N
  end.

Definition hex_digit (n : N) : N :=
  if (n <? 10)%N then (48 + n)%N else (87 + n)%N.

(** [str(e)] for the [UnicodeDecodeError] of the decoder: one byte is
    named with its value, several by their positions. *)
Definition error_text (bs : list byte) : str :=
  match first_error 0 bs with
  | Some (start, stop, why) =>
      if (stop - start =? 1)%N then
        lit "'utf-8' codec can't decode byte 0x"
        ++ (let b := Byte.to_N (nth (N.to_nat start) bs x00) in
            [hex_digit (b / 16); hex_digit (b mod 16)])%N
        ++ lit " in position " ++ Str.of_int (Z.of_N start)
        ++ lit ": " ++ lit why
      else
        lit "'utf-8' codec can't decode bytes in position "
        ++ Str.of_int (Z.of_N start) ++ lit "-"
        ++ Str.of_int (Z.of_N (stop - 1)) ++ lit ": " ++ lit why
  | None => []
  end.

Definition decode (bs : list byte) : answer str :=
  match decode_points bs with
  | Some s => Returns s
  | None => Raises (MkExn UnicodeDecodeError (error_text bs))
  end.

End Utf8.

(** [json.dumps(obj, indent=n)] with the other options at their defaults
    ([ensure_ascii=True], separators [","] and [": "]). *)
Module Json.

Definition hex_digit (n : N) : N :=
  if (n <? 10)%N then (48 + n)%N else (87 + n)%N.

(** [\uXXXX], four lower-case hex digits. *)
Definition u_escape (n : N) : str :=
  [Str.backslash; 117%N;
   hex_digit (n / 4096 mod 16); hex_digit (n / 256 mod 16);
   hex_digit (n / 16 mod 16); hex_digit (n mod 16)]%N.

Definition escape_char (c : N) : str :=
  if (c =? 34)%N then [Str.backslash; 34%N]
  else if (c =? 92)%N then [Str.backslash; 92%N]
  else if (c =? 10)%N then [Str.backslash; 110%N]
  else if (c =? 13)%N then [Str.backslash; 114%N]
  else if (c =? 9)%N then [Str.backslash; 116%N]
  else if (c =? 8)%N then [Str.backslash; 98%N]
  else if (c =? 12)%N then [Str.backslash; 102%N]
  else if (32 <=? c)%N && (c <=? 126)%N then [c]
  else if (c <? 65536)%N then u_escape c
  else
    let n := (c - 65536)%N in
    u_escape (N.lor 55296 (N.land (N.shiftr n 10) 1023))
    ++ u_escape (N.lor 56320 (N.land n 1023)).

Definition encode_str (s : str) : str :=
  [Str.dquote] ++ flat_map escape_char s ++ [Str.dquote].

Definition newline_indent (indent level : nat) : str :=
  10%N :: repeat 32%N (indent * level).

Definition not_serializable (type_name : string) : exn :=
  MkExn TypeError
    (lit "Object of type " ++ lit type_name ++ lit " is not JSON serializable").

(** A container is laid out one item per line, one level deeper. *)
Definition layout (opening closing : N) (indent level : nat)
    (items : list str) : str :=
  match items with
  | [] => [opening; closing]
  | _ =>
      [opening] ++ newline_indent indent (S level)
      ++ Str.join (44%N :: newline_indent indent (S level)) items
      ++ newline_indent indent level ++ [closing]
  end.

(** A float is written as its [repr], but for the values that are no
    numbers of JSON, which have names of their own ([allow_nan] is
    true). *)
Definition float_text (repr : str) : str :=
  if str_eqb repr (lit "nan") then lit "NaN"
  else if str_eqb repr (lit "inf") then lit "Infinity"
  else if str_eqb repr (lit "-inf") then lit "-Infinity"
  else repr.

Fixpoint encode (indent level : nat) (v : value) : answer str :=
  match v with
  | VNone => Returns (lit "null")
  | VBool true => Returns (lit "true")
  | VBool false => Returns (lit "false")
  | VInt z => Returns (Str.of_int z)
  | VFloat r => Returns (float_text r)
  | VStr s => Returns (encode_str s)
  | VBytes _ => Raises (not_serializable "bytes")
  | VObj label => Raises (not_serializable label)
  | VList xs =>
      let fix each (xs : list value) : answer (list str) :=
        match xs with
        | [] => Returns []
        | x :: xs' =>
            match encode indent (S level) x with
            | Returns a =>
                match each xs' with
                | Returns r => Returns (a :: r)
                | Raises e => Raises e
                end
            | Raises e => Raises e
            end
        end in
      match each xs with
      | Returns items => Returns (layout 91 93 indent level items)
      | Raises e => Raises e
      end
  | VDict kvs =>
      let fix each (kvs : list (str * value)) : answer (list str) :=
        match kvs with
        | [] => Returns []
        | (k, x) :: kvs' =>
            match encode indent (S level) x with
            | Returns a =>
                match each kvs' with
                | Returns r =>
                    Returns ((encode_str k ++ lit ": " ++ a) :: r)
                | Raises e => Raises e
                end
            | Raises e => Raises e
            end
        end in
      match each kvs with
      | Returns items => Returns (layout 123 125 indent level items)
      | Raises e => Raises e
      end
  end.

Definition dumps (obj : value) (indent : nat) : answer str :=
  encode indent 0 obj.

End Json.

(* ================================================================= *)
(** ** strands_claude_streaming.py: the streaming entrypoint *)

Module Streaming.

Definition error_response (e : exn) : value :=
  VDict [(lit "error", VStr (exn_str e));
         (lit "type", VStr (lit "stream_error"))].

(** The body of the [async for] loop: an event with [data] is forwarded. *)
Definition forward (event : dict) : M kernel unit :=
  if dict_contains (lit "data") event then
    data <- lift (dict_getitem event (lit "data")) ;;
    emit (Yield data)
  else ret tt.

Section Entrypoint.

(** [agent.stream_async]: the events the agent streams for an input, and
    how the stream ends.  Each event is a [dict]. *)
Variable stream_async : value -> iter dict.

Definition strands_agent_bedrock_streaming (payload : dict)
    : M kernel unit :=
  let user_input := dict_get payload (lit "prompt") in
  print [Txt "User input:"; Val user_input] ;;
  try_except
    (_ <- call "agent.stream_async" [user_input]
            (Returns (VObj "async_generator")) ;;
     for_each VDict (stream_async user_input) forward)
    (fun e =>
       if isinstance e Exception then
         Some (print [Txt "Streaming error: "; Val (error_response e)] ;;
               emit (Yield (error_response e)))
       else None).

End Entrypoint.

(** What the loop does for a sequence of events: it takes each event
    and yields its [data] at once when it has some. *)
Definition forwarding (events : list dict) : list action :=
  flat_map (fun event =>
              Fetch (VDict event) ::
              if dict_contains (lit "data") event
              then [Yield (dict_get event (lit "data"))] else [])
           events.

(** The [data] values of the events that have the key, in order. *)
Definition data_chunks (events : list dict) : list value :=
  map (fun event => dict_get event (lit "data"))
      (filter (dict_contains (lit "data")) events).

End Streaming.

(* ================================================================= *)
(** ** Streaming notebook: waiting for the deployment *)

Module Polling.

Definition end_status : list str :=
  [lit "READY"; lit "CREATE_FAILED"; lit "DELETE_FAILED";
   lit "UPDATE_FAILED"].

(** [v in xs] for a list of strings: [==] holds only for an equal string. *)
Definition member (v : value) (xs : list str) : bool :=
  match v with
  | VStr s => existsb (str_eqb s) xs
  | _ => false
  end.

Section Cell.

(** [agentcore_runtime.status()]: the [endpoint] of the answer to the
    n-th call, or the exception the call raises. *)
Variable runtime_status : nat -> answer value.

(** The two lines
    [status_response = agentcore_runtime.status()] and
    [status = status_response.endpoint['status']]. *)
Definition poll : M kernel unit :=
  n <- tick ;;
  endpoint <- call "agentcore_runtime.status" [] (runtime_status n) ;;
  assign "status_response" endpoint ;;
  status_response <- read "status_response" ;;
  status <- lift (getitem status_response (lit "status")) ;;
  assign "status" status.

(** The [while] loop of the cell. *)
Definition wait_for_end_status (fuel : nat) : M kernel unit :=
  while fuel
    (status <- read "status" ;; ret (negb (member status end_status)))
    (emit (Sleep 10) ;;
     poll ;;
     status <- read "status" ;;
     print [Val status]).

Definition status_polling_cell (fuel : nat) : M kernel value :=
  poll ;;
  wait_for_end_status fuel ;;
  read "status".

End Cell.

End Polling.

(* ================================================================= *)
(** ** Streaming notebook: reading the event stream with boto3 *)

Module Sse.

Section Cell.

(** The branch for a response that is not an event stream; it is taken
    as given. *)
Variable non_streaming_branch : M kernel unit.

(** IPython's [Markdown(data)] and [display(obj)].  [Markdown] does not
    only wrap its text: a text that starts with ["http"] is downloaded and
    one that names a file is read, so that it can raise, and what its
    object shows need not be the text. *)
Variable markdown : value -> answer value.
Variable display : value -> answer value.

(** [content.append(x)] *)
Definition content_append (x : str) : M kernel unit :=
  content <- read "content" ;;
  match content with
  | VList xs => assign "content" (VList (xs ++ [VStr x]))
  | _ =>
      raise (MkExn AttributeError (lit "object has no attribute 'append'"))
  end.

(** [" ".join(content)] *)
Definition join_content (content : value) : answer str :=
  match content with
  | VList xs =>
      let fix strs (xs : list value) : option (list str) :=
        match xs with
        | [] => Some []
        | VStr s :: xs' => option_map (cons s) (strs xs')
        | _ :: _ => None
        end in
      match strs xs with
      | Some ss => Returns (Str.join (lit " ") ss)
      | None => Raises (MkExn TypeError (lit "expected str instance"))
      end
  | _ => Raises (MkExn TypeError (lit "can only join an iterable"))
  end.

(** The body of the loop over the lines of the response. *)
Definition handle_line (line : list byte) : M kernel unit :=
  match line with
  | [] => ret tt
  | _ :: _ =>
      line <- lift (Utf8.decode line) ;;
      if Str.startswith (lit "data: ") line then
        let data := Str.delete_char Str.dquote (skipn 6 line) in
        print [Txt "Received streaming chunk: "; Val (VStr data)] ;;
        content_append (Str.delete_char Str.dquote data)
      else ret tt
  end.

Definition streaming_branch (lines : iter (list byte)) : M kernel unit :=
  print [Txt "Processing streaming response with boto3:"] ;;
  assign "content" (VList []) ;;
  for_each VBytes lines handle_line ;;
  content <- read "content" ;;
  full_response <- lift (join_content content) ;;
  assign "full_response" (VStr full_response) ;;
  full_response <- read "full_response" ;;
  document <- call "Markdown" [full_response] (markdown full_response) ;;
  _ <- call "display" [document] (display document) ;;
  ret tt.

(** [content_type] is [boto3_response.get("contentType", "")] and
    [lines] is [boto3_response["response"].iter_lines(chunk_size=1)]. *)
Definition boto3_invoke_cell (content_type : str)
    (lines : iter (list byte)) : M kernel unit :=
  if Str.contains (lit "text/event-stream") content_type then
    streaming_branch lines
  else non_streaming_branch.

End Cell.

(** The chunks of a sequence of decoded lines: of each line that is not
    empty and starts with ["data: "], what is left when the first six
    characters and every double quote are removed. *)
Definition is_data_line (line : str) : bool :=
  match line with
  | [] => false
  | _ :: _ => Str.startswith (lit "data: ") line
  end.

Definition chunk_of (line : str) : str :=
  Str.delete_char Str.dquote (skipn 6 line).

Definition data_lines (decoded : list str) : list str :=
  map chunk_of (filter is_data_line decoded).

End Sse.

(* ================================================================= *)
(** ** Code-interpreter notebook *)

Module CodeInterpreter.

(** What the notebook gets from outside: the clock, the SDK, the two
    service planes, the local file system and two library functions.
    The services that are asked repeatedly answer by the number of the
    question (see [tick]). *)
Record services : Type := {
  time_time : nat -> Z;  (* [int(time.time())] *)
  get_data_plane_endpoint : answer value;
  get_control_plane_endpoint : answer value;
  boto3_client : string -> answer value;
  create_code_interpreter : value -> answer value;
  start_code_interpreter_session : value -> answer value;
  (* the [stream] of the response, or the exception of the call *)
  invoke_code_interpreter : nat -> value -> answer (iter dict);
  stop_code_interpreter_session : value -> answer value;
  delete_code_interpreter : value -> answer value;
  (* [open(path, 'r', encoding='utf-8')] *)
  open_file : value -> answer value;
  file_read : answer value;
  (* [json.loads] on a [str] or a [bytes] *)
  json_parse : value -> answer value;
  (* [str(v)] for containers, [bytes] and SDK objects *)
  str_of_object : value -> str
}.

Section Notebook.

Variable env : services.

(** [f"{v}"] *)
Definition format (v : value) : str :=
  match v with
  | VStr s => s
  | VInt z => Str.of_int z
  | VFloat r => r
  | VNone => lit "None"
  | VBool true => lit "True"
  | VBool false => lit "False"
  | _ => str_of_object env v
  end.

(** [json.loads(v)]: anything but a [str] or a [bytes] is refused, by the
    name of its class. *)
Definition json_loads (v : value) : answer value :=
  match v with
  | VStr _ | VBytes _ => json_parse env v
  | _ =>
      Raises (MkExn TypeError
                (lit "the JSON object must be str, bytes or bytearray, not "
                 ++ lit (type_name v)))
  end.

(** *** 2. Configuration variables *)
Definition configuration_cell : M kernel unit :=
  assign "execution_role_arn" (VStr (lit "<execution-role-arn>")) ;;
  n <- tick ;;
  assign "unique_bucket_name"
    (VStr (lit "amzn-bucket-" ++ Str.of_int (time_time env n))) ;;
  unique_bucket_name <- read "unique_bucket_name" ;;
  assign "s3_path" (VStr (lit "s3://" ++ format unique_bucket_name)) ;;
  assign "region" (VStr (lit "us-west-2")) ;;
  assign "local_file" (VStr (lit "samples/stats.py")).

(** *** 3. Setting up endpoints *)
Definition endpoints_cell : M kernel unit :=
  region <- read "region" ;;
  d <- call "endpoints.get_data_plane_endpoint" [region]
         (get_data_plane_endpoint env) ;;
  assign "data_plane_endpoint" d ;;
  region <- read "region" ;;
  c <- call "endpoints.get_control_plane_endpoint" [region]
         (get_control_plane_endpoint env) ;;
  assign "control_plane_endpoint" c.

(** *** 4. Creating AWS clients *)
Definition clients_cell : M kernel unit :=
  region <- read "region" ;;
  endpoint <- read "control_plane_endpoint" ;;
  cp <- call "boto3.client"
          [VStr (lit "bedrock-agentcore-control"); region; endpoint]
          (boto3_client env "bedrock-agentcore-control") ;;
  assign "cp_client" cp ;;
  region <- read "region" ;;
  endpoint <- read "data_plane_endpoint" ;;
  dp <- call "boto3.client"
          [VStr (lit "bedrock-agentcore"); region; endpoint]
          (boto3_client env "bedrock-agentcore") ;;
  assign "dp_client" dp.

(** *** 5. Creating a code interpreter *)
Definition create_cell : M kernel unit :=
  n <- tick ;;
  assign "unique_name"
    (VStr (lit "s3InteractionEnv_" ++ Str.of_int (time_time env n))) ;;
  _ <- read "cp_client" ;;
  unique_name <- read "unique_name" ;;
  execution_role_arn <- read "execution_role_arn" ;;
  let kwargs :=
    VDict [(lit "name", unique_name);
           (lit "description",
            VStr (lit "Environment for S3 file operations"));
           (lit "executionRoleArn", execution_role_arn);
           (lit "networkConfiguration",
            VDict [(lit "networkMode", VStr (lit "PUBLIC"))])] in
  interpreter_response <-
    call "cp_client.create_code_interpreter" [kwargs]
      (create_code_interpreter env kwargs) ;;
  assign "interpreter_response" interpreter_response ;;
  interpreter_id <-
    lift (getitem interpreter_response (lit "codeInterpreterId")) ;;
  assign "interpreter_id" interpreter_id ;;
  print [Txt "Created interpreter: "; Val interpreter_id].

(** *** 6. Starting a session *)
Definition start_session_cell : M kernel unit :=
  _ <- read "dp_client" ;;
  interpreter_id <- read "interpreter_id" ;;
  let kwargs :=
    VDict [(lit "codeInterpreterIdentifier", interpreter_id);
           (lit "name", VStr (lit "s3InteractionSession"));
           (lit "sessionTimeoutSeconds", VInt 900)] in
  session_response <-
    call "dp_client.start_code_interpreter_session" [kwargs]
      (start_code_interpreter_session env kwargs) ;;
  assign "session_response" session_response ;;
  session_id <- lift (getitem session_response (lit "sessionId")) ;;
  assign "session_id" session_id ;;
  print [Txt "Created session: "; Val session_id].

(** *** 7. Helper function for tool execution *)

(** The keyword arguments of [dp_client.invoke_code_interpreter]. *)
Definition invoke_kwargs (interpreter_id session_id : value)
    (tool_name : str) (arguments : value) : value :=
  VDict [(lit "codeInterpreterIdentifier", interpreter_id);
         (lit "sessionId", session_id);
         (lit "name", VStr tool_name);
         (lit "arguments", arguments)].

Definition call_tool (tool_name : str) (arguments : value)
    : M kernel value :=
  _ <- read "dp_client" ;;
  interpreter_id <- read "interpreter_id" ;;
  session_id <- read "session_id" ;;
  let kwargs := invoke_kwargs interpreter_id session_id tool_name arguments in
  n <- tick ;;
  let response := invoke_code_interpreter env n kwargs in
  _ <- call "dp_client.invoke_code_interpreter" [kwargs]
         (match response with
          | Returns _ => Returns (VObj "response")
          | Raises e => Raises e
          end) ;;
  stream <- lift response ;;
  returned <-
    for_returning VDict stream (fun event =>
      result <- lift (dict_getitem event (lit "result")) ;;
      text <- lift (Json.dumps result 2) ;;
      ret (Some (VStr text))) ;;
  match returned with
  | Some v => ret v
  | None => ret VNone
  end.

(** [json.dumps(event["result"], indent=2)], as a value or the exception
    it raises. *)
Definition result_as_json (event : dict) : answer value :=
  match dict_getitem event (lit "result") with
  | Returns result =>
      match Json.dumps result 2 with
      | Returns text => Returns (VStr text)
      | Raises e => Raises e
      end
  | Raises e => Raises e
  end.

Definition execute_command (command : str) : M kernel value :=
  call_tool (lit "executeCommand")
    (VDict [(lit "command", VStr command)]).

(** *** 8.1 Hello World *)
Definition hello_world_cell : M kernel unit :=
  print [Txt "executing shell command \n"] ;;
  command_response <- execute_command (lit "echo 'Hello World'") ;;
  assign "command_response" command_response ;;
  print [Txt "command result: "; Val command_response] ;;
  command_results <- lift (json_loads command_response) ;;
  assign "command_results" command_results ;;
  structured <- lift (getitem command_results (lit "structuredContent")) ;;
  stdout <- lift (getitem structured (lit "stdout")) ;;
  print [Val stdout].

(** *** 8.2 Installing boto3 in the sandbox *)
Definition pip_install_cell : M kernel unit :=
  print [Txt "executing shell command \n"] ;;
  command_response <- execute_command (lit "pip install boto3") ;;
  assign "command_response" command_response ;;
  command_results <- lift (json_loads command_response) ;;
  assign "command_results" command_results ;;
  structured <- lift (getitem command_results (lit "structuredContent")) ;;
  stdout <- lift (getitem structured (lit "stdout")) ;;
  print [Val stdout].

(** *** 9.1 Write local file to sandbox *)

(** What the handlers print for an exception of the [try] block. *)
Definition read_failure_message (local_file : value) (e : exn)
    : list piece :=
  if isinstance e FileNotFoundError then
    [Txt "Error: The file '"; Val local_file; Txt "' was not found."]
  else [Txt "An error occurred: "; Val (VStr (exn_str e))].

(** The [try] statement of the cell: read the local file, print what
    goes wrong. *)
Definition read_local_file : M kernel unit :=
  try_except
    (local_file <- read "local_file" ;;
     f <- call "open" [local_file; VStr (lit "r"); VStr (lit "utf-8")]
            (open_file env local_file) ;;
     assign "local_file_content" f ;;
     try_finally
       (_ <- read "local_file_content" ;;
        text <- call "read" [] (file_read env) ;;
        assign "local_file_content" text)
       (_ <- call "close" [] (Returns VNone) ;; ret tt))
    (fun e =>
       if isinstance e FileNotFoundError then
         Some (local_file <- read "local_file" ;;
               print [Txt "Error: The file '"; Val local_file;
                      Txt "' was not found."])
       else if isinstance e Exception then
         Some (print [Txt "An error occurred: "; Val (VStr (exn_str e))])
       else None).

Definition write_file_cell : M kernel unit :=
  print [Txt "Writing file to sandbox"] ;;
  read_local_file ;;
  local_file_content <- read "local_file_content" ;;
  assign "files_to_create"
    (VList [VDict [(lit "path", VStr (lit "stats.py"));
                   (lit "text", local_file_content)]]) ;;
  files_to_create <- read "files_to_create" ;;
  write_files_response <-
    call_tool (lit "writeFiles")
      (VDict [(lit "content", files_to_create)]) ;;
  assign "write_files_response" write_files_response ;;
  print [Txt "write files result: "; Val write_files_response].

(** *** 9.2 Create an S3 bucket *)
Definition create_bucket_cell : M kernel unit :=
  print [Txt "\nCreating S3 bucket"] ;;
  s3_path <- read "s3_path" ;;
  region <- read "region" ;;
  create_s3_response <-
    execute_command
      (lit "aws s3 mb " ++ format s3_path ++ lit " --region "
       ++ format region) ;;
  assign "create_s3_response" create_s3_response ;;
  print [Txt "create result: "; Val create_s3_response].

(** *** 9.3 Upload the file to the bucket *)
Definition upload_cell : M kernel unit :=
  print [Txt "\nUploading file to S3"] ;;
  files_to_create <- read "files_to_create" ;;
  first <- lift (getindex files_to_create 0) ;;
  path <- lift (getitem first (lit "path")) ;;
  s3_path <- read "s3_path" ;;
  upload_to_s3_response <-
    execute_command
      (lit "aws s3 cp " ++ format path ++ lit " " ++ format s3_path) ;;
  assign "upload_to_s3_response" upload_to_s3_response ;;
  print [Txt "upload result: "; Val upload_to_s3_response].

(** *** 9.4 List the files of the bucket *)
Definition list_cell : M kernel unit :=
  print [Txt "\nListing files in S3"] ;;
  s3_path <- read "s3_path" ;;
  list_s3_response <-
    execute_command (lit "aws s3 ls " ++ format s3_path) ;;
  assign "list_s3_response" list_s3_response ;;
  print [Txt "list result: "; Val list_s3_response].

(** *** 10. Cleanup *)
Definition cleanup_cell : M kernel unit :=
  print [Txt "Cleaning up session and interpreter"] ;;
  _ <- read "dp_client" ;;
  interpreter_id <- read "interpreter_id" ;;
  session_id <- read "session_id" ;;
  let kwargs :=
    VDict [(lit "codeInterpreterIdentifier", interpreter_id);
           (lit "sessionId", session_id)] in
  _ <- call "dp_client.stop_code_interpreter_session" [kwargs]
         (stop_code_interpreter_session env kwargs) ;;
  print [Txt "Session stopped successfully"] ;;
  _ <- read "cp_client" ;;
  interpreter_id <- read "interpreter_id" ;;
  let kwargs := VDict [(lit "codeInterpreterId", interpreter_id)] in
  _ <- call "cp_client.delete_code_interpreter" [kwargs]
         (delete_code_interpreter env kwargs) ;;
  print [Txt "Interpreter deleted successfully"].

(** The code cells from top to bottom; a cell that raises stops the
    run, as "Run All" does. *)
Definition notebook : list (M kernel unit) :=
  [configuration_cell; endpoints_cell; clients_cell; create_cell;
   start_session_cell; hello_world_cell; pip_install_cell;
   write_file_cell; create_bucket_cell; upload_cell; list_cell;
   cleanup_cell].

Fixpoint run_all (cells : list (M kernel unit)) : M kernel unit :=
  match cells with
  | [] => ret tt
  | c :: cells' => c ;; run_all cells'
  end.

End Notebook.

(** *** The life cycle of the remote resources

    The interpreter is created, a session is started in it, tools are
    invoked in the session, the session is stopped and the interpreter is
    deleted.  A phase records which resources are live, by the identifiers
    the services returned. *)
Inductive phase : Type :=
| NoInterpreter
| Created (interpreter : value)
| InSession (interpreter session : value)
| Stopped (interpreter : value)
| Deleted.

(** A keyword argument of a call, and a field of its response. *)
Definition kwarg (args : list value) (key : string) : value :=
  match args with
  | [VDict d] => dict_get d (lit key)
  | _ => VNone
  end.

Definition field (response : value) (key : string) : value :=
  match response with
  | VDict d => dict_get d (lit key)
  | _ => VNone
  end.

(** The phase after an action, or [None] when the action is a remote
    operation that is out of order or names a resource that is not live:
    [start] needs the interpreter that was created, [invoke] and [stop]
    need the session that was started and not stopped, [delete] needs the
    interpreter whose session was stopped, and nothing may follow
    [delete].  A call that raises leaves the phase as it was. *)
Definition lifecycle_step (p : phase) (a : action) : option phase :=
  match a with
  | Call target args res =>
      if String.eqb target "cp_client.create_code_interpreter" then
        match p, res with
        | NoInterpreter, Returns r =>
            Some (Created (field r "codeInterpreterId"))
        | NoInterpreter, Raises _ => Some NoInterpreter
        | _, _ => None
        end
      else if String.eqb target "dp_client.start_code_interpreter_session"
      then
        match p with
        | Created i =>
            if value_eqb (kwarg args "codeInterpreterIdentifier") i then
              match res with
              | Returns r => Some (InSession i (field r "sessionId"))
              | Raises _ => Some (Created i)
              end
            else None
        | _ => None
        end
      else if String.eqb target "dp_client.invoke_code_interpreter" then
        match p with
        | InSession i s =>
            if value_eqb (kwarg args "codeInterpreterIdentifier") i
               && value_eqb (kwarg args "sessionId") s
            then Some (InSession i s) else None
        | _ => None
        end
      else if String.eqb target "dp_client.stop_code_interpreter_session"
      then
        match p with
        | InSession i s =>
            if value_eqb (kwarg args "codeInterpreterIdentifier") i
               && value_eqb (kwarg args "sessionId") s
            then
              match res with
              | Returns _ => Some (Stopped i)
              | Raises _ => Some (InSession i s)
              end
            else None
        | _ => None
        end
      else if String.eqb target "cp_client.delete_code_interpreter" then
        match p with
        | Stopped i =>
            if value_eqb (kwarg args "codeInterpreterId") i then
              match res with
              | Returns _ => Some Deleted
              | Raises _ => Some (Stopped i)
              end
            else None
        | _ => None
        end
      else Some p
  | _ => Some p
  end.

Fixpoint lifecycle_from (p : phase) (t : list action) : option phase :=
  match t with
  | [] => Some p
  | a :: t' =>
      match lifecycle_step p a with
      | Some p' => lifecycle_from p' t'
      | None => None
      end
  end.

(** The remote operations of a run are in order. *)
Definition lifecycle_ok (t : list action) : bool :=
  match lifecycle_from NoInterpreter t with
  | Some _ => true
  | None => false
  end.

(** The remote operations of a run, by name. *)
Definition is_remote (target : string) : bool :=
  existsb (String.eqb target)
    ["cp_client.create_code_interpreter";
     "dp_client.start_code_interpreter_session";
     "dp_client.invoke_code_interpreter";
     "dp_client.stop_code_interpreter_session";
     "cp_client.delete_code_interpreter"].

Fixpoint remote_operations (t : list action) : list string :=
  match t with
  | [] => []
  | Call target _ _ :: t' =>
      if is_remote target then target :: remote_operations t'
      else remote_operations t'
  | _ :: t' => remote_operations t'
  end.

(** A computation started in phase [p] with kernel [k] keeps the remote
    operations in order, and ends in a phase and a kernel that satisfy
    [Q] when it returns and [E] when it raises. *)
Definition wp {A} (m : M kernel A) (Q : A -> phase -> kernel -> Prop)
    (E : exn -> phase -> kernel -> Prop) (p : phase) (k : kernel) : Prop :=
  match lifecycle_from p (trace (m k)) with
  | None => False
  | Some p' =>
      match result (m k) with
      | Ok a => Q a p' (vars (m k))
      | Raise e => E e p' (vars (m k))
      | Running => True
      end
  end.

(** Nothing is asked of a cell that raises: the run ends there. *)
Definition unchecked : exn -> phase -> kernel -> Prop := fun _ _ _ => True.

(** What the cells rely on: a session is open and the kernel holds its
    identifiers. *)
Definition session_open (p : phase) (k : kernel) : Prop :=
  exists i s,
    p = InSession i s
    /\ find_name "interpreter_id" (ns k) = Some i
    /\ find_name "session_id" (ns k) = Some s.

Definition interpreter_created (p : phase) (k : kernel) : Prop :=
  exists i,
    p = Created i /\ find_name "interpreter_id" (ns k) = Some i.

End CodeInterpreter.

(* ================================================================= *)
(** ** Browser-tool notebook *)

Module Browser.

(** How the constructors and methods of the browser-use, LangChain and
    Rich objects end.  A constructor gives an object of its class (which
    is true in an [if]) or raises.  The console messages are given without
    their markup.  [render_markup] is what Rich does with a message that
    interpolates a value before it prints it: it reads the text as
    markup, and raises [MarkupError] for a closing tag that matches no
    open one (a path in brackets, say). *)
Record library : Type := {
  BrowserProfile : answer unit;
  BrowserSession : answer unit;
  browser_session_start : answer value;
  ChatBedrockConverse : answer unit;
  Agent : answer unit;
  agent_run : answer value;
  browser_session_close : answer value;
  console_is_terminal : bool;
  render_markup : list piece -> answer unit
}.

(** The two messages of [run_browser_task] that interpolate a value. *)
Definition task_message (task : value) : list piece :=
  [Txt "Executing task: "; Val task].

Definition error_message (e : exn) : list piece :=
  [Txt "Error during task execution: "; Val (VStr (exn_str e))].

(** The exception raised in the [try] block of [run_browser_task], if
    any: while the task is announced, or while the agent is constructed
    or run. *)
Definition task_failure (lib : library) (task : value) : option exn :=
  match render_markup lib (task_message task) with
  | Raises e => Some e
  | Returns _ =>
      match Agent lib with
      | Raises e => Some e
      | Returns _ =>
          match agent_run lib with
          | Raises e => Some e
          | Returns _ => None
          end
      end
  end.

Section Notebook.

Variable lib : library.

(** [console.print(text)] for a text that interpolates a value: the
    message is printed when Rich can render it, and nothing is printed
    when rendering raises. *)
Definition console_print (message : list piece) : M kernel unit :=
  match render_markup lib message with
  | Returns _ => print message
  | Raises e => raise e
  end.

(** *** 4. Helper function to run a browser task *)
Definition run_browser_task (browser_session bedrock_chat task : value)
    : M kernel value :=
  try_except
    (console_print (task_message task) ;;
     agent <- construct "Agent" [task; bedrock_chat; browser_session]
                (Agent lib) ;;
     _ <- call "console.status" [] (Returns (VObj "Status")) ;;
     try_finally
       (_ <- call "agent.run" [] (agent_run lib) ;; ret tt)
       (_ <- call "Status.__exit__" [] (Returns VNone) ;; ret tt) ;;
     print [Txt "Task completed successfully!"])
    (fun e =>
       if isinstance e Exception then
         Some (console_print (error_message e) ;;
               if console_is_terminal lib then
                 _ <- call "traceback.print_exc" [] (Returns VNone) ;; ret tt
               else ret tt)
       else None) ;;
  ret VNone.

(** *** 5. The browser session: set up, run the task, close *)

(** The [try] block of the cell. *)
Definition session_body : M kernel unit :=
  headers <- read "headers" ;;
  browser_profile <-
    construct "BrowserProfile" [headers; VInt 1500000]
      (BrowserProfile lib) ;;
  assign "browser_profile" browser_profile ;;
  ws_url <- read "ws_url" ;;
  browser_profile <- read "browser_profile" ;;
  browser_session <-
    construct "BrowserSession" [ws_url; browser_profile; VBool true]
      (BrowserSession lib) ;;
  assign "browser_session" browser_session ;;
  print [Txt "Initializing browser session..."] ;;
  _ <- read "browser_session" ;;
  _ <- call "browser_session.start" [] (browser_session_start lib) ;;
  bedrock_chat <-
    construct "ChatBedrockConverse"
      [VStr (lit "anthropic.claude-3-5-sonnet-20240620-v1:0");
       VStr (lit "us-west-2")]
      (ChatBedrockConverse lib) ;;
  assign "bedrock_chat" bedrock_chat ;;
  print [Txt "Browser session initialized and ready for tasks"] ;;
  assign "task"
    (VStr (lit "Search for a coffee maker on amazon.com and extract details of the first one")) ;;
  browser_session <- read "browser_session" ;;
  bedrock_chat <- read "bedrock_chat" ;;
  task <- read "task" ;;
  _ <- run_browser_task browser_session bedrock_chat task ;;
  ret tt.

(** The [finally] block of the cell. *)
Definition session_cleanup : M kernel unit :=
  browser_session <- read "browser_session" ;;
  if truthy browser_session then
    print [Txt "Closing browser session..."] ;;
    suppress Exception
      (_ <- call "browser_session.close" [] (browser_session_close lib) ;;
       ret tt) ;;
    print [Txt "Browser session closed"]
  else ret tt.

Definition browser_session_cell : M kernel unit :=
  assign "browser_session" VNone ;;
  assign "bedrock_chat" VNone ;;
  try_finally session_body session_cleanup.

(** The kernel when the [try] block is entered. *)
Definition at_try (k : kernel) : kernel :=
  MkKernel (("bedrock_chat", VNone) :: ("browser_session", VNone) :: ns k)
           (ticks k).

End Notebook.

End Browser.

(* ================================================================= *)
(** ** More of Python: iteration, unpacking, attributes, [str.split] *)

Module PyMore.

(** [s.split(sep)] for a one-character [sep]: the pieces between the
    occurrences of [sep], empty pieces included. *)
Fixpoint split (sep : N) (s : str) : list str :=
  match s with
  | [] => [[]]
  | c :: s' =>
      if N.eqb c sep then [] :: split sep s'
      else
        match split sep s' with
        | piece :: pieces => (c :: piece) :: pieces
        | [] => [[c]]
        end
  end.

(** [v.split(sep)]: a method of [str]. *)
Definition split_method (v : value) (sep : N) : answer value :=
  match v with
  | VStr s => Returns (VList (map VStr (split sep s)))
  | _ => Raises (MkExn AttributeError (lit "object has no attribute 'split'"))
  end.

(** [v.decode("utf-8")]: a method of [bytes]. *)
Definition decode_method (v : value) : answer str :=
  match v with
  | VBytes bs => Utf8.decode bs
  | _ => Raises (MkExn AttributeError (lit "object has no attribute 'decode'"))
  end.

(** [obj.name] for the result objects of the starter toolkit, held as the
    dictionary of their attributes. *)
Definition getattr (obj : value) (name : string) : answer value :=
  match obj with
  | VDict d =>
      match lookup (lit name) d with
      | Some v => Returns v
      | None =>
          Raises (MkExn AttributeError
                    (lit "object has no attribute '" ++ lit name ++ lit "'"))
      end
  | _ =>
      Raises (MkExn AttributeError
                (lit "object has no attribute '" ++ lit name ++ lit "'"))
  end.

(** The items [for x in v] goes through: the elements of a list, the
    characters of a string, the keys of a dictionary, the bytes of a
    [bytes]; other values are not iterable. *)
Definition iterate (v : value) : answer (list value) :=
  match v with
  | VList xs => Returns xs
  | VStr s => Returns (map (fun c => VStr [c]) s)
  | VDict kvs => Returns (map (fun kv => VStr (fst kv)) kvs)
  | VBytes bs => Returns (map (fun b => VInt (Z.of_N (Byte.to_N b))) bs)
  | _ => Raises (MkExn TypeError (lit "object is not iterable"))
  end.

(** [a, b = v] *)
Definition unpack2 (v : value) : answer (value * value) :=
  match iterate v with
  | Returns [a; b] => Returns (a, b)
  | Returns _ =>
      Raises (MkExn ValueError (lit "wrong number of values to unpack"))
  | Raises e => Raises e
  end.

(** [name.append(x)] for a list held in the global [name]. *)
Definition append_to (name : string) (x : value) : M kernel unit :=
  xs <- read name ;;
  match xs with
  | VList items => assign name (VList (items ++ [x]))
  | _ =>
      raise (MkExn AttributeError (lit "object has no attribute 'append'"))
  end.

(** The seconds slept, in order. *)
Fixpoint sleeps (t : list action) : list Z :=
  match t with
  | [] => []
  | Sleep s :: t' => s :: sleeps t'
  | _ :: t' => sleeps t'
  end.

(** One turn of the polling loop that gets the answer [answer] with the
    status [status]: sleep, ask, print. *)
Definition poll_round (answer status : value) : list action :=
  [Sleep 10; Call "agentcore_runtime.status" [] (Returns answer);
   Print [Val status]].

(** A poll that fails: the call with number [n] raises, or its answer
    has no status. *)
Definition poll_fails (runtime_status : nat -> answer value) (n : nat)
    (e : exn) : Prop :=
  runtime_status n = Raises e
  \/ (exists answer,
        runtime_status n = Returns answer
        /\ getitem answer (lit "status") = Raises e).


(** The iterator that hands over [xs] and then goes on as [it]. *)
Definition followed_by {A} (xs : list A) (it : iter A) : iter A :=
  fold_right (fun x rest => Next x rest) it xs.

(** A string without a double quote. *)
Definition quote_free (s : str) : bool :=
  negb (existsb (N.eqb Str.dquote) s).

End PyMore.

(* ================================================================= *)
(** ** Streaming notebook: a response that is not an event stream *)

Module NonStreaming.

Section Branch.

(** [json.loads] on a [str], and [display(Markdown(data))]. *)
Variable json_parse : str -> answer value.
Variable display_markdown : value -> answer value.

(** The first [try] statement: collect the chunks of the response. *)
Definition read_events (response : iter (list byte)) : M kernel unit :=
  try_except
    (assign "events" (VList []) ;;
     for_each VBytes response (fun event =>
       PyMore.append_to "events" (VBytes event)))
    (fun e =>
       if isinstance e Exception then
         Some (assign "events"
                 (VList [VStr (lit "Error reading EventStream: "
                               ++ exn_str e)]))
       else None).

(** The [if] statement: show the first chunk, parsed as JSON when that
    works and raw when anything goes wrong. *)
Definition show_first_event : M kernel unit :=
  events <- read "events" ;;
  if truthy events then
    try_except
      (events <- read "events" ;;
       first <- lift (getindex events 0) ;;
       text <- lift (PyMore.decode_method first) ;;
       response_data <- call "json.loads" [VStr text] (json_parse text) ;;
       assign "response_data" response_data ;;
       response_data <- read "response_data" ;;
       _ <- call "display" [response_data]
              (display_markdown response_data) ;;
       ret tt)
      (fun _ =>
         Some (events <- read "events" ;;
               first <- lift (getindex events 0) ;;
               print [Txt "Raw response: "; Val first]))
  else ret tt.

(** [response] is what iterating [boto3_response.get("response", [])]
    gives. *)
Definition non_streaming_branch (response : iter (list byte))
    : M kernel unit :=
  read_events response ;;
  show_first_event.

(** The whole cell after the call to [invoke_agent_runtime]; [markdown]
    and [display] are those of the branch for an event stream. *)
Definition boto3_invoke_cell (markdown display : value -> answer value)
    (content_type : str) (lines response : iter (list byte))
    : M kernel unit :=
  Sse.boto3_invoke_cell (non_streaming_branch response) markdown display
    content_type lines.

End Branch.

End NonStreaming.

(* ================================================================= *)
(** ** Streaming notebook: cleanup of the runtime, the repository and
    the role *)

Module RuntimeCleanup.

Record services : Type := {
  boto3_client : string -> answer value;
  delete_agent_runtime : value -> answer value;
  delete_repository : value -> answer value;
  list_role_policies : value -> answer value;
  delete_role_policy : value -> answer value;
  delete_role : value -> answer value
}.

Section Cell.

Variable env : services.

(** [agentcore_iam_role['Role']['RoleName']] *)
Definition role_name : M kernel value :=
  agentcore_iam_role <- read "agentcore_iam_role" ;;
  role <- lift (getitem agentcore_iam_role (lit "Role")) ;;
  lift (getitem role (lit "RoleName")).

(** The keyword arguments of [iam_client.delete_role_policy]. *)
Definition policy_kwargs (role policy_name : value) : value :=
  VDict [(lit "RoleName", role); (lit "PolicyName", policy_name)].

(** The body of the loop over the policy names. *)
Definition delete_policy (policy_name : value) : M kernel unit :=
  assign "policy_name" policy_name ;;
  _ <- read "iam_client" ;;
  role <- role_name ;;
  policy_name <- read "policy_name" ;;
  _ <- call "iam_client.delete_role_policy"
         [policy_kwargs role policy_name]
         (delete_role_policy env (policy_kwargs role policy_name)) ;;
  ret tt.

(** The clients and the first two deletions. *)
Definition delete_runtime_and_repository : M kernel unit :=
  region <- read "region" ;;
  c <- call "boto3.client" [VStr (lit "bedrock-agentcore-control"); region]
         (boto3_client env "bedrock-agentcore-control") ;;
  assign "agentcore_control_client" c ;;
  region <- read "region" ;;
  c <- call "boto3.client" [VStr (lit "ecr"); region]
         (boto3_client env "ecr") ;;
  assign "ecr_client" c ;;
  c <- call "boto3.client" [VStr (lit "iam")] (boto3_client env "iam") ;;
  assign "iam_client" c ;;
  _ <- read "agentcore_control_client" ;;
  launch_result <- read "launch_result" ;;
  agent_id <- lift (PyMore.getattr launch_result "agent_id") ;;
  let kwargs := VDict [(lit "agentRuntimeId", agent_id)] in
  r <- call "agentcore_control_client.delete_agent_runtime" [kwargs]
         (delete_agent_runtime env kwargs) ;;
  assign "runtime_delete_response" r ;;
  _ <- read "ecr_client" ;;
  launch_result <- read "launch_result" ;;
  ecr_uri <- lift (PyMore.getattr launch_result "ecr_uri") ;;
  parts <- lift (PyMore.split_method ecr_uri 47) ;;
  repository <- lift (getindex parts 1) ;;
  let kwargs :=
    VDict [(lit "repositoryName", repository); (lit "force", VBool true)] in
  r <- call "ecr_client.delete_repository" [kwargs]
         (delete_repository env kwargs) ;;
  assign "response" r.

(** The role: its inline policies first, then the role itself. *)
Definition delete_role_with_policies : M kernel unit :=
  _ <- read "iam_client" ;;
  role <- role_name ;;
  let kwargs := VDict [(lit "RoleName", role); (lit "MaxItems", VInt 100)] in
  policies <- call "iam_client.list_role_policies" [kwargs]
                (list_role_policies env kwargs) ;;
  assign "policies" policies ;;
  policies <- read "policies" ;;
  names <- lift (getitem policies (lit "PolicyNames")) ;;
  names <- lift (PyMore.iterate names) ;;
  for_each (fun v => v) (iter_of names None) delete_policy ;;
  _ <- read "iam_client" ;;
  role <- role_name ;;
  let kwargs := VDict [(lit "RoleName", role)] in
  r <- call "iam_client.delete_role" [kwargs] (delete_role env kwargs) ;;
  assign "iam_response" r.

Definition cleanup_cell : M kernel unit :=
  delete_runtime_and_repository ;;
  delete_role_with_policies.

(** The cell before the cleanup, which shows
    [launch_result.ecr_uri, launch_result.agent_id,
     launch_result.ecr_uri.split('/')[1]]; the tuple is held as a
    list. *)
Definition preview_cell : M kernel value :=
  launch_result <- read "launch_result" ;;
  ecr_uri <- lift (PyMore.getattr launch_result "ecr_uri") ;;
  launch_result <- read "launch_result" ;;
  agent_id <- lift (PyMore.getattr launch_result "agent_id") ;;
  launch_result <- read "launch_result" ;;
  uri <- lift (PyMore.getattr launch_result "ecr_uri") ;;
  parts <- lift (PyMore.split_method uri 47) ;;
  repository <- lift (getindex parts 1) ;;
  ret (VList [ecr_uri; agent_id; repository]).

(** What the loop does for a sequence of policy names: it takes each
    name and asks for the deletion of that policy of the role. *)
Definition policy_deletions (role : value) (names : list value)
    : list action :=
  flat_map (fun name =>
              [Fetch name;
               Call "iam_client.delete_role_policy"
                 [policy_kwargs role name]
                 (delete_role_policy env (policy_kwargs role name))])
           names.

End Cell.

(** The keyword arguments of the other deletions. *)
Definition runtime_kwargs (agent_id : value) : value :=
  VDict [(lit "agentRuntimeId", agent_id)].

Definition repository_kwargs (repository : value) : value :=
  VDict [(lit "repositoryName", repository); (lit "force", VBool true)].

Definition role_kwargs (role : value) : value :=
  VDict [(lit "RoleName", role)].

(** An action that is no call, or a call to the IAM client. *)
Definition iam_only (a : action) : bool :=
  match a with
  | Call target _ _ => String.prefix "iam_client." target
  | _ => true
  end.

(** A string without a slash. *)
Definition slash_free (s : str) : bool := negb (existsb (N.eqb 47) s).

End RuntimeCleanup.

(* ================================================================= *)
(** ** Browser-tool notebook: the client of the browser sandbox *)

Module BrowserNotebook.

Record client : Type := {
  Session : answer unit;
  region_name : value;
  BrowserClient : answer unit;
  client_start : answer value;
  generate_ws_headers : answer value;
  client_stop : answer value
}.

Section Cells.

Variable c : client.
Variable lib : Browser.library.

(** *** 2. Setup the browser client *)
Definition setup_cell : M kernel unit :=
  boto_session <- construct "Session" [] (Session c) ;;
  assign "boto_session" boto_session ;;
  _ <- read "boto_session" ;;
  assign "region" (region_name c) ;;
  region <- read "region" ;;
  client <- construct "BrowserClient" [region] (BrowserClient c) ;;
  assign "client" client ;;
  _ <- read "client" ;;
  _ <- call "client.start" [] (client_start c) ;;
  _ <- read "client" ;;
  generated <- call "client.generate_ws_headers" []
                 (generate_ws_headers c) ;;
  pair <- lift (PyMore.unpack2 generated) ;;
  assign "ws_url" (fst pair) ;;
  assign "headers" (snd pair).

(** *** 6. Cleanup *)
Definition cleanup_cell : M kernel unit :=
  _ <- read "client" ;;
  _ <- call "client.stop" [] (client_stop c) ;;
  print [Txt "Browser session stopped successfully!"].

(** The code cells that act, from top to bottom. *)
Definition notebook : list (M kernel unit) :=
  [setup_cell; Browser.browser_session_cell lib; cleanup_cell].

End Cells.

(** The exception raised while the session cell sets up the profile, the
    session and the model, if any: that of the first step that fails. *)
Definition session_setup_failure (lib : Browser.library) : option exn :=
  match Browser.BrowserProfile lib with
  | Raises e => Some e
  | Returns _ =>
      match Browser.BrowserSession lib with
      | Raises e => Some e
      | Returns _ =>
          match Browser.browser_session_start lib with
          | Raises e => Some e
          | Returns _ =>
              match Browser.ChatBedrockConverse lib with
              | Raises e => Some e
              | Returns _ => None
              end
          end
      end
  end.

(** The task of the session cell. *)
Definition task : value :=
  VStr (lit "Search for a coffee maker on amazon.com and extract details of the first one").

End BrowserNotebook.

(* ================================================================= *)
(** ** Sample inputs *)

(** Events of an agent's stream: two with data around one without. *)
Definition sample_events : list dict :=
  [[(lit "data", VStr (lit "Hel"))];
   [(lit "event", VStr (lit "tool_use"))];
   [(lit "data", VStr (lit "lo")); (lit "delta", VInt 1)]].

Definition sample_payload : dict := [(lit "prompt", VStr (lit "hi"))].

Definition throttled : exn :=
  MkExn (UserError "EventStreamError") (lit "throttled").

Definition cancelled : exn := MkExn CancelledError [].

Definition interrupted : exn := MkExn KeyboardInterrupt [].

(** A deployment that is reported as [CREATING] once and [READY] from
    then on. *)
Definition deployment_statuses (i : nat) : value :=
  VStr (nth i [lit "CREATING"] (lit "READY")).

Definition deployment_answers (i : nat) : value :=
  VDict [(lit "status", deployment_statuses i);
         (lit "id", VStr (lit "endpoint-1"))].

Definition deployment (i : nat) : answer value :=
  Returns (deployment_answers i).

(** A [Markdown] that wraps its text and a [display] that shows it. *)
Definition shown_as_markdown (data : value) : answer value :=
  Returns (VObj "Markdown").

Definition displayed (document : value) : answer value := Returns VNone.

(** Lines of an event stream: two data lines around an empty line and a
    comment line. *)
Definition sample_lines : list (list byte) :=
  [list_byte_of_string "data: " ++ [x22] ++ list_byte_of_string "2 + 1"
     ++ [x22];
   [];
   list_byte_of_string ": keep-alive";
   list_byte_of_string "data: " ++ [x22] ++ list_byte_of_string " is 3 "
     ++ [xe2; x9c; x93] ++ [x22]]%byte.

Definition sample_decoded : list str :=
  [lit "data: " ++ [34] ++ lit "2 + 1" ++ [34];
   [];
   lit ": keep-alive";
   lit "data: " ++ [34] ++ lit " is 3 " ++ [10003] ++ [34]]%N.

(** The result of a command, as the code interpreter reports it. *)
Definition hello_result : value :=
  VDict [(lit "content",
          VList [VDict [(lit "type", VStr (lit "text"));
                        (lit "text", VStr (lit "Hello World"))]]);
         (lit "structuredContent",
          VDict [(lit "stdout", VStr (lit "Hello World"));
                 (lit "exitCode", VInt 0)]);
         (lit "isError", VBool false)].

(** A sandbox in which every remote call succeeds and every command
    reports [hello_result] in the first of two events; the local file
    [samples/stats.py] does not exist. *)
Definition sandbox : CodeInterpreter.services := {|
  CodeInterpreter.time_time := fun _ => 1752411395%Z;
  CodeInterpreter.get_data_plane_endpoint :=
    Returns (VStr (lit "https://bedrock-agentcore.us-west-2.amazonaws.com"));
  CodeInterpreter.get_control_plane_endpoint :=
    Returns (VStr (lit "https://bedrock-agentcore-control.us-west-2.amazonaws.com"));
  CodeInterpreter.boto3_client := fun service => Returns (VObj service);
  CodeInterpreter.create_code_interpreter := fun _ =>
    Returns (VDict [(lit "codeInterpreterId",
                     VStr (lit "s3InteractionEnv_1752411395-a1b2"))]);
  CodeInterpreter.start_code_interpreter_session := fun _ =>
    Returns (VDict [(lit "sessionId", VStr (lit "01K0SESSION"))]);
  CodeInterpreter.invoke_code_interpreter := fun _ _ =>
    Returns (iter_of [[(lit "result", hello_result)];
                      [(lit "result", VDict [])]] None);
  CodeInterpreter.stop_code_interpreter_session := fun _ =>
    Returns (VDict []);
  CodeInterpreter.delete_code_interpreter := fun _ => Returns (VDict []);
  CodeInterpreter.open_file := fun _ =>
    Raises (MkExn FileNotFoundError
              (lit "[Errno 2] No such file or directory: 'samples/stats.py'"));
  CodeInterpreter.file_read := Returns (VStr (lit "print(1)"));
  CodeInterpreter.json_parse := fun _ => Returns hello_result;
  CodeInterpreter.str_of_object := fun _ => lit "<object>"
|}.

(** The result of a command that reports how long it ran. *)
Definition timed_result : value :=
  VDict [(lit "structuredContent",
          VDict [(lit "stdout", VStr (lit "Hello World"));
                 (lit "exitCode", VInt 0);
                 (lit "executionTime", VFloat (lit "0.0125"))]);
         (lit "isError", VBool false)].

(** The sandbox, with a stream that hands over [events]. *)
Definition sandbox_streaming (events : list dict)
    : CodeInterpreter.services := {|
  CodeInterpreter.time_time := CodeInterpreter.time_time sandbox;
  CodeInterpreter.get_data_plane_endpoint :=
    CodeInterpreter.get_data_plane_endpoint sandbox;
  CodeInterpreter.get_control_plane_endpoint :=
    CodeInterpreter.get_control_plane_endpoint sandbox;
  CodeInterpreter.boto3_client := CodeInterpreter.boto3_client sandbox;
  CodeInterpreter.create_code_interpreter :=
    CodeInterpreter.create_code_interpreter sandbox;
  CodeInterpreter.start_code_interpreter_session :=
    CodeInterpreter.start_code_interpreter_session sandbox;
  CodeInterpreter.invoke_code_interpreter := fun _ _ =>
    Returns (iter_of events None);
  CodeInterpreter.stop_code_interpreter_session :=
    CodeInterpreter.stop_code_interpreter_session sandbox;
  CodeInterpreter.delete_code_interpreter :=
    CodeInterpreter.delete_code_interpreter sandbox;
  CodeInterpreter.open_file := CodeInterpreter.open_file sandbox;
  CodeInterpreter.file_read := CodeInterpreter.file_read sandbox;
  CodeInterpreter.json_parse := CodeInterpreter.json_parse sandbox;
  CodeInterpreter.str_of_object := CodeInterpreter.str_of_object sandbox
|}.

(** The kernel after the cells that come before the first use of the
    code interpreter. *)
Definition session_started : kernel :=
  vars (CodeInterpreter.run_all
          (firstn 5 (CodeInterpreter.notebook sandbox)) fresh).

(** The browser libraries when everything works, and two ways in which
    they do not: the user interrupts the task, and closing the session is
    cancelled. *)
Definition browser_ok : Browser.library := {|
  Browser.BrowserProfile := Returns tt;
  Browser.BrowserSession := Returns tt;
  Browser.browser_session_start := Returns VNone;
  Browser.ChatBedrockConverse := Returns tt;
  Browser.Agent := Returns tt;
  Browser.agent_run := Returns (VObj "AgentHistoryList");
  Browser.browser_session_close := Returns VNone;
  Browser.console_is_terminal := false;
  Browser.render_markup := fun _ => Returns tt
|}.

Definition browser_interrupted : Browser.library := {|
  Browser.BrowserProfile := Returns tt;
  Browser.BrowserSession := Returns tt;
  Browser.browser_session_start := Returns VNone;
  Browser.ChatBedrockConverse := Returns tt;
  Browser.Agent := Returns tt;
  Browser.agent_run := Raises interrupted;
  Browser.browser_session_close := Returns VNone;
  Browser.console_is_terminal := false;
  Browser.render_markup := fun _ => Returns tt
|}.

Definition browser_close_cancelled : Browser.library := {|
  Browser.BrowserProfile := Returns tt;
  Browser.BrowserSession := Returns tt;
  Browser.browser_session_start := Returns VNone;
  Browser.ChatBedrockConverse := Returns tt;
  Browser.Agent := Returns tt;
  Browser.agent_run := Returns (VObj "AgentHistoryList");
  Browser.browser_session_close := Raises cancelled;
  Browser.console_is_terminal := false;
  Browser.render_markup := fun _ => Returns tt
|}.

(** The kernel after the cell that sets up the browser client. *)
Definition browser_ready : kernel :=
  MkKernel [("headers", VDict [(lit "Authorization", VStr (lit "AWS4"))]);
            ("ws_url", VStr (lit "wss://bedrock-agentcore.us-west-2.amazonaws.com/browser-streams"))]
           0.

(** The sandbox with the local file in place. *)
Definition sandbox_with_file : CodeInterpreter.services := {|
  CodeInterpreter.time_time := CodeInterpreter.time_time sandbox;
  CodeInterpreter.get_data_plane_endpoint :=
    CodeInterpreter.get_data_plane_endpoint sandbox;
  CodeInterpreter.get_control_plane_endpoint :=
    CodeInterpreter.get_control_plane_endpoint sandbox;
  CodeInterpreter.boto3_client := CodeInterpreter.boto3_client sandbox;
  CodeInterpreter.create_code_interpreter :=
    CodeInterpreter.create_code_interpreter sandbox;
  CodeInterpreter.start_code_interpreter_session :=
    CodeInterpreter.start_code_interpreter_session sandbox;
  CodeInterpreter.invoke_code_interpreter :=
    CodeInterpreter.invoke_code_interpreter sandbox;
  CodeInterpreter.stop_code_interpreter_session :=
    CodeInterpreter.stop_code_interpreter_session sandbox;
  CodeInterpreter.delete_code_interpreter :=
    CodeInterpreter.delete_code_interpreter sandbox;
  CodeInterpreter.open_file := fun _ => Returns (VObj "TextIOWrapper");
  CodeInterpreter.file_read := CodeInterpreter.file_read sandbox;
  CodeInterpreter.json_parse := CodeInterpreter.json_parse sandbox;
  CodeInterpreter.str_of_object := CodeInterpreter.str_of_object sandbox
|}.

(** The sandbox when the user interrupts the kernel while the local file
    is opened. *)
Definition sandbox_interrupted : CodeInterpreter.services := {|
  CodeInterpreter.time_time := CodeInterpreter.time_time sandbox;
  CodeInterpreter.get_data_plane_endpoint :=
    CodeInterpreter.get_data_plane_endpoint sandbox;
  CodeInterpreter.get_control_plane_endpoint :=
    CodeInterpreter.get_control_plane_endpoint sandbox;
  CodeInterpreter.boto3_client := CodeInterpreter.boto3_client sandbox;
  CodeInterpreter.create_code_interpreter :=
    CodeInterpreter.create_code_interpreter sandbox;
  CodeInterpreter.start_code_interpreter_session :=
    CodeInterpreter.start_code_interpreter_session sandbox;
  CodeInterpreter.invoke_code_interpreter :=
    CodeInterpreter.invoke_code_interpreter sandbox;
  CodeInterpreter.stop_code_interpreter_session :=
    CodeInterpreter.stop_code_interpreter_session sandbox;
  CodeInterpreter.delete_code_interpreter :=
    CodeInterpreter.delete_code_interpreter sandbox;
  CodeInterpreter.open_file := fun _ => Raises interrupted;
  CodeInterpreter.file_read := CodeInterpreter.file_read sandbox;
  CodeInterpreter.json_parse := CodeInterpreter.json_parse sandbox;
  CodeInterpreter.str_of_object := CodeInterpreter.str_of_object sandbox
|}.

(** The kernel after the cells that come before the file is written. *)
Definition before_write_file : kernel :=
  vars (CodeInterpreter.run_all
          (firstn 7 (CodeInterpreter.notebook sandbox)) fresh).

(** A deployment whose status is [CREATING] at the first call and whose
    second call is throttled. *)
Definition deployment_lost (i : nat) : answer value :=
  match i with
  | O => Returns (deployment_answers 0)
  | S _ => Raises throttled
  end.

(** A line that is not UTF-8: a lone byte [0xff] after the prefix. *)
Definition broken_line : list byte :=
  (list_byte_of_string "data: " ++ [xff])%byte.

(** A response that is not an event stream: the body in two chunks. *)
Definition sample_body : list (list byte) :=
  [list_byte_of_string "{}"; list_byte_of_string "tail"].

(** A [json.loads] that refuses every text. *)
Definition json_refuses (text : str) : answer value :=
  Raises (MkExn (UserError "JSONDecodeError") (lit "Expecting value")).

(** What the starter toolkit returned for a launch, the role made for
    the runtime, and the kernel of the streaming notebook before its
    cleanup cell. *)
Definition launched (ecr_uri : str) : value :=
  VDict [(lit "agent_id", VStr (lit "strands_claude_streaming-a1b2"));
         (lit "ecr_uri", VStr ecr_uri)].

Definition runtime_role : value :=
  VDict [(lit "Role",
          VDict [(lit "RoleName", VStr (lit "agentcore-streaming-role"));
                 (lit "Path", VStr (lit "/"))])].

Definition deployed (ecr_uri : str) : kernel :=
  MkKernel [("launch_result", launched ecr_uri);
            ("agentcore_iam_role", runtime_role);
            ("region", VStr (lit "us-west-2"))] 0.

Definition inline_policies : list value :=
  [VStr (lit "invoke-model"); VStr (lit "pull-image");
   VStr (lit "write-logs")].

(** An account in which every deletion works but that of the policies
    named in [denied]. *)
Definition account (denied : list str) : RuntimeCleanup.services := {|
  RuntimeCleanup.boto3_client := fun service => Returns (VObj service);
  RuntimeCleanup.delete_agent_runtime := fun _ =>
    Returns (VDict [(lit "status", VStr (lit "DELETING"))]);
  RuntimeCleanup.delete_repository := fun _ => Returns (VDict []);
  RuntimeCleanup.list_role_policies := fun _ =>
    Returns (VDict [(lit "PolicyNames", VList inline_policies)]);
  RuntimeCleanup.delete_role_policy := fun kwargs =>
    if Polling.member (CodeInterpreter.field kwargs "PolicyName") denied
    then Raises (MkExn (UserError "ClientError") (lit "AccessDenied"))
    else Returns (VDict []);
  RuntimeCleanup.delete_role := fun _ => Returns (VDict [])
|}.

Definition registry : str := lit "123456789012.dkr.ecr.us-west-2.amazonaws.com".

(** The browser libraries when the model call of the agent is
    throttled, and when the browser cannot be reached. *)
Definition browser_throttled : Browser.library := {|
  Browser.BrowserProfile := Returns tt;
  Browser.BrowserSession := Returns tt;
  Browser.browser_session_start := Returns VNone;
  Browser.ChatBedrockConverse := Returns tt;
  Browser.Agent := Returns tt;
  Browser.agent_run := Raises throttled;
  Browser.browser_session_close := Returns VNone;
  Browser.console_is_terminal := false;
  Browser.render_markup := fun _ => Returns tt
|}.




Definition browser_unreachable : Browser.library := {|
  Browser.BrowserProfile := Returns tt;
  Browser.BrowserSession := Returns tt;
  Browser.browser_session_start :=
    Raises (MkExn (UserError "TimeoutError") (lit "CDP connection timed out"));
  Browser.ChatBedrockConverse := Returns tt;
  Browser.Agent := Returns tt;
  Browser.agent_run := Returns (VObj "AgentHistoryList");
  Browser.browser_session_close := Returns VNone;
  Browser.console_is_terminal := false;
  Browser.render_markup := fun _ => Returns tt
|}.

(** The client of the browser sandbox when everything works. *)
Definition browser_client : BrowserNotebook.client := {|
  BrowserNotebook.Session := Returns tt;
  BrowserNotebook.region_name := VStr (lit "us-west-2");
  BrowserNotebook.BrowserClient := Returns tt;
  BrowserNotebook.client_start := Returns (VStr (lit "01K0BROWSER"));
  BrowserNotebook.generate_ws_headers :=
    Returns (VList [VStr (lit "wss://bedrock-agentcore.us-west-2.amazonaws.com/browser-streams");
                    VDict [(lit "Authorization", VStr (lit "AWS4"))]]);
  BrowserNotebook.client_stop := Returns VNone
|}.

(** The sandbox with other answers of the interpreter, of the session's
    stop and of the local file system. *)
Definition sandbox_where
    (invoke : nat -> value -> answer (iter dict))
    (stop : value -> answer value)
    (open_file : value -> answer value) (file_read : answer value)
    : CodeInterpreter.services := {|
  CodeInterpreter.time_time := CodeInterpreter.time_time sandbox;
  CodeInterpreter.get_data_plane_endpoint :=
    CodeInterpreter.get_data_plane_endpoint sandbox;
  CodeInterpreter.get_control_plane_endpoint :=
    CodeInterpreter.get_control_plane_endpoint sandbox;
  CodeInterpreter.boto3_client := CodeInterpreter.boto3_client sandbox;
  CodeInterpreter.create_code_interpreter :=
    CodeInterpreter.create_code_interpreter sandbox;
  CodeInterpreter.start_code_interpreter_session :=
    CodeInterpreter.start_code_interpreter_session sandbox;
  CodeInterpreter.invoke_code_interpreter := invoke;
  CodeInterpreter.stop_code_interpreter_session := stop;
  CodeInterpreter.delete_code_interpreter :=
    CodeInterpreter.delete_code_interpreter sandbox;
  CodeInterpreter.open_file := open_file;
  CodeInterpreter.file_read := file_read;
  CodeInterpreter.json_parse := CodeInterpreter.json_parse sandbox;
  CodeInterpreter.str_of_object := CodeInterpreter.str_of_object sandbox
|}.

(** An interpreter whose response stream is empty, and one that cannot
    be reached. *)
Definition silent (n : nat) (kwargs : value) : answer (iter dict) :=
  Returns Stop.

Definition unreachable (n : nat) (kwargs : value) : answer (iter dict) :=
  Raises (MkExn (UserError "ClientError") (lit "ThrottlingException")).

(** A local file that is not UTF-8. *)
Definition not_utf8 : exn :=
  MkExn UnicodeDecodeError
    (lit "'utf-8' codec can't decode byte 0xff in position 0: invalid start byte").

(** The kernel of a second run of the cell that writes the file: the
    name [local_file_content] still holds the text of the first run. *)
Definition second_run : kernel :=
  MkKernel (("local_file_content", VStr (lit "print(0)"))
            :: ns before_write_file)
           (ticks before_write_file).

(* ================================================================= *)
(** * Properties *)

(* ----------------------------------------------------------------- *)
(** ** Basic facts *)

Lemma str_eqb_refl (s : str) : str_eqb s s = true.
Proof.
  induction s as [|c s IH]; simpl; [reflexivity|].
  now rewrite N.eqb_refl, IH.
Qed.

Lemma str_eqb_eq (a b : str) : str_eqb a b = true <-> a = b.
Proof.
  split.
  - revert b. induction a as [|x a IH]; intros [|y b] H; simpl in H;
      try discriminate; [reflexivity|].
    apply andb_true_iff in H as [Hx Hab].
    apply N.eqb_eq in Hx. f_equal; auto.
  - intros ->. apply str_eqb_refl.
Qed.

Lemma dict_get_absent (d : dict) (k : str) :
  dict_contains k d = false -> dict_get d k = VNone.
Proof.
  unfold dict_contains, dict_get. now destruct (lookup k d).
Qed.

Lemma dict_getitem_present (d : dict) (k : str) :
  dict_contains k d = true -> dict_getitem d k = Returns (dict_get d k).
Proof.
  unfold dict_contains, dict_getitem, dict_get.
  now destruct (lookup k d).
Qed.

Lemma yields_app (t u : list action) : yields (t ++ u) = yields t ++ yields u.
Proof.
  induction t as [|a t IH]; simpl; [reflexivity|].
  destruct a; simpl; now rewrite IH.
Qed.

Lemma prints_app (t u : list action) : prints (t ++ u) = prints t ++ prints u.
Proof.
  induction t as [|a t IH]; simpl; [reflexivity|].
  destruct a; simpl; now rewrite IH.
Qed.

Lemma fetched_app (t u : list action) :
  fetched (t ++ u) = fetched t ++ fetched u.
Proof.
  induction t as [|a t IH]; simpl; [reflexivity|].
  destruct a; simpl; now rewrite IH.
Qed.

Lemma calls_to_app (f : string) (t u : list action) :
  calls_to f (t ++ u) = calls_to f t ++ calls_to f u.
Proof.
  induction t as [|a t IH]; simpl; [reflexivity|].
  destruct a; simpl; try apply IH.
  destruct (String.eqb target f); simpl; now rewrite IH.
Qed.

(* ----------------------------------------------------------------- *)
(** ** The streaming entrypoint *)

Section StreamingFacts.

Import Streaming.

Lemma forward_loop (it : iter dict) (k : kernel) :
  for_each VDict it forward k =
  (forwarding (items it), k,
   match raised_by it with None => Ok tt | Some e => Raise e end).
Proof.
  unfold forwarding. revert k.
  induction it as [| e | event rest IH]; intros k;
    cbn [for_each items raised_by flat_map]; try reflexivity.
  unfold bind, emit, forward at 1.
  destruct (dict_contains (lit "data") event) eqn:Hin.
  - rewrite (dict_getitem_present _ _ Hin). unfold bind, lift, emit.
    simpl. rewrite IH. now destruct (raised_by rest).
  - unfold ret. rewrite IH. now destruct (raised_by rest).
Qed.

Lemma yields_forwarding (events : list dict) :
  yields (forwarding events) = data_chunks events.
Proof.
  unfold data_chunks.
  induction events as [|event events IH]; simpl; [reflexivity|].
  destruct (dict_contains (lit "data") event); simpl; now rewrite IH.
Qed.

Lemma prints_forwarding (events : list dict) :
  prints (forwarding events) = [].
Proof.
  induction events as [|event events IH]; simpl; [reflexivity|].
  now destruct (dict_contains (lit "data") event).
Qed.

Lemma calls_forwarding (f : string) (events : list dict) :
  calls_to f (forwarding events) = [].
Proof.
  induction events as [|event events IH]; simpl; [reflexivity|].
  now destruct (dict_contains (lit "data") event).
Qed.

Lemma items_iter_of {A} (xs : list A) (raised : option exn) :
  items (iter_of xs raised) = xs.
Proof.
  induction xs as [|x xs IH]; simpl; [now destruct raised|].
  now rewrite IH.
Qed.

Lemma raised_by_iter_of {A} (xs : list A) (raised : option exn) :
  raised_by (iter_of xs raised) = raised.
Proof.
  induction xs as [|x xs IH]; simpl; [now destruct raised|exact IH].
Qed.

(** The whole run of the entrypoint, for any stream. *)
Lemma entrypoint_run (stream_async : value -> iter dict) (payload : dict)
    (k : kernel) :
  let user_input := dict_get payload (lit "prompt") in
  let it := stream_async user_input in
  strands_agent_bedrock_streaming stream_async payload k =
  ([Print [Txt "User input:"; Val user_input];
    Call "agent.stream_async" [user_input]
      (Returns (VObj "async_generator"))]
   ++ forwarding (items it)
   ++ match raised_by it with
      | Some e =>
          if isinstance e Exception then
            [Print [Txt "Streaming error: "; Val (error_response e)];
             Yield (error_response e)]
          else []
      | None => []
      end,
   k,
   match raised_by it with
   | Some e => if isinstance e Exception then Ok tt else Raise e
   | None => Ok tt
   end).
Proof.
  intros user_input it.
  unfold strands_agent_bedrock_streaming.
  fold user_input. fold it.
  unfold bind at 1, print, emit, try_except, call, bind. simpl.
  rewrite forward_loop.
  destruct (raised_by it) as [e|]; simpl.
  - destruct (isinstance e Exception); simpl; [|now rewrite app_nil_r].
    reflexivity.
  - now rewrite app_nil_r.
Qed.

(** C2: when the agent's stream ends without an exception, the chunks
    the entrypoint yields are exactly the [data] values of the events
    that have the key ["data"], in the order of the events; events
    without the key yield nothing, and nothing else is yielded. *)
Theorem streaming_forwards_data_in_order
    (events : list dict) (payload : dict) (k : kernel) :
  let r :=
    strands_agent_bedrock_streaming (fun _ => iter_of events None)
      payload k in
  yields (trace r) = data_chunks events /\ result r = Ok tt.
Proof.
  intros r. subst r. rewrite entrypoint_run.
  rewrite items_iter_of, raised_by_iter_of.
  unfold trace, result. simpl.
  now rewrite app_nil_r, yields_forwarding.
Qed.

(** C1 (amended): when the agent's stream raises an exception that is
    an instance of [Exception], the entrypoint catches it, prints and
    yields one last chunk [{"error": str(e), "type": "stream_error"}]
    after the chunks it had forwarded, and ends without raising. *)
Theorem stream_error_is_yielded
    (events : list dict) (e : exn) (payload : dict) (k : kernel) :
  isinstance e Exception = true ->
  let r :=
    strands_agent_bedrock_streaming (fun _ => iter_of events (Some e))
      payload k in
  yields (trace r) = data_chunks events ++ [error_response e]
  /\ prints (trace r) =
     [[Txt "User input:"; Val (dict_get payload (lit "prompt"))];
      [Txt "Streaming error: "; Val (error_response e)]]
  /\ result r = Ok tt.
Proof.
  intros He r. subst r. rewrite entrypoint_run.
  rewrite items_iter_of, raised_by_iter_of, He.
  unfold trace, result. simpl.
  rewrite yields_app, prints_app, yields_forwarding, prints_forwarding.
  repeat split.
Qed.

(** C9: a payload without the key ["prompt"] is not rejected: the agent
    is called with [None], and the entrypoint raises only what the
    agent's stream raises past [except Exception]. *)
Theorem missing_prompt_is_forwarded
    (stream_async : value -> iter dict) (payload : dict) (k : kernel) :
  dict_contains (lit "prompt") payload = false ->
  let r := strands_agent_bedrock_streaming stream_async payload k in
  calls_to "agent.stream_async" (trace r) =
    [([VNone], Returns (VObj "async_generator"))]
  /\ yields (trace r) =
     data_chunks (items (stream_async VNone))
     ++ match raised_by (stream_async VNone) with
        | Some e =>
            if isinstance e Exception then [error_response e] else []
        | None => []
        end
  /\ result r =
     match raised_by (stream_async VNone) with
     | Some e => if isinstance e Exception then Ok tt else Raise e
     | None => Ok tt
     end.
Proof.
  intros Habsent r. subst r. rewrite entrypoint_run.
  rewrite (dict_get_absent _ _ Habsent).
  unfold trace, result. simpl.
  rewrite calls_to_app, yields_app, calls_forwarding, yields_forwarding.
  repeat split.
  - destruct (raised_by (stream_async VNone)) as [e|]; [|reflexivity].
    now destruct (isinstance e Exception).
  - destruct (raised_by (stream_async VNone)) as [e|]; [|reflexivity].
    now destruct (isinstance e Exception).
Qed.

End StreamingFacts.

Lemma stream_error_is_yielded_witness :
  isinstance throttled Exception = true
  /\ (let r :=
        Streaming.strands_agent_bedrock_streaming
          (fun _ => iter_of sample_events (Some throttled))
          sample_payload fresh in
      yields (trace r) =
        Streaming.data_chunks sample_events
        ++ [Streaming.error_response throttled]
      /\ prints (trace r) =
         [[Txt "User input:"; Val (dict_get sample_payload (lit "prompt"))];
          [Txt "Streaming error: ";
           Val (Streaming.error_response throttled)]]
      /\ result r = Ok tt).
Proof.
  split; [reflexivity|].
  apply (stream_error_is_yielded sample_events throttled sample_payload
           fresh).
  reflexivity.
Defined.

(** C1 as stated fails for an exception that does not derive from
    [Exception]: when the task is cancelled while the stream is read, the
    chunk before it was forwarded, no error chunk follows, and the
    exception leaves the generator. *)
Lemma stream_cancellation_propagates :
  let r :=
    Streaming.strands_agent_bedrock_streaming
      (fun _ => iter_of sample_events (Some cancelled))
      sample_payload fresh in
  yields (trace r) = [VStr (lit "Hel"); VStr (lit "lo")]
  /\ prints (trace r) = [[Txt "User input:"; Val (VStr (lit "hi"))]]
  /\ result r = Raise cancelled.
Proof. repeat split. Qed.

Lemma missing_prompt_is_forwarded_witness :
  dict_contains (lit "prompt") [(lit "query", VStr (lit "hi"))] = false
  /\ (let stream_async := fun _ : value => iter_of sample_events None in
      let r :=
        Streaming.strands_agent_bedrock_streaming stream_async
          [(lit "query", VStr (lit "hi"))] fresh in
      calls_to "agent.stream_async" (trace r) =
        [([VNone], Returns (VObj "async_generator"))]
      /\ yields (trace r) =
         Streaming.data_chunks (items (stream_async VNone))
         ++ match raised_by (stream_async VNone) with
            | Some e =>
                if isinstance e Exception
                then [Streaming.error_response e] else []
            | None => []
            end
      /\ result r =
         match raised_by (stream_async VNone) with
         | Some e => if isinstance e Exception then Ok tt else Raise e
         | None => Ok tt
         end).
Proof.
  split; [reflexivity|].
  apply (missing_prompt_is_forwarded
           (fun _ => iter_of sample_events None)
           [(lit "query", VStr (lit "hi"))] fresh).
  reflexivity.
Defined.

(* ----------------------------------------------------------------- *)
(** ** Waiting for the deployment *)

Lemma bind_ok {St A B} (m : M St A) (f : A -> M St B) s t s' a :
  m s = (t, s', Ok a) ->
  bind m f s = (let '(t2, s2, r2) := f a s' in (t ++ t2, s2, r2)).
Proof. intros H. unfold bind. now rewrite H. Qed.

Lemma bind_run {St A B} (m : M St A) (f : A -> M St B) s t s' a t2 s2 r2 :
  m s = (t, s', Ok a) -> f a s' = (t2, s2, r2) ->
  bind m f s = (t ++ t2, s2, r2).
Proof. intros H H2. unfold bind. now rewrite H, H2. Qed.

Lemma bind_running {St A B} (m : M St A) (f : A -> M St B) s t s' :
  m s = (t, s', Running) -> bind m f s = (t, s', Running).
Proof. intros H. unfold bind. now rewrite H. Qed.

Section PollingFacts.

Import Polling.

Variable runtime_status : nat -> answer value.
Variable answers : nat -> value.
Variable statuses : nat -> value.
Variable first_tick : nat.

(** The condition and the body of the loop. *)
Let cond : M kernel bool :=
  status <- read "status" ;; ret (negb (member status end_status)).
Let body : M kernel unit :=
  emit (Sleep 10) ;;
  poll runtime_status ;;
  status <- read "status" ;;
  print [Val status].

(** The [i]-th call of the cell is answered with status [statuses i]. *)
Let answered (i : nat) : Prop :=
  runtime_status (first_tick + i) = Returns (answers i)
  /\ getitem (answers i) (lit "status") = Returns (statuses i).

Lemma poll_answered (i : nat) (k : kernel) :
  answered i -> ticks k = first_tick + i ->
  poll runtime_status k =
  ([Call "agentcore_runtime.status" [] (Returns (answers i))],
   MkKernel (("status", statuses i) :: ("status_response", answers i)
             :: ns k) (S (ticks k)),
   Ok tt).
Proof.
  intros [Hcall Hget] Hk. unfold poll, bind, tick, call, assign, modify,
    read, lift. simpl. rewrite Hk, Hcall. simpl. now rewrite Hget.
Qed.

(** The loop, entered with the answer to call [j] in [status], when the
    first end status is the answer to call [j + n]. *)
Lemma loop_stops (n : nat) :
  forall (fuel j : nat) (k : kernel),
    find_name "status" (ns k) = Some (statuses j) ->
    ticks k = first_tick + S j ->
    (forall i, i <= j + n -> answered i) ->
    (forall i, j <= i < j + n -> member (statuses i) end_status = false) ->
    member (statuses (j + n)) end_status = true ->
    n <= fuel ->
    let r := wait_for_end_status runtime_status fuel k in
    result r = Ok tt
    /\ find_name "status" (ns (vars r)) = Some (statuses (j + n))
    /\ prints (trace r) = map (fun i => [Val (statuses i)]) (seq (S j) n)
    /\ List.length (calls_to "agentcore_runtime.status" (trace r)) = n.
Proof.
  cbv zeta. unfold wait_for_end_status. fold cond. fold body.
  induction n as [|n IH]; intros fuel j k Hst Hk Hans Hnot Hend Hfuel.
  - rewrite Nat.add_0_r in Hend.
    destruct fuel; simpl; unfold bind, cond, bind, read, ret;
      rewrite Hst, Hend; simpl; rewrite Nat.add_0_r; auto.
  - destruct fuel as [|fuel]; [lia|].
    assert (Hj : member (statuses j) end_status = false)
      by (apply Hnot; lia).
    assert (Hcond : cond k = ([], k, Ok true)).
    { unfold cond, bind, read, ret. now rewrite Hst, Hj. }
    assert (Hbody : body k =
              ([Sleep 10;
                Call "agentcore_runtime.status" []
                  (Returns (answers (S j)));
                Print [Val (statuses (S j))]],
               MkKernel (("status", statuses (S j))
                         :: ("status_response", answers (S j)) :: ns k)
                        (S (ticks k)),
               Ok tt)).
    { unfold body. unfold bind at 1. unfold emit at 1.
      unfold bind at 1.
      rewrite (poll_answered (S j) k); [reflexivity| |exact Hk].
      apply Hans. lia. }
    simpl while. rewrite (bind_ok _ _ _ _ _ _ Hcond).
    rewrite (bind_ok _ _ _ _ _ _ Hbody).
    set (k' := MkKernel _ _).
    specialize (IH fuel (S j) k').
    destruct (while fuel cond body k') as [[t2 k2] r2] eqn:Hrun.
    unfold trace, vars, result in *. simpl in *.
    replace (j + S n) with (S (j + n)) in * by lia.
    destruct IH as (Hr & Hs & Hp & Hc).
    + reflexivity.
    + simpl. rewrite Hk. lia.
    + exact Hans.
    + intros i Hi. apply Hnot. lia.
    + exact Hend.
    + lia.
    + rewrite Hp, Hc. repeat split; auto.
Qed.

(** While no end status has been seen the loop goes on. *)
Lemma loop_goes_on (fuel : nat) :
  forall (j : nat) (k : kernel),
    find_name "status" (ns k) = Some (statuses j) ->
    ticks k = first_tick + S j ->
    (forall i, i <= j + fuel -> answered i) ->
    (forall i, j <= i <= j + fuel ->
               member (statuses i) end_status = false) ->
    result (wait_for_end_status runtime_status fuel k) = Running.
Proof.
  unfold wait_for_end_status. fold cond. fold body.
  induction fuel as [|fuel IH]; intros j k Hst Hk Hans Hnot.
  - simpl. unfold bind, cond, bind, read, ret.
    rewrite Hst, (Hnot j) by lia. reflexivity.
  - assert (Hcond : cond k = ([], k, Ok true)).
    { unfold cond, bind, read, ret. now rewrite Hst, (Hnot j) by lia. }
    assert (Hbody : body k =
              ([Sleep 10;
                Call "agentcore_runtime.status" []
                  (Returns (answers (S j)));
                Print [Val (statuses (S j))]],
               MkKernel (("status", statuses (S j))
                         :: ("status_response", answers (S j)) :: ns k)
                        (S (ticks k)),
               Ok tt)).
    { unfold body. unfold bind at 1. unfold emit at 1.
      unfold bind at 1.
      rewrite (poll_answered (S j) k); [reflexivity| |exact Hk].
      apply Hans. lia. }
    simpl while. rewrite (bind_ok _ _ _ _ _ _ Hcond).
    rewrite (bind_ok _ _ _ _ _ _ Hbody).
    set (k' := MkKernel _ _).
    specialize (IH (S j) k').
    destruct (while fuel cond body k') as [[t2 k2] r2] eqn:Hrun.
    unfold result in *. simpl in *. apply IH.
    + reflexivity.
    + rewrite Hk. lia.
    + intros i Hi. apply Hans. lia.
    + intros i Hi. apply Hnot. lia.
Qed.

End PollingFacts.

(** C8 (amended): as long as the statuses seen lie outside [end_status]
    the loop goes on; when the answer to call [n] is the first one in
    [end_status] the cell ends with [status] equal to it.  The statuses
    fetched inside the loop (every one after the first, the last one
    included) are printed as they arrive; the status fetched before the
    loop is not printed. *)
Theorem polling_stops_at_first_end_status
    (runtime_status : nat -> answer value) (answers statuses : nat -> value)
    (k0 : kernel) (fuel : nat) :
  (forall i, i <= fuel ->
     runtime_status (ticks k0 + i) = Returns (answers i)
     /\ getitem (answers i) (lit "status") = Returns (statuses i)) ->
  let r := Polling.status_polling_cell runtime_status fuel k0 in
  (forall n, n <= fuel ->
     (forall i, i < n -> Polling.member (statuses i) Polling.end_status = false) ->
     Polling.member (statuses n) Polling.end_status = true ->
     result r = Ok (statuses n)
     /\ prints (trace r) = map (fun i => [Val (statuses i)]) (seq 1 n)
     /\ List.length (calls_to "agentcore_runtime.status" (trace r)) = S n)
  /\ ((forall i, i <= fuel ->
         Polling.member (statuses i) Polling.end_status = false) ->
      result r = Running).
Proof.
  intros Hans r.
  assert (Hpoll := poll_answered runtime_status answers statuses (ticks k0)
                     0 k0 (Hans 0 (Nat.le_0_l _)) (eq_sym (Nat.add_0_r _))).
  set (k1 := MkKernel _ _) in Hpoll.
  assert (Hst : find_name "status" (ns k1) = Some (statuses 0))
    by reflexivity.
  assert (Hk : ticks k1 = ticks k0 + 1) by (simpl; lia).
  destruct (Polling.wait_for_end_status runtime_status fuel k1)
    as [[t2 k2] r2] eqn:Hrun.
  split.
  - intros n Hn Hnot Hend.
    destruct (loop_stops runtime_status answers statuses (ticks k0) n
                fuel 0 k1 Hst Hk) as (Hr & Hs & Hp & Hc); auto.
    { intros i Hi. apply Hans. simpl in Hi. lia. }
    { intros i Hi. apply Hnot. simpl in Hi. lia. }
    rewrite Hrun in Hr, Hs, Hp, Hc. unfold trace, vars, result in *.
    simpl in *. subst r2 r. unfold Polling.status_polling_cell.
    rewrite (bind_run _ _ _ _ _ _ (t2 ++ []) k2 (Ok (statuses n)) Hpoll).
    + simpl. rewrite app_nil_r, Hp, Hc. auto.
    + apply (bind_run _ _ _ _ _ _ _ _ _ Hrun).
      unfold read. now rewrite Hs.
  - intros Hnot.
    assert (Hgo : r2 = Running).
    { change r2 with (result (t2, k2, r2)). rewrite <- Hrun.
      apply (loop_goes_on runtime_status answers statuses (ticks k0)
               fuel 0 k1 Hst Hk).
      - intros i Hi. apply Hans. simpl in Hi. lia.
      - intros i Hi. apply Hnot. simpl in Hi. lia. }
    rewrite Hgo in Hrun.
    subst r. unfold Polling.status_polling_cell.
    rewrite (bind_run _ _ _ _ _ _ t2 k2 Running Hpoll); [reflexivity|].
    now apply bind_running.
Qed.

Lemma polling_stops_at_first_end_status_witness :
  (forall i, i <= 3 ->
     deployment (ticks fresh + i) = Returns (deployment_answers i)
     /\ getitem (deployment_answers i) (lit "status")
        = Returns (deployment_statuses i))
  /\ (let r := Polling.status_polling_cell deployment 3 fresh in
      (forall n, n <= 3 ->
         (forall i, i < n ->
            Polling.member (deployment_statuses i) Polling.end_status
            = false) ->
         Polling.member (deployment_statuses n) Polling.end_status = true ->
         result r = Ok (deployment_statuses n)
         /\ prints (trace r)
            = map (fun i => [Val (deployment_statuses i)]) (seq 1 n)
         /\ List.length (calls_to "agentcore_runtime.status" (trace r))
            = S n)
      /\ ((forall i, i <= 3 ->
             Polling.member (deployment_statuses i) Polling.end_status
             = false) ->
          result r = Running)).
Proof.
  assert (H : forall i, i <= 3 ->
     deployment (ticks fresh + i) = Returns (deployment_answers i)
     /\ getitem (deployment_answers i) (lit "status")
        = Returns (deployment_statuses i))
    by (intros i _; split; reflexivity).
  split; [exact H|].
  exact (polling_stops_at_first_end_status deployment deployment_answers
           deployment_statuses fresh 3 H).
Defined.

(** C8 as stated fails for the status fetched before the loop: it is an
    intermediate status when it is not an end status, and the cell never
    prints it.  Here the deployment is [CREATING], then [READY]: the only
    line printed is [READY]. *)
Lemma first_status_is_not_printed :
  deployment_statuses 0 = VStr (lit "CREATING")
  /\ Polling.member (deployment_statuses 0) Polling.end_status = false
  /\ result (Polling.status_polling_cell deployment 3 fresh)
     = Ok (VStr (lit "READY"))
  /\ prints (trace (Polling.status_polling_cell deployment 3 fresh))
     = [[Val (VStr (lit "READY"))]].
Proof. repeat split. Qed.

(* ----------------------------------------------------------------- *)
(** ** Reading the event stream *)

Lemma delete_char_idempotent (c : N) (s : str) :
  Str.delete_char c (Str.delete_char c s) = Str.delete_char c s.
Proof.
  unfold Str.delete_char. induction s as [|x s IH]; simpl; [reflexivity|].
  destruct (negb (x =? c)%N) eqn:Hx; simpl; [|exact IH].
  now rewrite Hx, IH.
Qed.

Lemma join_content_strs (ss : list str) :
  Sse.join_content (VList (map VStr ss)) = Returns (Str.join (lit " ") ss).
Proof.
  unfold Sse.join_content.
  assert (H : (fix strs (xs : list value) : option (list str) :=
                 match xs with
                 | [] => Some []
                 | VStr s :: xs' => option_map (cons s) (strs xs')
                 | _ :: _ => None
                 end) (map VStr ss) = Some ss).
  { induction ss as [|x ss IH]; simpl; [reflexivity|]. now rewrite IH. }
  now rewrite H.
Qed.

Lemma content_append_run (x : str) (acc : list str) (k : kernel) :
  find_name "content" (ns k) = Some (VList (map VStr acc)) ->
  Sse.content_append x k =
  ([], MkKernel (("content", VList (map VStr (acc ++ [x]))) :: ns k)
         (ticks k), Ok tt).
Proof.
  intros H. unfold Sse.content_append, bind, read, assign, modify.
  rewrite H. simpl. now rewrite map_app.
Qed.

Lemma data_lines_cons (d : str) (ds : list str) :
  Sse.data_lines (d :: ds) =
  (if Sse.is_data_line d then [Sse.chunk_of d] else []) ++ Sse.data_lines ds.
Proof.
  unfold Sse.data_lines. cbn [filter].
  now destruct (Sse.is_data_line d).
Qed.

(** A line that is not empty does not decode to the empty string. *)
Lemma decode_nonempty (b : byte) (l : list byte) (d : str) :
  Utf8.decode (b :: l) = Returns d -> d <> [].
Proof.
  unfold Utf8.decode.
  destruct (Utf8.decode_points (b :: l)) as [s|] eqn:Hp; [|discriminate].
  intros [= ->] ->. revert Hp. cbn [Utf8.decode_points]. unfold option_map.
  repeat match goal with
         | |- context [if ?c then _ else _] => destruct c
         | |- context [match ?x with _ => _ end] =>
             first [ is_var x
                   | match x with Utf8.decode_points _ => idtac end ];
             destruct x
         end; discriminate.
Qed.

(** Whenever decoding fails, the decoder has found where and why. *)
Lemma first_error_found (n : nat) :
  forall (bs : list byte) (pos : N),
    List.length bs <= n ->
    Utf8.decode_points bs = None ->
    Utf8.first_error pos bs <> None.
Proof.
  induction n as [|n IH]; intros bs pos Hlen Hdec.
  - destruct bs; [discriminate Hdec|simpl in Hlen; lia].
  - destruct bs as [|b0 t0]; [discriminate Hdec|].
    cbn [Utf8.decode_points Utf8.first_error] in *.
    cbv zeta in *. unfold Utf8.second_of_three, Utf8.second_of_four.
    unfold option_map in Hdec. cbn [List.length] in Hlen.
    repeat match goal with
           | |- context [if ?c then _ else _] => destruct c eqn:?
           | |- context [match ?x with [] => _ | _ :: _ => _ end] =>
               is_var x; destruct x
           | |- Some _ <> None => discriminate
           end;
      cbn [andb List.length] in *; try discriminate;
      try (apply IH; [lia|];
           match goal with
           | H : match Utf8.decode_points ?l with _ => _ end = None |- _ =>
               destruct (Utf8.decode_points l); [discriminate H|reflexivity]
           end).
Qed.

Lemma handle_line_run (l : list byte) (d : str) (acc : list str)
    (k : kernel) :
  Utf8.decode l = Returns d ->
  find_name "content" (ns k) = Some (VList (map VStr acc)) ->
  exists t k',
    Sse.handle_line l k = (t, k', Ok tt)
    /\ find_name "content" (ns k')
       = Some (VList (map VStr
                 (acc ++ if Sse.is_data_line d then [Sse.chunk_of d]
                         else []))).
Proof.
  intros Hd Hacc. destruct l as [|b l].
  - cbv in Hd. injection Hd as <-. exists [], k. split; [reflexivity|].
    cbn [Sse.is_data_line]. now rewrite app_nil_r.
  - pose proof (decode_nonempty _ _ _ Hd) as Hne.
    unfold Sse.handle_line. unfold bind at 1, lift at 1. rewrite Hd.
    cbn [ended]. destruct d as [|c d]; [contradiction|].
    cbn [Sse.is_data_line].
    destruct (Str.startswith (lit "data: ") (c :: d)).
    + unfold bind, print, emit.
      rewrite (content_append_run _ acc k Hacc).
      rewrite delete_char_idempotent. eexists _, _.
      split; [reflexivity|]. reflexivity.
    + eexists _, _. split; [reflexivity|]. cbn [ns].
      now rewrite app_nil_r.
Qed.

(** The loop over the lines keeps in [content] the chunks seen so far. *)
Lemma lines_loop (lines : list (list byte)) :
  forall (decoded : list str) (acc : list str) (k : kernel),
    Forall2 (fun l d => Utf8.decode l = Returns d) lines decoded ->
    find_name "content" (ns k) = Some (VList (map VStr acc)) ->
    exists t k',
      for_each VBytes (iter_of lines None) Sse.handle_line k = (t, k', Ok tt)
      /\ find_name "content" (ns k')
         = Some (VList (map VStr (acc ++ Sse.data_lines decoded))).
Proof.
  induction lines as [|l lines IH]; intros decoded acc k Hdec Hacc;
    inversion Hdec as [|? d ? ds Hd Hrest]; subst.
  - exists [], k. split; [reflexivity|]. now rewrite app_nil_r.
  - destruct (handle_line_run l d acc k Hd Hacc) as (t1 & k1 & Hrun & Hk1).
    destruct (IH ds _ k1 Hrest Hk1) as (t2 & k2 & Hrun2 & Hk2).
    exists (Fetch (VBytes l) :: t1 ++ t2), k2. split.
    + cbn [iter_of for_each].
      apply (bind_run _ _ k [Fetch (VBytes l)] k tt); [reflexivity|].
      now apply (bind_run _ _ k t1 k1 tt).
    + now rewrite data_lines_cons, app_assoc.
Qed.

(** The branch for an event stream after its loop: the chunks are joined,
    the text is bound and handed to [Markdown], and what [Markdown]
    returns is displayed. *)
Lemma streaming_branch_after_loop
    (markdown display : value -> answer value) (lines : iter (list byte))
    (k k1 : kernel) (t : list action) (chunks : list str) :
  for_each VBytes lines Sse.handle_line
    (MkKernel (("content", VList []) :: ns k) (ticks k))
  = (t, k1, Ok tt) ->
  find_name "content" (ns k1) = Some (VList (map VStr chunks)) ->
  let text := VStr (Str.join (lit " ") chunks) in
  Sse.streaming_branch markdown display lines k
  = (Print [Txt "Processing streaming response with boto3:"]
     :: t ++ Call "Markdown" [text] (markdown text)
             :: match markdown text with
                | Returns document =>
                    [Call "display" [document] (display document)]
                | Raises _ => []
                end,
     MkKernel (("full_response", text) :: ns k1) (ticks k1),
     match markdown text with
     | Returns document =>
         match display document with
         | Returns _ => Ok tt
         | Raises e => Raise e
         end
     | Raises e => Raise e
     end).
Proof.
  intros Hrun Hk1 text. unfold Sse.streaming_branch.
  apply (bind_run _ _ k
           [Print [Txt "Processing streaming response with boto3:"]]
           k tt); [reflexivity|].
  apply (bind_run _ _ k [] (MkKernel (("content", VList []) :: ns k)
                              (ticks k)) tt); [reflexivity|].
  apply (bind_run _ _ _ t k1 tt); [exact Hrun|].
  unfold bind, read. rewrite Hk1. unfold lift.
  rewrite join_content_strs. cbn [ended]. unfold assign, modify, call.
  cbn [ns find_name String.eqb Ascii.eqb Bool.eqb]. fold text.
  destruct (markdown text) as [document|e]; cbn [ended];
    [|reflexivity].
  destruct (display document); reflexivity.
Qed.

(** C3: in the branch for an event stream, when every line decodes,
    [content] ends up holding exactly the chunks of the lines that are not
    empty and start with ["data: "] (the first six characters and every
    double quote removed), in the order of arrival, and [full_response]
    is those chunks joined by single spaces; the cell then ends as
    [display(Markdown(full_response))] does. *)
Theorem event_stream_lines_are_collected
    (non_streaming_branch : M kernel unit)
    (markdown display : value -> answer value) (content_type : str)
    (lines : list (list byte)) (decoded : list str) (k : kernel) :
  Str.contains (lit "text/event-stream") content_type = true ->
  Forall2 (fun l d => Utf8.decode l = Returns d) lines decoded ->
  let r :=
    Sse.boto3_invoke_cell non_streaming_branch markdown display
      content_type (iter_of lines None) k in
  let text := VStr (Str.join (lit " ") (Sse.data_lines decoded)) in
  find_name "content" (ns (vars r))
    = Some (VList (map VStr (Sse.data_lines decoded)))
  /\ find_name "full_response" (ns (vars r)) = Some text
  /\ result r
     = match markdown text with
       | Returns document =>
           match display document with
           | Returns _ => Ok tt
           | Raises e => Raise e
           end
       | Raises e => Raise e
       end.
Proof.
  intros Hct Hdec r text. subst r text.
  unfold Sse.boto3_invoke_cell. rewrite Hct.
  destruct (lines_loop lines decoded []
              (MkKernel (("content", VList []) :: ns k) (ticks k))
              Hdec eq_refl)
    as (t & k1 & Hrun & Hk1).
  cbn [app] in Hk1.
  rewrite (streaming_branch_after_loop markdown display _ k k1 t
             (Sse.data_lines decoded) Hrun Hk1).
  unfold vars, result. cbn [fst snd ns find_name String.eqb Ascii.eqb
                            Bool.eqb].
  now rewrite Hk1.
Qed.

Lemma event_stream_lines_are_collected_witness :
  Str.contains (lit "text/event-stream")
    (lit "text/event-stream; charset=utf-8") = true
  /\ Forall2 (fun l d => Utf8.decode l = Returns d)
       sample_lines sample_decoded
  /\ (let r :=
        Sse.boto3_invoke_cell (ret tt) shown_as_markdown displayed
          (lit "text/event-stream; charset=utf-8")
          (iter_of sample_lines None) fresh in
      find_name "content" (ns (vars r))
        = Some (VList (map VStr (Sse.data_lines sample_decoded)))
      /\ find_name "full_response" (ns (vars r))
         = Some (VStr (Str.join (lit " ") (Sse.data_lines sample_decoded)))
      /\ result r = Ok tt).
Proof.
  assert (H : Forall2 (fun l d => Utf8.decode l = Returns d)
                sample_lines sample_decoded)
    by (repeat constructor).
  split; [reflexivity|]. split; [exact H|].
  exact (event_stream_lines_are_collected (ret tt) shown_as_markdown
           displayed (lit "text/event-stream; charset=utf-8")
           sample_lines sample_decoded fresh eq_refl H).
Defined.

Example sample_lines_chunks :
  Sse.data_lines sample_decoded
  = [lit "2 + 1"; (lit " is 3 " ++ [10003])%N].
Proof. reflexivity. Qed.

(* ----------------------------------------------------------------- *)
(** ** The code-interpreter notebook: [call_tool] *)

(** C4 (amended): [call_tool] takes at most one event from the stream.
    When the first event has a ["result"] that [json.dumps] can
    serialize, [call_tool] returns that text, laid out with an indent of
    two; when the first event has no ["result"], or one that [json.dumps]
    refuses, the exception of [event["result"]] or of [json.dumps] leaves
    [call_tool]; when the stream hands over no event, [call_tool] returns
    [None]; and an exception of the stream itself leaves [call_tool]. *)
Theorem call_tool_returns_first_result
    (env : CodeInterpreter.services) (tool_name : str) (arguments : value)
    (k : kernel) (dp_client interpreter_id session_id : value)
    (stream : iter dict) :
  find_name "dp_client" (ns k) = Some dp_client ->
  find_name "interpreter_id" (ns k) = Some interpreter_id ->
  find_name "session_id" (ns k) = Some session_id ->
  CodeInterpreter.invoke_code_interpreter env (ticks k)
    (CodeInterpreter.invoke_kwargs interpreter_id session_id tool_name
       arguments)
    = Returns stream ->
  let r := CodeInterpreter.call_tool env tool_name arguments k in
  (forall event rest,
     stream = Next event rest ->
     fetched (trace r) = [VDict event]
     /\ result r
        = match dict_getitem event (lit "result") with
          | Returns value =>
              match Json.dumps value 2 with
              | Returns text => Ok (VStr text)
              | Raises e => Raise e
              end
          | Raises e => Raise e
          end)
  /\ (stream = Stop -> result r = Ok VNone /\ fetched (trace r) = [])
  /\ (forall e,
        stream = Fail e -> result r = Raise e /\ fetched (trace r) = []).
Proof.
  intros Hdp Hid Hsid Hinvoke r. subst r.
  unfold CodeInterpreter.call_tool, bind, read, tick, call, lift.
  rewrite Hdp, Hid, Hsid. cbn [ns ticks]. rewrite Hinvoke. cbn [ended].
  split; [|split].
  - intros event rest ->.
    cbn [for_returning]. unfold bind, emit, lift.
    destruct (dict_getitem event (lit "result")) as [v|e]; cbn [ended];
      [|now cbn].
    destruct (Json.dumps v 2) as [text|e]; now cbn.
  - intros ->. now cbn.
  - intros e ->. now cbn.
Qed.

Lemma call_tool_returns_first_result_witness :
  find_name "dp_client" (ns session_started)
    = Some (VObj "bedrock-agentcore")
  /\ find_name "interpreter_id" (ns session_started)
     = Some (VStr (lit "s3InteractionEnv_1752411395-a1b2"))
  /\ find_name "session_id" (ns session_started)
     = Some (VStr (lit "01K0SESSION"))
  /\ CodeInterpreter.invoke_code_interpreter sandbox (ticks session_started)
       (CodeInterpreter.invoke_kwargs
          (VStr (lit "s3InteractionEnv_1752411395-a1b2"))
          (VStr (lit "01K0SESSION")) (lit "executeCommand")
          (VDict [(lit "command", VStr (lit "echo 'Hello World'"))]))
     = Returns (Next [(lit "result", hello_result)]
                  (Next [(lit "result", VDict [])] Stop))
  /\ (let r :=
        CodeInterpreter.call_tool sandbox (lit "executeCommand")
          (VDict [(lit "command", VStr (lit "echo 'Hello World'"))])
          session_started in
      fetched (trace r) = [VDict [(lit "result", hello_result)]]
      /\ result r
         = match Json.dumps hello_result 2 with
           | Returns text => Ok (VStr text)
           | Raises e => Raise e
           end).
Proof.
  do 4 (split; [reflexivity|]).
  exact (proj1
           (call_tool_returns_first_result sandbox (lit "executeCommand")
              (VDict [(lit "command", VStr (lit "echo 'Hello World'"))])
              session_started (VObj "bedrock-agentcore")
              (VStr (lit "s3InteractionEnv_1752411395-a1b2"))
              (VStr (lit "01K0SESSION"))
              (Next [(lit "result", hello_result)]
                 (Next [(lit "result", VDict [])] Stop))
              eq_refl eq_refl eq_refl eq_refl)
           [(lit "result", hello_result)]
           (Next [(lit "result", VDict [])] Stop) eq_refl).
Defined.

(** C4 as stated fails for a first event without the key ["result"] (the
    service reports a failure in an event of another shape) and for a
    result that holds [bytes]: the stream handed over an event, and
    [call_tool] returns nothing; [KeyError], or the [TypeError] of
    [json.dumps], leaves it. *)
Lemma call_tool_raises_on_first_event :
  (let event :=
     [(lit "accessDeniedException",
       VDict [(lit "message", VStr (lit "denied"))])] in
   let r :=
     CodeInterpreter.call_tool (sandbox_streaming [event])
       (lit "executeCommand")
       (VDict [(lit "command", VStr (lit "echo 'Hello World'"))])
       session_started in
   fetched (trace r) = [VDict event]
   /\ result r = Raise (MkExn KeyError (lit "'result'")))
  /\ (let event :=
        [(lit "result",
          VDict [(lit "content",
                  VList [VDict [(lit "type", VStr (lit "image"));
                                (lit "data", VBytes [x89; x50; x4e; x47]%byte)]])])] in
      let r :=
        CodeInterpreter.call_tool (sandbox_streaming [event])
          (lit "executeCommand")
          (VDict [(lit "command", VStr (lit "echo 'Hello World'"))])
          session_started in
      fetched (trace r) = [VDict event]
      /\ result r
         = Raise (MkExn TypeError
                    (lit "Object of type bytes is not JSON serializable"))).
Proof. repeat split. Qed.

(** A result that reports a duration is serialized with the [repr] of
    the float. *)
Example call_tool_timed :
  let r :=
    CodeInterpreter.call_tool
      (sandbox_streaming [[(lit "result", timed_result)]])
      (lit "executeCommand")
      (VDict [(lit "command", VStr (lit "echo 'Hello World'"))])
      session_started in
  result r
  = Ok (VStr ([123; 10] ++ lit "  " ++ [34] ++ lit "structuredContent"
              ++ [34] ++ lit ": {" ++ [10]
              ++ lit "    " ++ [34] ++ lit "stdout" ++ [34] ++ lit ": "
              ++ [34] ++ lit "Hello World" ++ [34; 44; 10]
              ++ lit "    " ++ [34] ++ lit "exitCode" ++ [34]
              ++ lit ": 0," ++ [10]
              ++ lit "    " ++ [34] ++ lit "executionTime" ++ [34]
              ++ lit ": 0.0125" ++ [10]
              ++ lit "  }," ++ [10]
              ++ lit "  " ++ [34] ++ lit "isError" ++ [34]
              ++ lit ": false" ++ [10; 125])%N).
Proof. reflexivity. Qed.

(** In the sandbox [call_tool] returns the serialized result of the first
    of the two events, and takes that event only. *)
Example call_tool_hello :
  let r :=
    CodeInterpreter.call_tool sandbox (lit "executeCommand")
      (VDict [(lit "command", VStr (lit "echo 'Hello World'"))])
      session_started in
  result r = ended (CodeInterpreter.result_as_json
                      [(lit "result", hello_result)])
  /\ fetched (trace r) = [VDict [(lit "result", hello_result)]]
  /\ Json.dumps (VDict [(lit "stdout", VStr (lit "Hello World"));
                        (lit "exitCode", VInt 0)]) 2
     = Returns ([123; 10] ++ lit "  " ++ [34] ++ lit "stdout" ++ [34]
                ++ lit ": " ++ [34] ++ lit "Hello World" ++ [34; 44; 10]
                ++ lit "  " ++ [34] ++ lit "exitCode" ++ [34]
                ++ lit ": 0" ++ [10; 125])%N.
Proof. repeat split. Qed.

(* ----------------------------------------------------------------- *)
(** ** The browser-tool notebook *)

(** Closes a goal about a run that has been computed: the run is what it
    is, it has ended, and its readings are evaluated. *)
Ltac leaf :=
  eexists _, _, _; split; [reflexivity|];
  split; [discriminate|]; split; reflexivity.

(** Runs a cell of the browser notebook by cases on how the libraries
    answer. *)
Ltac library_cases render :=
  cbn;
  repeat match goal with
         | |- context [render ?message] =>
             destruct (render message) eqn:?; cbn
         | |- context [isinstance ?e ?c] =>
             destruct (isinstance e c) eqn:?; cbn
         | |- context [match ?x with _ => _ end] =>
             is_var x; destruct x; cbn
         | |- context [ended ?x] => is_var x; destruct x; cbn
         end.


(** The theorem at work: the model call is throttled while the agent
    runs; the error is printed and the function returns [None]. *)
Example browser_task_error_is_printed :
  let r :=
    Browser.run_browser_task browser_throttled (VObj "BrowserSession")
      (VObj "ChatBedrockConverse") (VStr (lit "Search")) browser_ready in
  result r = Ok VNone
  /\ prints (trace r)
     = [[Txt "Executing task: "; Val (VStr (lit "Search"))];
        [Txt "Error during task execution: "; Val (VStr (lit "throttled"))]]
  /\ List.length (calls_to "agent.run" (trace r)) = 1.
Proof. repeat split. Qed.


Lemma try_finally_run {St A} (body : M St A) (fin : M St unit)
    (s s1 s2 : St) (t1 t2 : list action) (r1 : outcome A)
    (r2 : outcome unit) :
  body s = (t1, s1, r1) -> r1 <> Running -> fin s1 = (t2, s2, r2) ->
  try_finally body fin s =
  (t1 ++ t2, s2,
   match r2 with
   | Ok _ => r1
   | Raise e2 => Raise e2
   | Running => Running
   end).
Proof.
  intros Hbody Hr1 Hfin. unfold try_finally. rewrite Hbody.
  destruct r1; try contradiction; now rewrite Hfin.
Qed.

Lemma succeeded_app (f : string) (t u : list action) :
  succeeded f (t ++ u) = succeeded f t || succeeded f u.
Proof. unfold succeeded. now rewrite calls_to_app, existsb_app. Qed.

(** The [try] block of the browser cell: it ends, it leaves in
    [browser_session] the session if it constructed one and [None]
    otherwise, and it does not close the session. *)
Lemma session_body_run (lib : Browser.library) (k : kernel) :
  exists t1 k1 r1,
    Browser.session_body lib (Browser.at_try k) = (t1, k1, r1)
    /\ r1 <> Running
    /\ find_name "browser_session" (ns k1)
       = Some (if succeeded "BrowserSession" t1
               then VObj "BrowserSession" else VNone)
    /\ calls_to "browser_session.close" t1 = [].
Proof.
  destruct lib as [bp bs st chat agent run close term render].
  unfold Browser.session_body, Browser.run_browser_task,
    Browser.console_print, Browser.task_message, Browser.error_message,
    Browser.at_try.
  unfold try_except, try_finally, bind, construct, call, print, emit, ret,
    raise, read, assign, modify.
  cbn.
  destruct (find_name "headers" (ns k)); cbn; [|leaf].
  destruct bp as [[]|]; cbn; [|leaf].
  destruct (find_name "ws_url" (ns k)); cbn; [|leaf].
  library_cases render; leaf.
Qed.

(** The [finally] block, where [browser_session] holds [session]. *)
Lemma session_cleanup_run (lib : Browser.library) (k1 : kernel)
    (session : value) :
  find_name "browser_session" (ns k1) = Some session ->
  exists t2 k2 r2,
    Browser.session_cleanup lib k1 = (t2, k2, r2)
    /\ calls_to "browser_session.close" t2
       = (if truthy session
          then [([], Browser.browser_session_close lib)] else [])
    /\ succeeded "BrowserSession" t2 = false
    /\ r2 = match Browser.browser_session_close lib with
            | Raises e =>
                if truthy session && negb (isinstance e Exception)
                then Raise e else Ok tt
            | Returns _ => Ok tt
            end.
Proof.
  intros Hsession.
  unfold Browser.session_cleanup, suppress.
  unfold try_except, bind, call, print, emit, ret, read.
  rewrite Hsession. cbn.
  destruct (truthy session); cbn.
  - destruct (Browser.browser_session_close lib) as [v|e]; cbn.
    + eexists _, _, _. repeat split.
    + destruct (isinstance e Exception); cbn; eexists _, _, _;
        repeat split.
  - eexists _, _, _. repeat split.
    now destruct (Browser.browser_session_close lib).
Qed.

(** C10 (amended): the [finally] block calls [browser_session.close()]
    exactly when the [BrowserSession] had been constructed, whatever was
    raised after that, and does not call it otherwise; an instance of
    [Exception] raised by [close()] is suppressed, so that the cell ends
    as its [try] block ended. *)
Theorem browser_session_is_closed (lib : Browser.library) (k : kernel) :
  let r := Browser.browser_session_cell lib k in
  calls_to "browser_session.close" (trace r)
    = (if succeeded "BrowserSession" (trace r)
       then [([], Browser.browser_session_close lib)] else [])
  /\ (forall e,
        Browser.browser_session_close lib = Raises e ->
        isinstance e Exception = true ->
        result r = result (Browser.session_body lib (Browser.at_try k))).
Proof.
  intros r.
  destruct (session_body_run lib k) as (t1 & k1 & r1 & Hbody & Hr1 & Hs & Hc).
  destruct (session_cleanup_run lib k1 _ Hs)
    as (t2 & k2 & r2 & Hfin & Hc2 & Hs2 & Hr2).
  assert (Hrun : r = (t1 ++ t2, k2,
                      match r2 with
                      | Ok _ => r1
                      | Raise e2 => Raise e2
                      | Running => Running
                      end)).
  { subst r. unfold Browser.browser_session_cell.
    unfold bind at 1, assign at 1, modify at 1.
    unfold bind at 1, assign at 1, modify at 1.
    change (MkKernel _ _) with (Browser.at_try k).
    now rewrite (try_finally_run _ _ _ _ _ _ _ _ _ Hbody Hr1 Hfin). }
  rewrite Hrun, Hbody. unfold trace, result. cbn [fst snd].
  rewrite calls_to_app, succeeded_app, Hc, Hc2, Hs2, orb_false_r.
  split.
  - now destruct (succeeded "BrowserSession" t1).
  - intros e Hclose He. rewrite Hr2, Hclose, He, andb_false_r.
    reflexivity.
Qed.

(** C10 as stated fails for an exception of [close()] that does not
    derive from [Exception]: the session was constructed and the task
    ran, closing is cancelled, and the cell ends with that exception
    although its [try] block ended well. *)
Lemma close_cancellation_propagates :
  succeeded "BrowserSession"
    (trace (Browser.browser_session_cell browser_close_cancelled
              browser_ready)) = true
  /\ result (Browser.session_body browser_close_cancelled
               (Browser.at_try browser_ready)) = Ok tt
  /\ result (Browser.browser_session_cell browser_close_cancelled
               browser_ready) = Raise cancelled.
Proof. repeat split. Qed.

(** The theorem at work: closing fails with an instance of [Exception]
    after the task was interrupted; the session is closed once and the
    interrupt, not the failure of [close()], ends the cell. *)
Example close_failure_is_suppressed :
  let lib := {|
    Browser.BrowserProfile := Returns tt;
    Browser.BrowserSession := Returns tt;
    Browser.browser_session_start := Returns VNone;
    Browser.ChatBedrockConverse := Returns tt;
    Browser.Agent := Returns tt;
    Browser.agent_run := Raises interrupted;
    Browser.browser_session_close := Raises throttled;
    Browser.console_is_terminal := true;
    Browser.render_markup := fun _ => Returns tt
  |} in
  let r := Browser.browser_session_cell lib browser_ready in
  calls_to "browser_session.close" (trace r) = [([], Raises throttled)]
  /\ result r = Raise interrupted.
Proof. repeat split. Qed.

(* ----------------------------------------------------------------- *)
(** ** The code-interpreter notebook: writing the file *)

(** C7 (amended): when opening or reading the local file raises an
    instance of [Exception], the [try] statement of the cell catches it
    and prints a message for it: that the file was not found for a
    [FileNotFoundError], [str(e)] otherwise. *)
Theorem read_failure_is_printed
    (env : CodeInterpreter.services) (k : kernel) (path : value) (e : exn) :
  find_name "local_file" (ns k) = Some path ->
  CodeInterpreter.open_file env path = Raises e
  \/ (exists f, CodeInterpreter.open_file env path = Returns f
                /\ CodeInterpreter.file_read env = Raises e) ->
  isinstance e Exception = true ->
  let r := CodeInterpreter.read_local_file env k in
  result r = Ok tt
  /\ prints (trace r) = [CodeInterpreter.read_failure_message path e].
Proof.
  intros Hpath Hraise He r. subst r.
  unfold CodeInterpreter.read_local_file,
    CodeInterpreter.read_failure_message.
  unfold try_except, try_finally, bind, read, call, print, emit, assign,
    modify, ret.
  rewrite Hpath. destruct Hraise as [Hopen | (f & Hopen & Hread)].
  - rewrite Hopen. cbn.
    destruct (isinstance e FileNotFoundError); cbn.
    + rewrite Hpath. now cbn.
    + rewrite He. now cbn.
  - rewrite Hopen. cbn. rewrite Hread. cbn.
    destruct (isinstance e FileNotFoundError); cbn.
    + rewrite Hpath. now cbn.
    + rewrite He. now cbn.
Qed.

Lemma read_failure_is_printed_witness :
  find_name "local_file" (ns before_write_file)
    = Some (VStr (lit "samples/stats.py"))
  /\ (CodeInterpreter.open_file sandbox (VStr (lit "samples/stats.py"))
       = Raises (MkExn FileNotFoundError
                   (lit "[Errno 2] No such file or directory: 'samples/stats.py'"))
      \/ (exists f,
            CodeInterpreter.open_file sandbox (VStr (lit "samples/stats.py"))
              = Returns f
            /\ CodeInterpreter.file_read sandbox
               = Raises (MkExn FileNotFoundError
                           (lit "[Errno 2] No such file or directory: 'samples/stats.py'"))))
  /\ isinstance
       (MkExn FileNotFoundError
          (lit "[Errno 2] No such file or directory: 'samples/stats.py'"))
       Exception = true
  /\ (let r := CodeInterpreter.read_local_file sandbox before_write_file in
      result r = Ok tt
      /\ prints (trace r)
         = [CodeInterpreter.read_failure_message
              (VStr (lit "samples/stats.py"))
              (MkExn FileNotFoundError
                 (lit "[Errno 2] No such file or directory: 'samples/stats.py'"))]).
Proof.
  split; [reflexivity|]. split; [left; reflexivity|].
  split; [reflexivity|].
  exact (read_failure_is_printed sandbox before_write_file
           (VStr (lit "samples/stats.py"))
           (MkExn FileNotFoundError
              (lit "[Errno 2] No such file or directory: 'samples/stats.py'"))
           eq_refl (or_introl eq_refl) eq_refl).
Defined.

(** What comes after the [try] statement needs [local_file_content]: when
    the file could not be opened and the name has no value yet, the cell
    raises [NameError] where it builds [files_to_create]. *)
Lemma write_file_cell_needs_the_file
    (env : CodeInterpreter.services) (k : kernel) (path : value) (e : exn) :
  find_name "local_file" (ns k) = Some path ->
  find_name "local_file_content" (ns k) = None ->
  CodeInterpreter.open_file env path = Raises e ->
  isinstance e Exception = true ->
  result (CodeInterpreter.write_file_cell env k)
  = Raise (name_error "local_file_content").
Proof.
  intros Hpath Hcontent Hopen He.
  unfold CodeInterpreter.write_file_cell, CodeInterpreter.read_local_file.
  unfold try_except, bind, read, call, print, emit, assign, modify.
  cbn. rewrite Hpath. cbn. rewrite Hopen. cbn.
  destruct (isinstance e FileNotFoundError); cbn.
  - rewrite Hpath. cbn. now rewrite Hcontent.
  - rewrite He. cbn. now rewrite Hcontent.
Qed.

(** The cell in a kernel that ran the cells before it, with
    [samples/stats.py] missing: it prints that the file was not found and
    then ends with [NameError]; nothing is written to the sandbox. *)
Lemma write_file_cell_raises_name_error :
  let r := CodeInterpreter.write_file_cell sandbox before_write_file in
  prints (trace r)
    = [[Txt "Writing file to sandbox"];
       [Txt "Error: The file '"; Val (VStr (lit "samples/stats.py"));
        Txt "' was not found."]]
  /\ result r = Raise (name_error "local_file_content")
  /\ calls_to "dp_client.invoke_code_interpreter" (trace r) = [].
Proof. repeat split. Qed.

(** C7 as stated fails in two ways.  An exception that does not derive
    from [Exception] is not caught: when the user interrupts the cell
    while the file is opened, nothing is printed for it and it leaves the
    cell.  And a caught failure does not let the cell complete: with the
    file missing the cell prints the message and then raises
    [NameError]. *)
Lemma write_file_cell_propagates :
  (let r := CodeInterpreter.write_file_cell sandbox_interrupted
              before_write_file in
   prints (trace r) = [[Txt "Writing file to sandbox"]]
   /\ result r = Raise interrupted)
  /\ (let r := CodeInterpreter.write_file_cell sandbox before_write_file in
      prints (trace r)
        = [[Txt "Writing file to sandbox"];
           [Txt "Error: The file '"; Val (VStr (lit "samples/stats.py"));
            Txt "' was not found."]]
      /\ result r = Raise (name_error "local_file_content")).
Proof. repeat split. Qed.

(* ----------------------------------------------------------------- *)
(** ** The code-interpreter notebook: the order of the remote operations *)

Lemma value_eqb_refl : forall v : value, value_eqb v v = true.
Proof.
  fix IH 1. intros [| b | z | r | s | bs | xs | kvs | label]; simpl.
  - reflexivity.
  - apply Bool.eqb_reflx.
  - apply Z.eqb_refl.
  - apply str_eqb_refl.
  - apply str_eqb_refl.
  - induction bs as [|c bs IHbs]; [reflexivity|].
    rewrite IHbs, andb_true_r. now apply Byte.byte_dec_lb.
  - induction xs as [|x xs IHxs]; [reflexivity|].
    now rewrite IH, IHxs.
  - induction kvs as [|[key x] kvs IHkvs]; [reflexivity|].
    now rewrite str_eqb_refl, IH, IHkvs.
  - apply String.eqb_refl.
Qed.

Section Lifecycle.

Import CodeInterpreter.

Lemma lifecycle_from_app (t u : list action) :
  forall p,
    lifecycle_from p (t ++ u) =
    match lifecycle_from p t with
    | Some p' => lifecycle_from p' u
    | None => None
    end.
Proof.
  induction t as [|a t IH]; intros p; simpl; [reflexivity|].
  destruct (lifecycle_step p a); [apply IH|reflexivity].
Qed.

Context {A : Type}.
Implicit Types (Q : A -> phase -> kernel -> Prop).
Implicit Types (E : exn -> phase -> kernel -> Prop).

Lemma wp_ret Q E (a : A) p k : Q a p k -> wp (ret a) Q E p k.
Proof. intros H. exact H. Qed.

Lemma wp_consequence (m : M kernel A) Q Q' E E' p k :
  wp m Q E p k ->
  (forall a p' k', Q a p' k' -> Q' a p' k') ->
  (forall e p' k', E e p' k' -> E' e p' k') ->
  wp m Q' E' p k.
Proof.
  unfold wp. intros H HQ HE.
  destruct (lifecycle_from p (trace (m k))); [|exact H].
  destruct (result (m k)); auto.
Qed.

Lemma wp_bind {B} (m : M kernel B) (f : B -> M kernel A) Q E p k :
  wp m (fun b p' k' => wp (f b) Q E p' k') E p k ->
  wp (bind m f) Q E p k.
Proof.
  unfold wp, bind, trace, result, vars.
  destruct (m k) as [[t1 k1] r1]. simpl.
  destruct (lifecycle_from p t1) as [p1|] eqn:H1; [|tauto].
  destruct r1 as [b|e|]; simpl.
  - destruct (f b k1) as [[t2 k2] r2]. simpl.
    now rewrite lifecycle_from_app, H1.
  - now rewrite H1.
  - now rewrite H1.
Qed.

Lemma wp_read (x : string) (Q : value -> phase -> kernel -> Prop) E p k :
  (forall v, find_name x (ns k) = Some v -> Q v p k) ->
  (find_name x (ns k) = None -> E (name_error x) p k) ->
  wp (read x) Q E p k.
Proof.
  unfold wp, read, trace, result, vars. intros HQ HE.
  destruct (find_name x (ns k)); simpl; auto.
Qed.

Lemma wp_lift (r : answer A) Q E p k :
  (forall a, r = Returns a -> Q a p k) ->
  (forall e, r = Raises e -> E e p k) ->
  wp (lift r) Q E p k.
Proof.
  unfold wp, lift, trace, result, vars. intros HQ HE.
  destruct r; simpl; auto.
Qed.

Lemma wp_try_except (body : M kernel A) handler Q E p k :
  wp body Q
     (fun e p' k' =>
        match handler e with
        | Some h => wp h Q E p' k'
        | None => E e p' k'
        end) p k ->
  wp (try_except body handler) Q E p k.
Proof.
  unfold wp, try_except, trace, result, vars.
  destruct (body k) as [[t1 k1] r1]. simpl.
  destruct (lifecycle_from p t1) as [p1|] eqn:H1; [|tauto].
  destruct r1 as [a|e|]; simpl; try now rewrite H1.
  destruct (handler e) as [h|]; simpl; [|now rewrite H1].
  destruct (h k1) as [[t2 k2] r2]. simpl.
  now rewrite lifecycle_from_app, H1.
Qed.

Lemma wp_try_finally (body : M kernel A) (fin : M kernel unit) Q E p k :
  wp body
     (fun a p' k' => wp fin (fun _ => Q a) E p' k')
     (fun e p' k' => wp fin (fun _ => E e) E p' k') p k ->
  wp (try_finally body fin) Q E p k.
Proof.
  unfold wp, try_finally, trace, result, vars.
  destruct (body k) as [[t1 k1] r1]. simpl.
  destruct (lifecycle_from p t1) as [p1|] eqn:H1; [|tauto].
  destruct r1 as [a|e|]; simpl; try now rewrite H1.
  - destruct (fin k1) as [[t2 k2] r2]. simpl.
    rewrite lifecycle_from_app, H1.
    destruct (lifecycle_from p1 t2); [|tauto]. now destruct r2.
  - destruct (fin k1) as [[t2 k2] r2]. simpl.
    rewrite lifecycle_from_app, H1.
    destruct (lifecycle_from p1 t2); [|tauto]. now destruct r2.
Qed.

(** A [for] loop with [return] keeps what its body keeps. *)
Lemma wp_for_returning {B} (inj : B -> value) (body : B -> M kernel (option A))
    (I : phase -> kernel -> Prop) (Q' : option A -> phase -> kernel -> Prop)
    E (it : iter B) :
  (forall b p k, I p k ->
     wp (body b)
        (fun r p' k' =>
           match r with
           | Some x => Q' (Some x) p' k'
           | None => I p' k'
           end) E p k) ->
  (forall p k, I p k -> Q' None p k) ->
  (forall e p k, I p k -> E e p k) ->
  forall p k, I p k -> wp (for_returning inj it body) Q' E p k.
Proof.
  intros Hbody Hnone Hfail.
  induction it as [| e | b rest IH]; intros p k HI.
  - apply Hnone, HI.
  - apply Hfail, HI.
  - cbn [for_returning]. specialize (Hbody b p k HI).
    unfold wp, bind, emit, trace, result, vars in *. simpl.
    destruct (body b k) as [[t1 k1] r1]. simpl in *.
    destruct (lifecycle_from p t1) as [p1|] eqn:H1; [|tauto].
    destruct r1 as [[x|]|e|]; simpl; try now rewrite H1.
    + now rewrite app_nil_r, H1.
    + specialize (IH p1 k1 Hbody).
      destruct (for_returning inj rest body k1) as [[t2 k2] r2].
      simpl in *. now rewrite lifecycle_from_app, H1.
Qed.

End Lifecycle.

Section LifecycleSteps.

Import CodeInterpreter.

Implicit Types (E : exn -> phase -> kernel -> Prop).

Lemma wp_assign (x : string) (v : value)
    (Q : unit -> phase -> kernel -> Prop) E p k :
  Q tt p (MkKernel ((x, v) :: ns k) (ticks k)) ->
  wp (assign x v) Q E p k.
Proof. intros H. exact H. Qed.

Lemma wp_tick (Q : nat -> phase -> kernel -> Prop) E p k :
  Q (ticks k) p (MkKernel (ns k) (S (ticks k))) -> wp tick Q E p k.
Proof. intros H. exact H. Qed.

Lemma wp_print (ps : list piece) (Q : unit -> phase -> kernel -> Prop) E p k :
  Q tt p k -> wp (print ps) Q E p k.
Proof. intros H. exact H. Qed.

Lemma wp_call (target : string) (args : list value) (res : answer value)
    (Q : value -> phase -> kernel -> Prop) E p k :
  (forall v, res = Returns v ->
     exists p', lifecycle_step p (Call target args (Returns v)) = Some p'
                /\ Q v p' k) ->
  (forall e, res = Raises e ->
     exists p', lifecycle_step p (Call target args (Raises e)) = Some p'
                /\ E e p' k) ->
  wp (call target args res) Q E p k.
Proof.
  unfold wp, call, trace, result, vars. cbn [fst snd lifecycle_from].
  intros HQ HE. destruct res as [v|e].
  - destruct (HQ v eq_refl) as (p' & -> & H). exact H.
  - destruct (HE e eq_refl) as (p' & -> & H). exact H.
Qed.

(** One step of a cell whose exceptions end the run. *)
Ltac wp_step :=
  cbv beta;
  lazymatch goal with
  | |- wp (bind (execute_command _ _) _) _ _ _ _ => fail
  | |- wp (bind (call_tool _ _ _) _) _ _ _ _ => fail
  | |- wp (bind (try_except _ _) _) _ _ _ _ => fail
  | |- wp (bind _ _) _ _ _ _ => apply wp_bind
  | |- wp (read _) _ _ _ _ => apply wp_read; [intros ? ?|intros _; exact I]
  | |- wp (assign _ _) _ _ _ _ => apply wp_assign
  | |- wp tick _ _ _ _ => apply wp_tick
  | |- wp (print _) _ _ _ _ => apply wp_print
  | |- wp (ret _) _ _ _ _ => apply wp_ret
  | |- wp (lift _) _ _ _ _ => apply wp_lift; [intros ? ?|intros; exact I]
  | |- wp (call _ _ _) _ _ _ _ =>
      apply wp_call;
      [ intros ? ?; eexists; split;
        [cbn; rewrite ?value_eqb_refl; reflexivity|]
      | intros ? ?; eexists; split;
        [cbn; rewrite ?value_eqb_refl; reflexivity|exact I] ]
  end.

Variable env : services.

Lemma configuration_cell_quiet p k :
  wp (configuration_cell env) (fun _ p' _ => p' = p) unchecked p k.
Proof. unfold configuration_cell, unchecked. repeat wp_step. reflexivity. Qed.

Lemma endpoints_cell_quiet p k :
  wp (endpoints_cell env) (fun _ p' _ => p' = p) unchecked p k.
Proof. unfold endpoints_cell, unchecked. repeat wp_step. reflexivity. Qed.

Lemma clients_cell_quiet p k :
  wp (clients_cell env) (fun _ p' _ => p' = p) unchecked p k.
Proof. unfold clients_cell, unchecked. repeat wp_step. reflexivity. Qed.

Lemma getitem_field (response : value) (key : string) (a : value) :
  getitem response (lit key) = Returns a -> field response key = a.
Proof.
  destruct response; try discriminate.
  unfold getitem, dict_getitem, field, dict_get.
  destruct (lookup (lit key) kvs); [|discriminate].
  now intros [= ->].
Qed.

Lemma create_cell_creates k :
  wp (create_cell env) (fun _ => interpreter_created) unchecked
     NoInterpreter k.
Proof.
  unfold create_cell, unchecked. repeat wp_step.
  eexists. split; [|reflexivity].
  f_equal. now apply getitem_field.
Qed.

Lemma start_session_cell_starts p k :
  interpreter_created p k ->
  wp (start_session_cell env) (fun _ => session_open) unchecked p k.
Proof.
  intros (i & -> & Hi).
  unfold start_session_cell, unchecked. wp_step. wp_step. wp_step.
  wp_step. rewrite Hi in H0. injection H0 as <-.
  repeat wp_step.
  eexists _, _. split; [|split; cbn; first [exact Hi|reflexivity]].
  f_equal. now apply getitem_field.
Qed.

(** [call_tool] needs an open session and leaves it open. *)
Lemma call_tool_keeps_session (tool_name : str) (arguments : value) p k :
  session_open p k ->
  wp (call_tool env tool_name arguments) (fun _ => session_open) unchecked
     p k.
Proof.
  intros (i & s & -> & Hi & Hs).
  unfold call_tool, unchecked. wp_step. wp_step. wp_step.
  wp_step. rewrite Hi in H0. injection H0 as <-.
  wp_step. wp_step. rewrite Hs in H0. injection H0 as <-.
  wp_step. wp_step. wp_step. wp_step. wp_step. wp_step. wp_step.
  apply (wp_for_returning VDict _ session_open).
  - intros event p' k' Hopen. repeat wp_step. exact Hopen.
  - intros p' k' Hopen. exact Hopen.
  - intros; exact I.
  - exists i, s. repeat split; assumption.
Qed.

Lemma execute_command_keeps_session (command : str) p k :
  session_open p k ->
  wp (execute_command env command) (fun _ => session_open) unchecked p k.
Proof. apply call_tool_keeps_session. Qed.

(** The session stays open whatever else the cell binds. *)
Ltac keep_open :=
  cbv beta;
  match goal with
  | H : session_open _ _ |- session_open _ _ =>
      let i := fresh "i" in
      let s := fresh "s" in
      let Hp := fresh "Hp" in
      let Hi := fresh "Hi" in
      let Hs := fresh "Hs" in
      destruct H as (i & s & Hp & Hi & Hs);
      exists i, s; repeat split; cbn; assumption
  end.

(** Runs a tool and goes on with the session open. *)
Ltac wp_tool :=
  cbv beta;
  lazymatch goal with
  | |- wp (bind (execute_command _ _) _) _ _ _ _ =>
      apply wp_bind;
      eapply wp_consequence;
      [ apply execute_command_keeps_session
      | cbv beta; intros ? ? ? ?
      | intros; exact I ]
  | |- wp (bind (call_tool _ _ _) _) _ _ _ _ =>
      apply wp_bind;
      eapply wp_consequence;
      [ apply call_tool_keeps_session
      | cbv beta; intros ? ? ? ?
      | intros; exact I ]
  end.

Lemma hello_world_cell_keeps_session p k :
  session_open p k ->
  wp (hello_world_cell env) (fun _ => session_open) unchecked p k.
Proof.
  intros Hopen. unfold hello_world_cell, unchecked.
  wp_step. wp_step. wp_tool; [exact Hopen|].
  repeat wp_step. keep_open.
Qed.

Lemma pip_install_cell_keeps_session p k :
  session_open p k ->
  wp (pip_install_cell env) (fun _ => session_open) unchecked p k.
Proof.
  intros Hopen. unfold pip_install_cell, unchecked.
  wp_step. wp_step. wp_tool; [exact Hopen|].
  repeat wp_step. keep_open.
Qed.

Lemma create_bucket_cell_keeps_session p k :
  session_open p k ->
  wp (create_bucket_cell env) (fun _ => session_open) unchecked p k.
Proof.
  intros Hopen. unfold create_bucket_cell, unchecked.
  repeat wp_step. wp_tool; [exact Hopen|].
  repeat wp_step. keep_open.
Qed.

Lemma upload_cell_keeps_session p k :
  session_open p k ->
  wp (upload_cell env) (fun _ => session_open) unchecked p k.
Proof.
  intros Hopen. unfold upload_cell, unchecked.
  repeat wp_step. wp_tool; [exact Hopen|].
  repeat wp_step. keep_open.
Qed.

Lemma list_cell_keeps_session p k :
  session_open p k ->
  wp (list_cell env) (fun _ => session_open) unchecked p k.
Proof.
  intros Hopen. unfold list_cell, unchecked.
  repeat wp_step. wp_tool; [exact Hopen|].
  repeat wp_step. keep_open.
Qed.

(** Inside the [try] block of the write-file cell an exception goes to
    the handlers, after the [finally] of the [with] statement when it is
    raised under it; the handlers keep the session open. *)
Ltac try_step handled :=
  cbv beta;
  lazymatch goal with
  | |- wp (bind _ _) _ _ _ _ => apply wp_bind
  | |- wp (try_finally _ _) _ _ _ _ => apply wp_try_finally
  | |- wp (read _) _ _ _ _ => apply wp_read; [intros ? ?|intros _; handled]
  | |- wp (assign _ _) _ _ _ _ => apply wp_assign
  | |- wp (ret _) _ _ _ _ => apply wp_ret
  | |- wp (call _ _ _) _ _ _ _ =>
      apply wp_call;
      [ intros ? ?; eexists; split; [reflexivity|]
      | intros ? ?; eexists; split; [reflexivity|handled] ]
  end.

Ltac handled :=
  cbv beta;
  lazymatch goal with
  | |- wp _ _ _ _ _ => repeat try_step handled
  | |- _ => idtac
  end;
  cbv beta;
  repeat match goal with
         | |- context [isinstance ?e ?c] => destruct (isinstance e c)
         end;
  first [exact I | repeat wp_step; keep_open].

Lemma write_file_cell_keeps_session p k :
  session_open p k ->
  wp (write_file_cell env) (fun _ => session_open) unchecked p k.
Proof.
  intros Hopen. unfold write_file_cell, read_local_file, unchecked.
  wp_step. wp_step. apply wp_bind.
  apply (wp_consequence _ (fun _ => session_open) _ unchecked).
  - apply wp_try_except. repeat try_step handled. keep_open.
  - intros _ p' k' Hopen'. repeat wp_step.
    wp_tool; [keep_open|]. repeat wp_step. keep_open.
  - intros; exact I.
Qed.

Lemma cleanup_cell_deletes p k :
  session_open p k ->
  wp (cleanup_cell env) (fun _ p' _ => p' = Deleted) unchecked p k.
Proof.
  intros (i & s & -> & Hi & Hs). unfold cleanup_cell, unchecked.
  do 6 wp_step. rewrite Hi in H0. injection H0 as <-.
  do 2 wp_step. rewrite Hs in H0. injection H0 as <-.
  do 9 wp_step. rewrite Hi in H2. injection H2 as <-.
  repeat wp_step. reflexivity.
Qed.

(** The code cells, run from the top in any kernel. *)
Lemma notebook_lifecycle k :
  wp (run_all (notebook env)) (fun _ p' _ => p' = Deleted) unchecked
     NoInterpreter k.
Proof.
  unfold notebook. cbn [run_all].
  apply wp_bind.
  apply (wp_consequence _ _ _ _ _ _ _ (configuration_cell_quiet _ _));
    [|intros; exact I].
  intros _ ? k1 ->. apply wp_bind.
  apply (wp_consequence _ _ _ _ _ _ _ (endpoints_cell_quiet _ _));
    [|intros; exact I].
  intros _ ? k2 ->. apply wp_bind.
  apply (wp_consequence _ _ _ _ _ _ _ (clients_cell_quiet _ _));
    [|intros; exact I].
  intros _ ? k3 ->. apply wp_bind.
  apply (wp_consequence _ _ _ _ _ _ _ (create_cell_creates _));
    [|intros; exact I].
  intros _ p4 k4 H4. apply wp_bind.
  apply (wp_consequence _ _ _ _ _ _ _ (start_session_cell_starts _ _ H4));
    [|intros; exact I].
  intros _ p5 k5 H5. apply wp_bind.
  apply (wp_consequence _ _ _ _ _ _ _
           (hello_world_cell_keeps_session _ _ H5)); [|intros; exact I].
  intros _ p6 k6 H6. apply wp_bind.
  apply (wp_consequence _ _ _ _ _ _ _
           (pip_install_cell_keeps_session _ _ H6)); [|intros; exact I].
  intros _ p7 k7 H7. apply wp_bind.
  apply (wp_consequence _ _ _ _ _ _ _
           (write_file_cell_keeps_session _ _ H7)); [|intros; exact I].
  intros _ p8 k8 H8. apply wp_bind.
  apply (wp_consequence _ _ _ _ _ _ _
           (create_bucket_cell_keeps_session _ _ H8)); [|intros; exact I].
  intros _ p9 k9 H9. apply wp_bind.
  apply (wp_consequence _ _ _ _ _ _ _
           (upload_cell_keeps_session _ _ H9)); [|intros; exact I].
  intros _ p10 k10 H10. apply wp_bind.
  apply (wp_consequence _ _ _ _ _ _ _
           (list_cell_keeps_session _ _ H10)); [|intros; exact I].
  intros _ p11 k11 H11. apply wp_bind.
  apply (wp_consequence _ _ _ _ _ _ _ (cleanup_cell_deletes _ _ H11));
    [|intros; exact I].
  intros _ p12 k12 ->. reflexivity.
Qed.

(** C5: however the services answer, the remote operations of the
    notebook are issued in the order of the pipeline: the interpreter is
    created before a session is started in it, every tool is invoked in
    that session while it is open, the session is stopped before the
    interpreter is deleted, and nothing is issued against a resource once
    it is released.  A run that goes through every cell ends with the
    interpreter deleted. *)
Theorem notebook_operations_are_in_order (k : kernel) :
  let r := run_all (notebook env) k in
  lifecycle_ok (trace r) = true
  /\ (result r = Ok tt ->
      lifecycle_from NoInterpreter (trace r) = Some Deleted).
Proof.
  intros r. pose proof (notebook_lifecycle k) as H.
  unfold wp in H. fold r in H. unfold lifecycle_ok.
  destruct (lifecycle_from NoInterpreter (trace r)) as [p|];
    [|contradiction].
  split; [reflexivity|]. intros Hr. rewrite Hr in H. now subst p.
Qed.

End LifecycleSteps.

(** With every service answering and the local file in place, the run
    goes through the whole pipeline. *)
Example notebook_run_in_the_sandbox :
  let r :=
    CodeInterpreter.run_all (CodeInterpreter.notebook sandbox_with_file)
      fresh in
  result r = Ok tt
  /\ CodeInterpreter.remote_operations (trace r)
     = ["cp_client.create_code_interpreter";
        "dp_client.start_code_interpreter_session";
        "dp_client.invoke_code_interpreter";
        "dp_client.invoke_code_interpreter";
        "dp_client.invoke_code_interpreter";
        "dp_client.invoke_code_interpreter";
        "dp_client.invoke_code_interpreter";
        "dp_client.invoke_code_interpreter";
        "dp_client.stop_code_interpreter_session";
        "cp_client.delete_code_interpreter"]
  /\ CodeInterpreter.lifecycle_from CodeInterpreter.NoInterpreter (trace r)
     = Some CodeInterpreter.Deleted.
Proof. repeat split. Qed.

(** Orders that the life cycle rules out: a tool invoked in a session that
    was stopped, and an interpreter deleted while its session is open. *)
Example invoke_after_stop_is_out_of_order :
  let i := VStr (lit "interpreter-1") in
  let s := VStr (lit "session-1") in
  let ids := VDict [(lit "codeInterpreterIdentifier", i);
                    (lit "sessionId", s)] in
  CodeInterpreter.lifecycle_from (CodeInterpreter.InSession i s)
    [Call "dp_client.stop_code_interpreter_session" [ids] (Returns VNone);
     Call "dp_client.invoke_code_interpreter" [ids]
       (Returns (VObj "response"))]
  = None
  /\ CodeInterpreter.lifecycle_from (CodeInterpreter.InSession i s)
       [Call "cp_client.delete_code_interpreter"
          [VDict [(lit "codeInterpreterId", i)]] (Returns VNone)]
     = None
  /\ CodeInterpreter.lifecycle_ok
       [Call "dp_client.start_code_interpreter_session" [ids]
          (Returns VNone)]
     = false.
Proof. repeat split. Qed.

(* ================================================================= *)
(** * Further properties of the notebooks *)

(* ----------------------------------------------------------------- *)
(** ** The streaming entrypoint *)





(* ----------------------------------------------------------------- *)
(** ** Waiting for the deployment *)

Lemma bind_raised {St A B} (m : M St A) (f : A -> M St B) s t s' e :
  m s = (t, s', Raise e) -> bind m f s = (t, s', Raise e).
Proof. intros H. unfold bind. now rewrite H. Qed.

Lemma sleeps_app (t u : list action) :
  PyMore.sleeps (t ++ u) = PyMore.sleeps t ++ PyMore.sleeps u.
Proof.
  induction t as [|a t IH]; simpl; [reflexivity|].
  destruct a; simpl; now rewrite ?IH.
Qed.

Section PollingRounds.

Import Polling.

Variable runtime_status : nat -> answer value.
Variable answers : nat -> value.
Variable statuses : nat -> value.
Variable first_tick : nat.

Let answered (i : nat) : Prop :=
  runtime_status (first_tick + i) = Returns (answers i)
  /\ getitem (answers i) (lit "status") = Returns (statuses i).

Let cond : M kernel bool :=
  status <- read "status" ;; ret (negb (member status end_status)).
Let body : M kernel unit :=
  emit (Sleep 10) ;;
  poll runtime_status ;;
  status <- read "status" ;;
  print [Val status].

(** The turns of the loop that fetch the answers [j + 1] to [j + n]. *)
Let rounds (j n : nat) : list action :=
  flat_map (fun i => PyMore.poll_round (answers i) (statuses i))
           (seq (S j) n).

Lemma cond_run (k : kernel) (status : value) :
  find_name "status" (ns k) = Some status ->
  cond k = ([], k, Ok (negb (member status end_status))).
Proof. intros H. unfold cond, bind, read, ret. now rewrite H. Qed.

Lemma body_run (i : nat) (k : kernel) :
  answered i -> ticks k = first_tick + i ->
  body k =
  (PyMore.poll_round (answers i) (statuses i),
   MkKernel (("status", statuses i) :: ("status_response", answers i)
             :: ns k) (S (ticks k)),
   Ok tt).
Proof.
  intros Ha Hk. unfold body. unfold bind at 1. unfold emit at 1.
  unfold bind at 1.
  now rewrite (poll_answered runtime_status answers statuses first_tick
                 i k Ha Hk).
Qed.

(** The loop, entered with the answer to call [j] in [status], goes
    through [n] turns when the statuses before call [j + n] are no end
    statuses, and then goes on from there. *)
Lemma wait_unroll (n : nat) :
  forall (fuel j : nat) (k : kernel),
    find_name "status" (ns k) = Some (statuses j) ->
    ticks k = first_tick + S j ->
    (forall i, j < i <= j + n -> answered i) ->
    (forall i, j <= i < j + n -> member (statuses i) end_status = false) ->
    exists k',
      find_name "status" (ns k') = Some (statuses (j + n))
      /\ ticks k' = first_tick + S (j + n)
      /\ wait_for_end_status runtime_status (n + fuel) k =
         (let '(t2, k2, r2) := wait_for_end_status runtime_status fuel k' in
          (rounds j n ++ t2, k2, r2)).
Proof.
  unfold wait_for_end_status. fold cond. fold body.
  induction n as [|n IH]; intros fuel j k Hst Hk Hans Hnot.
  - exists k. rewrite Nat.add_0_r. repeat split; auto.
    simpl. now destruct (while fuel cond body k) as [[t2 k2] r2].
  - assert (Hj : member (statuses j) end_status = false)
      by (apply Hnot; lia).
    assert (Ha : answered (S j)) by (apply Hans; lia).
    pose proof (body_run (S j) k Ha Hk) as Hbody.
    set (k1 := MkKernel _ _) in Hbody.
    destruct (IH fuel (S j) k1) as (k' & Hst' & Hk' & Hrun).
    + reflexivity.
    + simpl. rewrite Hk. lia.
    + intros i Hi. apply Hans. lia.
    + intros i Hi. apply Hnot. lia.
    + exists k'. replace (j + S n) with (S j + n) by lia.
      repeat split; auto.
      cbn [Nat.add while].
      rewrite (bind_ok _ _ _ _ _ _ (cond_run k _ Hst)). rewrite Hj.
      cbn [negb app]. rewrite (bind_ok _ _ _ _ _ _ Hbody). rewrite Hrun.
      destruct (while fuel cond body k') as [[t2 k2] r2].
      unfold rounds. cbn [seq flat_map]. now rewrite <- app_assoc.
Qed.

(** The loop when the status it is entered with is an end status. *)
Lemma wait_done (fuel : nat) (k : kernel) (status : value) :
  find_name "status" (ns k) = Some status ->
  member status end_status = true ->
  wait_for_end_status runtime_status fuel k = ([], k, Ok tt).
Proof.
  intros Hst Hend. unfold wait_for_end_status. fold cond. fold body.
  destruct fuel; cbn [while];
    rewrite (bind_ok _ _ _ _ _ _ (cond_run k _ Hst)), Hend; reflexivity.
Qed.

Lemma poll_failed (i : nat) (e : exn) (k : kernel) :
  PyMore.poll_fails runtime_status (first_tick + i) e ->
  ticks k = first_tick + i ->
  exists k',
    poll runtime_status k =
    ([Call "agentcore_runtime.status" [] (runtime_status (first_tick + i))],
     k', Raise e).
Proof.
  intros [Hcall | (a & Hcall & Hget)] Hk;
    unfold poll, bind, tick, call, assign, modify, read, lift; simpl;
    rewrite Hk, Hcall; simpl.
  - eexists. reflexivity.
  - rewrite Hget. eexists. reflexivity.
Qed.

(** The loop when the next poll fails. *)
Lemma wait_failed (fuel j : nat) (e : exn) (k : kernel) :
  find_name "status" (ns k) = Some (statuses j) ->
  member (statuses j) end_status = false ->
  ticks k = first_tick + S j ->
  PyMore.poll_fails runtime_status (first_tick + S j) e ->
  exists k',
    wait_for_end_status runtime_status (S fuel) k =
    ([Sleep 10;
      Call "agentcore_runtime.status" []
        (runtime_status (first_tick + S j))],
     k', Raise e).
Proof.
  intros Hst Hnot Hk Hfail. unfold wait_for_end_status.
  fold cond. fold body. cbn [while].
  rewrite (bind_ok _ _ _ _ _ _ (cond_run k _ Hst)), Hnot. cbn [negb app].
  destruct (poll_failed (S j) e k Hfail Hk) as (k' & Hpoll).
  exists k'. unfold bind at 1. unfold body. unfold bind at 1.
  unfold emit at 1. unfold bind at 1. now rewrite Hpoll.
Qed.

End PollingRounds.

Lemma rounds_prints (answers statuses : nat -> value) (j n : nat) :
  prints (flat_map (fun i => PyMore.poll_round (answers i) (statuses i))
            (seq j n))
  = map (fun i => [Val (statuses i)]) (seq j n).
Proof.
  revert j. induction n as [|n IH]; intros j; [reflexivity|].
  cbn [seq flat_map map]. rewrite prints_app, IH. reflexivity.
Qed.

Lemma rounds_sleeps (answers statuses : nat -> value) (j n : nat) :
  PyMore.sleeps
    (flat_map (fun i => PyMore.poll_round (answers i) (statuses i))
       (seq j n))
  = repeat 10%Z n.
Proof.
  revert j. induction n as [|n IH]; intros j; [reflexivity|].
  cbn [seq flat_map repeat]. rewrite sleeps_app, IH. reflexivity.
Qed.

Lemma rounds_calls (answers statuses : nat -> value) (j n : nat) :
  List.length
    (calls_to "agentcore_runtime.status"
       (flat_map (fun i => PyMore.poll_round (answers i) (statuses i))
          (seq j n)))
  = n.
Proof.
  revert j. induction n as [|n IH]; intros j; [reflexivity|].
  cbn [seq flat_map]. rewrite calls_to_app, length_app, IH. reflexivity.
Qed.

(** X3: the cell does not retry.  When the polls before call [n] were
    answered with statuses that are no end statuses and call [n] fails
    (it raises, or its answer has no ["status"]), the cell ends with that
    exception after [n + 1] calls, having printed the statuses of the
    calls 1 to [n - 1]. *)
Theorem polling_failure_propagates
    (runtime_status : nat -> answer value) (answers statuses : nat -> value)
    (k0 : kernel) (n fuel : nat) (e : exn) :
  (forall i, i < n ->
     (runtime_status (ticks k0 + i) = Returns (answers i)
      /\ getitem (answers i) (lit "status") = Returns (statuses i))
     /\ Polling.member (statuses i) Polling.end_status = false) ->
  PyMore.poll_fails runtime_status (ticks k0 + n) e ->
  n <= fuel ->
  let r := Polling.status_polling_cell runtime_status fuel k0 in
  result r = Raise e
  /\ List.length (calls_to "agentcore_runtime.status" (trace r)) = S n
  /\ prints (trace r) = map (fun i => [Val (statuses i)]) (seq 1 (n - 1)).
Proof.
  intros Hbefore Hfail Hfuel r. subst r.
  unfold Polling.status_polling_cell.
  destruct n as [|m].
  - rewrite Nat.add_0_r in Hfail.
    destruct (poll_failed runtime_status (ticks k0) 0 e k0) as (k' & Hpoll).
    { now rewrite Nat.add_0_r. }
    { now rewrite Nat.add_0_r. }
    rewrite (bind_raised _ _ _ _ _ _ Hpoll). repeat split.
  - destruct (Hbefore 0 (Nat.lt_0_succ _)) as [Ha0 _].
    pose proof (poll_answered runtime_status answers statuses (ticks k0)
                  0 k0 Ha0 (eq_sym (Nat.add_0_r _))) as Hpoll.
    set (k1 := MkKernel _ _) in Hpoll.
    destruct (wait_unroll runtime_status answers statuses (ticks k0) m
                (fuel - m) 0 k1) as (k' & Hst' & Hk' & Hrun).
    + reflexivity.
    + simpl. lia.
    + intros i Hi. apply Hbefore. lia.
    + intros i Hi. apply Hbefore. lia.
    + replace (m + (fuel - m)) with fuel in Hrun by lia.
      destruct (fuel - m) as [|fuel'] eqn:Hf; [lia|].
      destruct (wait_failed runtime_status statuses (ticks k0) fuel' m e k')
        as (k2 & Hwait).
      * exact Hst'.
      * apply Hbefore. lia.
      * exact Hk'.
      * replace (ticks k0 + S m) with (ticks k0 + S m) by reflexivity.
        exact Hfail.
      * rewrite Hwait in Hrun.
        erewrite bind_run; [| exact Hpoll | apply bind_raised; exact Hrun].
        unfold trace, result. cbn [fst snd].
        cbn [app calls_to String.eqb Ascii.eqb Bool.eqb prints List.length].
        rewrite calls_to_app, prints_app, length_app, rounds_calls,
          rounds_prints.
        cbn. rewrite Nat.sub_0_r, app_nil_r. repeat split. lia.
Qed.

(** X4: the cell sleeps ten seconds before every poll but the first.
    When the answer to call [n] is the first end status, the run is the
    first call followed by [n] turns of sleeping, asking and printing; a
    deployment that is ready at the first call costs no sleep and prints
    nothing. *)
Theorem polling_sleeps_before_each_further_poll
    (runtime_status : nat -> answer value) (answers statuses : nat -> value)
    (k0 : kernel) (n fuel : nat) :
  (forall i, i <= n ->
     runtime_status (ticks k0 + i) = Returns (answers i)
     /\ getitem (answers i) (lit "status") = Returns (statuses i)) ->
  (forall i, i < n ->
     Polling.member (statuses i) Polling.end_status = false) ->
  Polling.member (statuses n) Polling.end_status = true ->
  n <= fuel ->
  let r := Polling.status_polling_cell runtime_status fuel k0 in
  trace r
  = Call "agentcore_runtime.status" [] (Returns (answers 0))
    :: flat_map (fun i => PyMore.poll_round (answers i) (statuses i))
         (seq 1 n)
  /\ PyMore.sleeps (trace r) = repeat 10%Z n.
Proof.
  intros Hans Hnot Hend Hfuel r.
  assert (Htrace :
    trace r
    = Call "agentcore_runtime.status" [] (Returns (answers 0))
      :: flat_map (fun i => PyMore.poll_round (answers i) (statuses i))
           (seq 1 n)).
  { subst r. unfold Polling.status_polling_cell.
    pose proof (poll_answered runtime_status answers statuses (ticks k0)
                  0 k0 (Hans 0 (Nat.le_0_l _)) (eq_sym (Nat.add_0_r _)))
      as Hpoll.
    set (k1 := MkKernel _ _) in Hpoll.
    destruct (wait_unroll runtime_status answers statuses (ticks k0) n
                (fuel - n) 0 k1) as (k' & Hst' & Hk' & Hrun).
    - reflexivity.
    - simpl. lia.
    - intros i Hi. apply Hans. lia.
    - intros i Hi. apply Hnot. lia.
    - replace (n + (fuel - n)) with fuel in Hrun by lia.
      rewrite (wait_done runtime_status (fuel - n) k' _ Hst' Hend) in Hrun.
      erewrite bind_run;
        [| exact Hpoll
         | erewrite bind_run; [reflexivity | exact Hrun |];
           unfold read; rewrite Hst'; reflexivity].
      unfold trace. cbn [fst app]. now rewrite !app_nil_r. }
  split; [exact Htrace|].
  rewrite Htrace. cbn [PyMore.sleeps]. apply rounds_sleeps.
Qed.

Lemma polling_failure_propagates_witness :
  (forall i, i < 1 ->
     (deployment_lost (ticks fresh + i) = Returns (deployment_answers i)
      /\ getitem (deployment_answers i) (lit "status")
         = Returns (deployment_statuses i))
     /\ Polling.member (deployment_statuses i) Polling.end_status = false)
  /\ PyMore.poll_fails deployment_lost (ticks fresh + 1) throttled
  /\ 1 <= 2
  /\ (let r := Polling.status_polling_cell deployment_lost 2 fresh in
      result r = Raise throttled
      /\ List.length (calls_to "agentcore_runtime.status" (trace r)) = 2
      /\ prints (trace r)
         = map (fun i => [Val (deployment_statuses i)]) (seq 1 (1 - 1))).
Proof.
  assert (Hbefore : forall i, i < 1 ->
     (deployment_lost (ticks fresh + i) = Returns (deployment_answers i)
      /\ getitem (deployment_answers i) (lit "status")
         = Returns (deployment_statuses i))
     /\ Polling.member (deployment_statuses i) Polling.end_status = false).
  { intros i Hi. assert (i = 0) as -> by lia. repeat split. }
  assert (Hfail : PyMore.poll_fails deployment_lost (ticks fresh + 1)
                    throttled) by (left; reflexivity).
  assert (Hfuel : 1 <= 2) by lia.
  split; [exact Hbefore|]. split; [exact Hfail|]. split; [exact Hfuel|].
  exact (polling_failure_propagates deployment_lost deployment_answers
           deployment_statuses fresh 1 2 throttled Hbefore Hfail Hfuel).
Defined.

Lemma polling_sleeps_before_each_further_poll_witness :
  (forall i, i <= 1 ->
     deployment (ticks fresh + i) = Returns (deployment_answers i)
     /\ getitem (deployment_answers i) (lit "status")
        = Returns (deployment_statuses i))
  /\ (forall i, i < 1 ->
        Polling.member (deployment_statuses i) Polling.end_status = false)
  /\ Polling.member (deployment_statuses 1) Polling.end_status = true
  /\ 1 <= 3
  /\ (let r := Polling.status_polling_cell deployment 3 fresh in
      trace r
      = Call "agentcore_runtime.status" [] (Returns (deployment_answers 0))
        :: flat_map (fun i => PyMore.poll_round (deployment_answers i)
                                (deployment_statuses i))
             (seq 1 1)
      /\ PyMore.sleeps (trace r) = repeat 10%Z 1).
Proof.
  assert (Hans : forall i, i <= 1 ->
     deployment (ticks fresh + i) = Returns (deployment_answers i)
     /\ getitem (deployment_answers i) (lit "status")
        = Returns (deployment_statuses i))
    by (intros i _; split; reflexivity).
  assert (Hnot : forall i, i < 1 ->
     Polling.member (deployment_statuses i) Polling.end_status = false).
  { intros i Hi. assert (i = 0) as -> by lia. reflexivity. }
  assert (Hfuel : 1 <= 3) by lia.
  split; [exact Hans|]. split; [exact Hnot|]. split; [reflexivity|].
  split; [exact Hfuel|].
  exact (polling_sleeps_before_each_further_poll deployment
           deployment_answers deployment_statuses fresh 1 3 Hans Hnot
           eq_refl Hfuel).
Defined.

(* ----------------------------------------------------------------- *)
(** ** Reading the event stream: what is printed and displayed *)

(** The line printed for a chunk. *)
Lemma content_append_keeps (x : str) (acc : list str) (k : kernel)
    (name : string) :
  find_name "content" (ns k) = Some (VList (map VStr acc)) ->
  String.eqb name "content" = false ->
  find_name name (ns (vars (Sse.content_append x k)))
  = find_name name (ns k).
Proof.
  intros Hacc Hname. rewrite (content_append_run _ acc k Hacc).
  unfold vars. cbn [fst snd ns find_name]. now rewrite Hname.
Qed.

(** One line that decodes: what the loop body prints, and what it
    leaves in the kernel. *)
Lemma handle_line_trace (l : list byte) (d : str) (acc : list str)
    (k : kernel) :
  Utf8.decode l = Returns d ->
  find_name "content" (ns k) = Some (VList (map VStr acc)) ->
  exists k',
    Sse.handle_line l k
    = ((if Sse.is_data_line d
        then [Print [Txt "Received streaming chunk: ";
                     Val (VStr (Sse.chunk_of d))]]
        else []),
       k', Ok tt)
    /\ find_name "content" (ns k')
       = Some (VList (map VStr
                 (acc ++ if Sse.is_data_line d then [Sse.chunk_of d]
                         else [])))
    /\ (forall name, String.eqb name "content" = false ->
          find_name name (ns k') = find_name name (ns k)).
Proof.
  intros Hd Hacc. destruct l as [|b l].
  - cbv in Hd. injection Hd as <-. exists k. cbn [Sse.is_data_line].
    rewrite app_nil_r. repeat split; auto.
  - pose proof (decode_nonempty _ _ _ Hd) as Hne.
    unfold Sse.handle_line. unfold bind at 1, lift at 1. rewrite Hd.
    cbn [ended]. destruct d as [|c d]; [contradiction|].
    cbn [Sse.is_data_line].
    destruct (Str.startswith (lit "data: ") (c :: d)).
    + unfold bind, print, emit.
      rewrite (content_append_run _ acc k Hacc).
      rewrite delete_char_idempotent. eexists.
      split; [reflexivity|]. split; [reflexivity|].
      intros name Hname. cbn [ns find_name]. now rewrite Hname.
    + exists k. rewrite app_nil_r. repeat split; auto.
Qed.

(** What the loop does for lines that decode. *)
Lemma lines_trace (lines : list (list byte)) :
  forall (decoded : list str) (acc : list str) (k : kernel),
    Forall2 (fun l d => Utf8.decode l = Returns d) lines decoded ->
    find_name "content" (ns k) = Some (VList (map VStr acc)) ->
    exists t k',
      for_each VBytes (iter_of lines None) Sse.handle_line k = (t, k', Ok tt)
      /\ find_name "content" (ns k')
         = Some (VList (map VStr (acc ++ Sse.data_lines decoded)))
      /\ (forall name, String.eqb name "content" = false ->
            find_name name (ns k') = find_name name (ns k))
      /\ prints t
         = map (fun chunk => [Txt "Received streaming chunk: ";
                              Val (VStr chunk)])
               (Sse.data_lines decoded)
      /\ (forall f, calls_to f t = [])
      /\ fetched t = map VBytes lines.
Proof.
  induction lines as [|l lines IH]; intros decoded acc k Hdec Hacc;
    inversion Hdec as [|? d ? ds Hd Hrest]; subst.
  - exists [], k. rewrite app_nil_r. repeat split; auto.
  - destruct (handle_line_trace l d acc k Hd Hacc)
      as (k1 & Hrun & Hk1 & Hkeep1).
    destruct (IH ds _ k1 Hrest Hk1)
      as (t2 & k2 & Hrun2 & Hk2 & Hkeep2 & Hp & Hc & Hf).
    set (t1 := if Sse.is_data_line d
               then [Print [Txt "Received streaming chunk: ";
                            Val (VStr (Sse.chunk_of d))]]
               else []) in Hrun.
    exists (Fetch (VBytes l) :: t1 ++ t2), k2. subst t1.
    split; [|split; [|split; [|split; [|split]]]].
    + cbn [iter_of for_each].
      apply (bind_run _ _ k [Fetch (VBytes l)] k tt); [reflexivity|].
      now apply (bind_run _ _ k _ k1 tt).
    + now rewrite data_lines_cons, app_assoc.
    + intros name Hname. now rewrite Hkeep2, Hkeep1.
    + cbn [app prints]. rewrite prints_app, Hp, data_lines_cons, map_app.
      now destruct (Sse.is_data_line d).
    + intros f. cbn [app calls_to]. rewrite calls_to_app, Hc.
      now destruct (Sse.is_data_line d).
    + cbn [app fetched map]. rewrite fetched_app, Hf.
      now destruct (Sse.is_data_line d).
Qed.

(** The loop up to the first line that does not decode. *)
Lemma lines_fail (good : list (list byte)) (bad : list byte)
    (rest : iter (list byte)) (e : exn) :
  forall (decoded : list str) (acc : list str) (k : kernel),
    Forall2 (fun l d => Utf8.decode l = Returns d) good decoded ->
    Utf8.decode bad = Raises e ->
    find_name "content" (ns k) = Some (VList (map VStr acc)) ->
    exists t k',
      for_each VBytes (PyMore.followed_by good (Next bad rest))
        Sse.handle_line k
      = (t, k', Raise e)
      /\ find_name "content" (ns k')
         = Some (VList (map VStr (acc ++ Sse.data_lines decoded)))
      /\ (forall name, String.eqb name "content" = false ->
            find_name name (ns k') = find_name name (ns k))
      /\ (forall f, calls_to f t = [])
      /\ fetched t = map VBytes (good ++ [bad]).
Proof.
  induction good as [|l good IH]; intros decoded acc k Hdec Hbad Hacc;
    inversion Hdec as [|? d ? ds Hd Hrest]; subst.
  - exists [Fetch (VBytes bad)], k. rewrite app_nil_r.
    split; [|repeat split; auto].
    unfold PyMore.followed_by. cbn [fold_right for_each].
    apply (bind_run _ _ k [Fetch (VBytes bad)] k tt); [reflexivity|].
    apply bind_raised. destruct bad as [|b bad]; [discriminate Hbad|].
    unfold Sse.handle_line. apply bind_raised. unfold lift.
    now rewrite Hbad.
  - destruct (handle_line_trace l d acc k Hd Hacc)
      as (k1 & Hrun & Hk1 & Hkeep1).
    destruct (IH ds _ k1 Hrest Hbad Hk1)
      as (t2 & k2 & Hrun2 & Hk2 & Hkeep2 & Hc & Hf).
    set (t1 := if Sse.is_data_line d
               then [Print [Txt "Received streaming chunk: ";
                            Val (VStr (Sse.chunk_of d))]]
               else []) in Hrun.
    exists (Fetch (VBytes l) :: t1 ++ t2), k2. subst t1.
    split; [|split; [|split; [|split]]].
    + unfold PyMore.followed_by in *. cbn [fold_right for_each].
      apply (bind_run _ _ k [Fetch (VBytes l)] k tt); [reflexivity|].
      now apply (bind_run _ _ k _ k1 tt).
    + now rewrite data_lines_cons, app_assoc.
    + intros name Hname. now rewrite Hkeep2, Hkeep1.
    + intros f. cbn [app calls_to]. rewrite calls_to_app, Hc.
      now destruct (Sse.is_data_line d).
    + cbn [app fetched map]. rewrite fetched_app, Hf.
      now destruct (Sse.is_data_line d).
Qed.

Lemma quote_free_deleted (s : str) :
  PyMore.quote_free (Str.delete_char Str.dquote s) = true.
Proof.
  unfold PyMore.quote_free, Str.delete_char.
  induction s as [|c s IH]; [reflexivity|].
  cbn [filter]. destruct (N.eqb c Str.dquote) eqn:Hc; cbn [negb].
  - exact IH.
  - cbn [existsb]. rewrite N.eqb_sym, Hc. exact IH.
Qed.

Lemma quote_free_app (a b : str) :
  PyMore.quote_free (a ++ b)
  = PyMore.quote_free a && PyMore.quote_free b.
Proof.
  unfold PyMore.quote_free. now rewrite existsb_app, negb_orb.
Qed.

Lemma quote_free_join (chunks : list str) :
  Forall (fun c => PyMore.quote_free c = true) chunks ->
  PyMore.quote_free (Str.join (lit " ") chunks) = true.
Proof.
  induction 1 as [|c chunks Hc Hrest IH]; [reflexivity|].
  destruct chunks as [|c' chunks]; [exact Hc|].
  change (Str.join (lit " ") (c :: c' :: chunks))
    with (c ++ lit " " ++ Str.join (lit " ") (c' :: chunks)).
  now rewrite !quote_free_app, Hc, IH.
Qed.

Lemma data_lines_quote_free (decoded : list str) :
  Forall (fun c => PyMore.quote_free c = true) (Sse.data_lines decoded).
Proof.
  unfold Sse.data_lines. apply Forall_map, Forall_forall.
  intros d _. apply quote_free_deleted.
Qed.

(** The branch for an event stream whose lines decode: the run, and the
    kernel it leaves. *)
Lemma streaming_branch_trace
    (markdown display : value -> answer value) (lines : list (list byte))
    (decoded : list str) (k : kernel) :
  Forall2 (fun l d => Utf8.decode l = Returns d) lines decoded ->
  let text := VStr (Str.join (lit " ") (Sse.data_lines decoded)) in
  exists t k1,
    Sse.streaming_branch markdown display (iter_of lines None) k
    = (Print [Txt "Processing streaming response with boto3:"]
       :: t ++ Call "Markdown" [text] (markdown text)
               :: match markdown text with
                  | Returns document =>
                      [Call "display" [document] (display document)]
                  | Raises _ => []
                  end,
       MkKernel (("full_response", text) :: ns k1) (ticks k1),
       match markdown text with
       | Returns document =>
           match display document with
           | Returns _ => Ok tt
           | Raises e => Raise e
           end
       | Raises e => Raise e
       end)
    /\ prints t
       = map (fun chunk => [Txt "Received streaming chunk: ";
                            Val (VStr chunk)])
             (Sse.data_lines decoded)
    /\ (forall f, calls_to f t = []).
Proof.
  intros Hdec text.
  destruct (lines_trace lines decoded []
              (MkKernel (("content", VList []) :: ns k) (ticks k))
              Hdec eq_refl)
    as (t & k1 & Hrun & Hk1 & _ & Hp & Hc & _).
  cbn [app] in Hk1. exists t, k1. split; [|split; assumption].
  exact (streaming_branch_after_loop markdown display _ k k1 t
           (Sse.data_lines decoded) Hrun Hk1).
Qed.

(** X5: what the user sees of an event stream whose lines decode: the
    heading, then one line per chunk in the order of arrival, showing
    the chunk as it is stored in [content].  Then [Markdown] is called
    once, with the chunks joined by single spaces, and what it returns
    is handed to [display]; when [Markdown] raises (it downloads a text
    that starts with ["http"] and reads one that names a file),
    [display] is not called. *)
Theorem streamed_chunks_are_printed_then_displayed
    (non_streaming_branch : M kernel unit)
    (markdown display : value -> answer value) (content_type : str)
    (lines : list (list byte)) (decoded : list str) (k : kernel) :
  Str.contains (lit "text/event-stream") content_type = true ->
  Forall2 (fun l d => Utf8.decode l = Returns d) lines decoded ->
  let r :=
    Sse.boto3_invoke_cell non_streaming_branch markdown display
      content_type (iter_of lines None) k in
  let text := VStr (Str.join (lit " ") (Sse.data_lines decoded)) in
  prints (trace r)
  = [Txt "Processing streaming response with boto3:"]
    :: map (fun chunk => [Txt "Received streaming chunk: ";
                          Val (VStr chunk)])
         (Sse.data_lines decoded)
  /\ calls_to "Markdown" (trace r) = [([text], markdown text)]
  /\ calls_to "display" (trace r)
     = match markdown text with
       | Returns document => [([document], display document)]
       | Raises _ => []
       end.
Proof.
  intros Hct Hdec r text. subst r. unfold Sse.boto3_invoke_cell.
  rewrite Hct.
  destruct (streaming_branch_trace markdown display lines decoded k Hdec)
    as (t & k' & -> & Hp & Hc).
  fold text. unfold trace. cbn [fst prints calls_to].
  rewrite prints_app, !calls_to_app, Hp, !Hc.
  cbn [app prints calls_to String.eqb Ascii.eqb Bool.eqb].
  destruct (markdown text); cbn; rewrite ?app_nil_r; repeat split.
Qed.

Lemma streamed_chunks_are_printed_then_displayed_witness :
  Str.contains (lit "text/event-stream")
    (lit "text/event-stream; charset=utf-8") = true
  /\ Forall2 (fun l d => Utf8.decode l = Returns d)
       sample_lines sample_decoded
  /\ (let r :=
        Sse.boto3_invoke_cell (ret tt) shown_as_markdown displayed
          (lit "text/event-stream; charset=utf-8")
          (iter_of sample_lines None) fresh in
      prints (trace r)
      = [Txt "Processing streaming response with boto3:"]
        :: map (fun chunk => [Txt "Received streaming chunk: ";
                              Val (VStr chunk)])
             (Sse.data_lines sample_decoded)
      /\ calls_to "Markdown" (trace r)
         = [([VStr (Str.join (lit " ") (Sse.data_lines sample_decoded))],
             Returns (VObj "Markdown"))]
      /\ calls_to "display" (trace r)
         = [([VObj "Markdown"], Returns VNone)]).
Proof.
  assert (Hdec : Forall2 (fun l d => Utf8.decode l = Returns d)
                   sample_lines sample_decoded)
    by (repeat constructor).
  split; [reflexivity|]. split; [exact Hdec|].
  exact (streamed_chunks_are_printed_then_displayed (ret tt)
           shown_as_markdown displayed
           (lit "text/event-stream; charset=utf-8") sample_lines
           sample_decoded fresh eq_refl Hdec).
Defined.

(** X6: the first line that is not valid UTF-8 ends the cell with
    [UnicodeDecodeError].  The lines after it are not read, [content]
    holds the chunks of the lines before it, and the cell neither binds
    [full_response] nor calls [Markdown] or [display]: nothing of the
    response is shown. *)
Theorem undecodable_line_stops_the_cell
    (non_streaming_branch : M kernel unit)
    (markdown display : value -> answer value) (content_type : str)
    (good : list (list byte)) (decoded : list str) (bad : list byte)
    (rest : iter (list byte)) (e : exn) (k : kernel) :
  Str.contains (lit "text/event-stream") content_type = true ->
  Forall2 (fun l d => Utf8.decode l = Returns d) good decoded ->
  Utf8.decode bad = Raises e ->
  let r :=
    Sse.boto3_invoke_cell non_streaming_branch markdown display
      content_type (PyMore.followed_by good (Next bad rest)) k in
  result r = Raise e
  /\ exn_class e = UnicodeDecodeError
  /\ fetched (trace r) = map VBytes (good ++ [bad])
  /\ find_name "content" (ns (vars r))
     = Some (VList (map VStr (Sse.data_lines decoded)))
  /\ find_name "full_response" (ns (vars r))
     = find_name "full_response" (ns k)
  /\ calls_to "display" (trace r) = []
  /\ calls_to "Markdown" (trace r) = [].
Proof.
  intros Hct Hdec Hbad r. subst r.
  unfold Sse.boto3_invoke_cell. rewrite Hct. unfold Sse.streaming_branch.
  set (k0 := MkKernel (("content", VList []) :: ns k) (ticks k)).
  destruct (lines_fail good bad rest e decoded [] k0 Hdec Hbad eq_refl)
    as (t & k1 & Hrun & Hk1 & Hkeep & Hc & Hf).
  cbn [app] in Hk1.
  erewrite bind_run;
    [| reflexivity
     | apply (bind_run _ _ k [] k0 tt); [reflexivity|];
       apply bind_raised; exact Hrun].
  unfold result, vars, trace. cbn [fst snd app fetched calls_to].
  rewrite Hf, !Hc, Hk1, (Hkeep "full_response" eq_refl).
  repeat split.
  unfold Utf8.decode in Hbad.
  destruct (Utf8.decode_points bad); [discriminate|].
  now injection Hbad as <-.
Qed.

Lemma undecodable_line_stops_the_cell_witness :
  Str.contains (lit "text/event-stream")
    (lit "text/event-stream; charset=utf-8") = true
  /\ Forall2 (fun l d => Utf8.decode l = Returns d)
       (firstn 1 sample_lines) (firstn 1 sample_decoded)
  /\ Utf8.decode broken_line
     = Raises (MkExn UnicodeDecodeError
                 (lit "'utf-8' codec can't decode byte 0xff in position 6: invalid start byte"))
  /\ (let r :=
        Sse.boto3_invoke_cell (ret tt) shown_as_markdown displayed
          (lit "text/event-stream; charset=utf-8")
          (PyMore.followed_by (firstn 1 sample_lines)
             (Next broken_line (iter_of (skipn 1 sample_lines) None)))
          fresh in
      result r
      = Raise (MkExn UnicodeDecodeError
                 (lit "'utf-8' codec can't decode byte 0xff in position 6: invalid start byte"))
      /\ exn_class (MkExn UnicodeDecodeError
                      (lit "'utf-8' codec can't decode byte 0xff in position 6: invalid start byte"))
         = UnicodeDecodeError
      /\ fetched (trace r)
         = map VBytes (firstn 1 sample_lines ++ [broken_line])
      /\ find_name "content" (ns (vars r))
         = Some (VList (map VStr
                   (Sse.data_lines (firstn 1 sample_decoded))))
      /\ find_name "full_response" (ns (vars r))
         = find_name "full_response" (ns fresh)
      /\ calls_to "display" (trace r) = []
      /\ calls_to "Markdown" (trace r) = []).
Proof.
  assert (Hdec : Forall2 (fun l d => Utf8.decode l = Returns d)
                   (firstn 1 sample_lines) (firstn 1 sample_decoded))
    by (repeat constructor).
  split; [reflexivity|]. split; [exact Hdec|]. split; [reflexivity|].
  exact (undecodable_line_stops_the_cell (ret tt) shown_as_markdown
           displayed (lit "text/event-stream; charset=utf-8")
           (firstn 1 sample_lines) (firstn 1 sample_decoded) broken_line
           (iter_of (skipn 1 sample_lines) None) _ fresh eq_refl Hdec
           eq_refl).
Defined.

(** X7: the text that the cell binds to [full_response] and hands to
    [Markdown] never holds a double quote, whatever the lines of the
    stream hold: the quotes around a chunk and those inside it are
    removed alike.  (What is then displayed is up to [Markdown].) *)
Theorem joined_text_has_no_double_quote
    (non_streaming_branch : M kernel unit)
    (markdown display : value -> answer value) (content_type : str)
    (lines : list (list byte)) (decoded : list str) (k : kernel) :
  Str.contains (lit "text/event-stream") content_type = true ->
  Forall2 (fun l d => Utf8.decode l = Returns d) lines decoded ->
  let r :=
    Sse.boto3_invoke_cell non_streaming_branch markdown display
      content_type (iter_of lines None) k in
  exists text,
    calls_to "Markdown" (trace r) = [([VStr text], markdown (VStr text))]
    /\ PyMore.quote_free text = true
    /\ find_name "full_response" (ns (vars r)) = Some (VStr text).
Proof.
  intros Hct Hdec r. subst r. unfold Sse.boto3_invoke_cell. rewrite Hct.
  exists (Str.join (lit " ") (Sse.data_lines decoded)).
  destruct (streaming_branch_trace markdown display lines decoded k Hdec)
    as (t & k1 & -> & _ & Hc).
  split; [|split].
  - unfold trace. cbn [fst calls_to].
    rewrite calls_to_app, Hc.
    cbn [app calls_to String.eqb Ascii.eqb Bool.eqb].
    now destruct (markdown _).
  - apply quote_free_join, data_lines_quote_free.
  - reflexivity.
Qed.

Lemma joined_text_has_no_double_quote_witness :
  Str.contains (lit "text/event-stream")
    (lit "text/event-stream; charset=utf-8") = true
  /\ Forall2 (fun l d => Utf8.decode l = Returns d)
       sample_lines sample_decoded
  /\ (let r :=
        Sse.boto3_invoke_cell (ret tt) shown_as_markdown displayed
          (lit "text/event-stream; charset=utf-8")
          (iter_of sample_lines None) fresh in
      exists text,
        calls_to "Markdown" (trace r)
        = [([VStr text], shown_as_markdown (VStr text))]
        /\ PyMore.quote_free text = true
        /\ find_name "full_response" (ns (vars r)) = Some (VStr text)).
Proof.
  assert (Hdec : Forall2 (fun l d => Utf8.decode l = Returns d)
                   sample_lines sample_decoded)
    by (repeat constructor).
  split; [reflexivity|]. split; [exact Hdec|].
  exact (joined_text_has_no_double_quote (ret tt) shown_as_markdown
           displayed (lit "text/event-stream; charset=utf-8") sample_lines
           sample_decoded fresh eq_refl Hdec).
Defined.

(* ----------------------------------------------------------------- *)
(** ** A response that is not an event stream *)

Lemma append_to_run (name : string) (x : value) (acc : list value)
    (k : kernel) :
  find_name name (ns k) = Some (VList acc) ->
  PyMore.append_to name x k
  = ([], MkKernel ((name, VList (acc ++ [x])) :: ns k) (ticks k), Ok tt).
Proof.
  intros H. unfold PyMore.append_to, bind, read. now rewrite H.
Qed.

(** The loop that collects the chunks of the response. *)
Lemma events_loop (response : iter (list byte)) :
  forall (acc : list value) (k : kernel),
    find_name "events" (ns k) = Some (VList acc) ->
    exists k',
      for_each VBytes response
        (fun event => PyMore.append_to "events" (VBytes event)) k
      = (map Fetch (map VBytes (items response)), k',
         match raised_by response with
         | Some e => Raise e
         | None => Ok tt
         end)
      /\ find_name "events" (ns k')
         = Some (VList (acc ++ map VBytes (items response))).
Proof.
  induction response as [|e|c rest IH]; intros acc k Hacc.
  - exists k. now rewrite app_nil_r.
  - exists k. now rewrite app_nil_r.
  - set (k1 := MkKernel (("events", VList (acc ++ [VBytes c])) :: ns k)
                 (ticks k)).
    destruct (IH (acc ++ [VBytes c]) k1 eq_refl) as (k' & Hrun & Hk').
    exists k'. split.
    + cbn [for_each items raised_by map].
      apply (bind_run _ _ k [Fetch (VBytes c)] k tt); [reflexivity|].
      apply (bind_run _ _ k [] k1 tt); [|exact Hrun].
      now apply append_to_run.
    + rewrite Hk'. cbn [items map]. now rewrite <- app_assoc.
Qed.

(** The first [try] statement: what it leaves in [events]. *)
Lemma read_events_run (response : iter (list byte)) (k : kernel) :
  exists k',
    NonStreaming.read_events response k
    = (map Fetch (map VBytes (items response)), k',
       match raised_by response with
       | Some e => if isinstance e Exception then Ok tt else Raise e
       | None => Ok tt
       end)
    /\ find_name "events" (ns k')
       = Some (VList
                 match raised_by response with
                 | Some e =>
                     if isinstance e Exception
                     then [VStr (lit "Error reading EventStream: "
                                 ++ exn_str e)]
                     else map VBytes (items response)
                 | None => map VBytes (items response)
                 end).
Proof.
  set (k0 := MkKernel (("events", VList []) :: ns k) (ticks k)).
  destruct (events_loop response [] k0 eq_refl) as (k1 & Hrun & Hk1).
  cbn [app] in Hk1.
  assert (Hbody :
    (assign "events" (VList []) ;;
     for_each VBytes response
       (fun event => PyMore.append_to "events" (VBytes event))) k
    = (map Fetch (map VBytes (items response)), k1,
       match raised_by response with
       | Some e => Raise e
       | None => Ok tt
       end)).
  { now apply (bind_run _ _ k [] k0 tt). }
  unfold NonStreaming.read_events, try_except. rewrite Hbody.
  destruct (raised_by response) as [e|]; [|now exists k1].
  destruct (isinstance e Exception); [|now exists k1].
  exists (MkKernel
            (("events",
              VList [VStr (lit "Error reading EventStream: " ++ exn_str e)])
             :: ns k1) (ticks k1)).
  split; [|reflexivity].
  unfold assign, modify. now rewrite app_nil_r.
Qed.

Section NonStreamingFacts.

Variable json_parse : str -> answer value.
Variable display_markdown : value -> answer value.

(** The [if] statement never raises: its [except] clause is bare and the
    handler only reads what the [if] has tested. *)
Lemma show_first_event_ends (events : list value) (k : kernel) :
  find_name "events" (ns k) = Some (VList events) ->
  result (NonStreaming.show_first_event json_parse display_markdown k)
  = Ok tt.
Proof.
  intros Hev. unfold NonStreaming.show_first_event.
  unfold bind at 1, read at 1. rewrite Hev.
  destruct events as [|first rest]; [reflexivity|].
  cbn [truthy]. unfold try_except, bind, read, lift, call, assign, modify,
    print, emit, ret. rewrite Hev. cbn [getindex nth_error ended].
  destruct (PyMore.decode_method first) as [text|e]; cbn [ended].
  - destruct (json_parse text) as [data|e]; cbn [ended ns find_name].
    + cbn. destruct (display_markdown data); cbn [ended]; cbn;
        rewrite ?Hev; reflexivity.
    + rewrite ?Hev. reflexivity.
  - rewrite ?Hev. reflexivity.
Qed.

(** The [if] statement when the first item is a chunk of the response. *)
Lemma show_first_chunk (first : list byte) (rest : list value)
    (k : kernel) :
  find_name "events" (ns k) = Some (VList (VBytes first :: rest)) ->
  let t := trace (NonStreaming.show_first_event json_parse
                    display_markdown k) in
  match Utf8.decode first with
  | Returns text =>
      match json_parse text with
      | Returns data =>
          t = Call "json.loads" [VStr text] (Returns data)
              :: Call "display" [data] (display_markdown data)
              :: match display_markdown data with
                 | Returns _ => []
                 | Raises _ =>
                     [Print [Txt "Raw response: "; Val (VBytes first)]]
                 end
      | Raises e =>
          t = [Call "json.loads" [VStr text] (Raises e);
               Print [Txt "Raw response: "; Val (VBytes first)]]
      end
  | Raises _ => t = [Print [Txt "Raw response: "; Val (VBytes first)]]
  end.
Proof.
  intros Hev t. subst t. unfold NonStreaming.show_first_event.
  unfold try_except, bind, read, lift, call, assign, modify,
    print, emit, ret. rewrite Hev.
  cbn [truthy getindex nth_error ended PyMore.decode_method].
  rewrite Hev. cbn [getindex nth_error ended PyMore.decode_method].
  destruct (Utf8.decode first) as [text|e]; cbn [ended].
  - destruct (json_parse text) as [data|e]; cbn [ended ns find_name].
    + cbn [String.eqb Ascii.eqb Bool.eqb].
      destruct (display_markdown data); cbn; rewrite ?Hev; reflexivity.
    + rewrite ?Hev. reflexivity.
  - rewrite ?Hev. reflexivity.
Qed.

(** The [if] statement when the first item is a string: a string has
    no [decode]. *)
Lemma show_first_text (text : str) (rest : list value) (k : kernel) :
  find_name "events" (ns k) = Some (VList (VStr text :: rest)) ->
  trace (NonStreaming.show_first_event json_parse display_markdown k)
  = [Print [Txt "Raw response: "; Val (VStr text)]].
Proof.
  intros Hev. unfold NonStreaming.show_first_event.
  unfold try_except, bind, read, lift, call, assign, modify,
    print, emit, ret. rewrite Hev.
  cbn [truthy getindex nth_error ended PyMore.decode_method].
  rewrite Hev. cbn [getindex nth_error ended PyMore.decode_method].
  rewrite ?Hev. reflexivity.
Qed.

(** The two statements in a row. *)
Lemma non_streaming_branch_run (response : iter (list byte)) (k k1 : kernel)
    (r1 : outcome unit) :
  NonStreaming.read_events response k
  = (map Fetch (map VBytes (items response)), k1, r1) ->
  NonStreaming.non_streaming_branch json_parse display_markdown response k
  = match r1 with
    | Ok _ =>
        let '(t2, k2, r2) :=
          NonStreaming.show_first_event json_parse display_markdown k1 in
        (map Fetch (map VBytes (items response)) ++ t2, k2, r2)
    | Raise e => (map Fetch (map VBytes (items response)), k1, Raise e)
    | Running => (map Fetch (map VBytes (items response)), k1, Running)
    end.
Proof.
  intros Hread. unfold NonStreaming.non_streaming_branch, bind.
  rewrite Hread. now destruct r1.
Qed.

End NonStreamingFacts.

Lemma prints_fetches (xs : list value) : prints (map Fetch xs) = [].
Proof. induction xs; auto. Qed.

Lemma calls_fetches (f : string) (xs : list value) :
  calls_to f (map Fetch xs) = [].
Proof. induction xs; auto. Qed.

Lemma fetched_fetches (xs : list value) : fetched (map Fetch xs) = xs.
Proof. induction xs as [|x xs IH]; [reflexivity|]. cbn. now rewrite IH. Qed.

(** X8: the branch for a response that is not an event stream does not
    fail on bad data: when reading the response ends well or with an
    instance of [Exception], the branch ends well, whatever the chunks
    hold and however [json.loads] and [display] end. *)
Theorem non_streaming_branch_does_not_raise
    (json_parse : str -> answer value)
    (display_markdown : value -> answer value)
    (response : iter (list byte)) (k : kernel) :
  (forall e, raised_by response = Some e -> isinstance e Exception = true) ->
  result (NonStreaming.non_streaming_branch json_parse display_markdown
            response k)
  = Ok tt.
Proof.
  intros Hexc.
  destruct (read_events_run response k) as (k1 & Hread & Hev).
  rewrite (non_streaming_branch_run _ _ _ _ _ _ Hread).
  assert (Hok : match raised_by response with
                | Some e => if isinstance e Exception then Ok tt else Raise e
                | None => Ok tt
                end = Ok tt).
  { destruct (raised_by response) as [e|]; [|reflexivity].
    now rewrite (Hexc e eq_refl). }
  rewrite Hok.
  pose proof (show_first_event_ends json_parse display_markdown _ k1 Hev)
    as Hshow.
  destruct (NonStreaming.show_first_event json_parse display_markdown k1)
    as [[t2 k2] r2].
  exact Hshow.
Qed.

Lemma non_streaming_branch_does_not_raise_witness :
  (forall e,
     raised_by (iter_of sample_body (Some throttled)) = Some e ->
     isinstance e Exception = true)
  /\ result (NonStreaming.non_streaming_branch json_refuses
               (fun _ => Returns VNone)
               (iter_of sample_body (Some throttled)) fresh)
     = Ok tt.
Proof.
  assert (H : forall e,
     raised_by (iter_of sample_body (Some throttled)) = Some e ->
     isinstance e Exception = true)
    by (intros e [= <-]; reflexivity).
  split; [exact H|].
  exact (non_streaming_branch_does_not_raise json_refuses
           (fun _ => Returns VNone) (iter_of sample_body (Some throttled))
           fresh H).
Defined.

(** X9: when reading the response fails with an instance of
    [Exception], the chunks read so far are dropped and the message
    ["Error reading EventStream: ..."] takes their place; as a string
    has no [decode], the message is never parsed or displayed: it is
    printed as a raw response. *)
Theorem reading_failure_is_shown_raw
    (json_parse : str -> answer value)
    (display_markdown : value -> answer value)
    (response : iter (list byte)) (e : exn) (k : kernel) :
  raised_by response = Some e ->
  isinstance e Exception = true ->
  let r := NonStreaming.non_streaming_branch json_parse display_markdown
             response k in
  prints (trace r)
  = [[Txt "Raw response: ";
      Val (VStr (lit "Error reading EventStream: " ++ exn_str e))]]
  /\ calls_to "json.loads" (trace r) = []
  /\ calls_to "display" (trace r) = []
  /\ find_name "events" (ns (vars r))
     = Some (VList [VStr (lit "Error reading EventStream: "
                          ++ exn_str e)]).
Proof.
  intros Hraised He r. subst r.
  destruct (read_events_run response k) as (k1 & Hread & Hev).
  rewrite Hraised, He in Hread, Hev.
  rewrite (non_streaming_branch_run _ _ _ _ _ _ Hread).
  pose proof (show_first_text json_parse display_markdown _ _ k1 Hev)
    as Hshow.
  assert (Hvars :
    vars (NonStreaming.show_first_event json_parse display_markdown k1)
    = k1).
  { unfold NonStreaming.show_first_event.
    unfold try_except, bind, read, lift, call, assign, modify,
      print, emit, ret. rewrite Hev.
    cbn [truthy getindex nth_error ended PyMore.decode_method].
    rewrite Hev. cbn [getindex nth_error ended PyMore.decode_method].
    rewrite ?Hev. reflexivity. }
  destruct (NonStreaming.show_first_event json_parse display_markdown k1)
    as [[t2 k2] r2].
  unfold trace, vars in *. cbn [fst snd] in *. subst t2 k2.
  rewrite prints_app, !calls_to_app, prints_fetches, !calls_fetches.
  repeat split. exact Hev.
Qed.

Lemma reading_failure_is_shown_raw_witness :
  raised_by (iter_of sample_body (Some throttled)) = Some throttled
  /\ isinstance throttled Exception = true
  /\ (let r := NonStreaming.non_streaming_branch json_refuses
                 (fun _ => Returns VNone)
                 (iter_of sample_body (Some throttled)) fresh in
      prints (trace r)
      = [[Txt "Raw response: ";
          Val (VStr (lit "Error reading EventStream: "
                     ++ exn_str throttled))]]
      /\ calls_to "json.loads" (trace r) = []
      /\ calls_to "display" (trace r) = []
      /\ find_name "events" (ns (vars r))
         = Some (VList [VStr (lit "Error reading EventStream: "
                              ++ exn_str throttled)])).
Proof.
  split; [reflexivity|]. split; [reflexivity|].
  exact (reading_failure_is_shown_raw json_refuses (fun _ => Returns VNone)
           (iter_of sample_body (Some throttled)) throttled fresh
           eq_refl eq_refl).
Defined.

(** X10: of a response that was read to its end, only the first chunk
    is looked at, and the others are read and ignored.  An empty
    response shows nothing at all.  Otherwise the first chunk is decoded
    and parsed and the result displayed; when decoding, parsing or
    displaying fails, the first chunk is printed as a raw response
    instead. *)
Theorem only_the_first_chunk_is_shown
    (json_parse : str -> answer value)
    (display_markdown : value -> answer value)
    (response : iter (list byte)) (k : kernel) :
  raised_by response = None ->
  let r := NonStreaming.non_streaming_branch json_parse display_markdown
             response k in
  fetched (trace r) = map VBytes (items response)
  /\ match items response with
     | [] => prints (trace r) = [] /\ calls_to "display" (trace r) = []
     | first :: _ =>
         match Utf8.decode first with
         | Returns text =>
             calls_to "json.loads" (trace r)
             = [([VStr text], json_parse text)]
             /\ match json_parse text with
                | Returns data =>
                    calls_to "display" (trace r)
                    = [([data], display_markdown data)]
                    /\ prints (trace r)
                       = match display_markdown data with
                         | Returns _ => []
                         | Raises _ =>
                             [[Txt "Raw response: "; Val (VBytes first)]]
                         end
                | Raises _ =>
                    calls_to "display" (trace r) = []
                    /\ prints (trace r)
                       = [[Txt "Raw response: "; Val (VBytes first)]]
                end
         | Raises _ =>
             calls_to "json.loads" (trace r) = []
             /\ calls_to "display" (trace r) = []
             /\ prints (trace r)
                = [[Txt "Raw response: "; Val (VBytes first)]]
         end
     end.
Proof.
  intros Hraised r. subst r.
  destruct (read_events_run response k) as (k1 & Hread & Hev).
  rewrite Hraised in Hread, Hev.
  rewrite (non_streaming_branch_run _ _ _ _ _ _ Hread).
  destruct (items response) as [|first rest] eqn:Hitems.
  - unfold NonStreaming.show_first_event, bind, read. rewrite Hev.
    repeat split.
  - cbn [map] in Hev.
    pose proof (show_first_chunk json_parse display_markdown first _ k1
                  Hev) as Hshow.
    cbv zeta in Hshow.
    destruct (NonStreaming.show_first_event json_parse display_markdown k1)
      as [[t2 k2] r2].
    unfold trace in *. cbn [fst] in *.
    rewrite fetched_app, fetched_fetches, prints_app, !calls_to_app,
      prints_fetches, !calls_fetches.
    cbn [map app].
    destruct (Utf8.decode first) as [text|e].
    + destruct (json_parse text) as [data|e]; subst t2.
      * destruct (display_markdown data); cbn [fetched];
          rewrite app_nil_r; repeat split.
      * cbn [fetched]. rewrite app_nil_r. repeat split.
    + subst t2. cbn [fetched]. rewrite app_nil_r. repeat split.
Qed.

Lemma only_the_first_chunk_is_shown_witness :
  raised_by (iter_of sample_body None) = None
  /\ (let r := NonStreaming.non_streaming_branch json_refuses
                 (fun _ => Returns VNone) (iter_of sample_body None)
                 fresh in
      fetched (trace r) = map VBytes sample_body
      /\ calls_to "json.loads" (trace r)
         = [([VStr (lit "{}")], json_refuses (lit "{}"))]
      /\ calls_to "display" (trace r) = []
      /\ prints (trace r)
         = [[Txt "Raw response: ";
             Val (VBytes (list_byte_of_string "{}"))]]).
Proof.
  split; [reflexivity|].
  exact (only_the_first_chunk_is_shown json_refuses
           (fun _ => Returns VNone) (iter_of sample_body None) fresh
           eq_refl).
Defined.

(* ----------------------------------------------------------------- *)
(** ** Cleanup of the runtime, the repository and the role *)

Lemma split_plain (sep : N) (s : str) :
  existsb (N.eqb sep) s = false -> PyMore.split sep s = [s].
Proof.
  induction s as [|c s IH]; [reflexivity|].
  cbn [existsb PyMore.split]. intros H.
  apply orb_false_iff in H as [Hc Hs].
  rewrite N.eqb_sym, Hc, (IH Hs). reflexivity.
Qed.

Lemma split_segment (sep : N) (a b : str) :
  existsb (N.eqb sep) a = false ->
  PyMore.split sep (a ++ sep :: b) = a :: PyMore.split sep b.
Proof.
  induction a as [|c a IH]; intros H.
  - cbn [app PyMore.split]. now rewrite N.eqb_refl.
  - cbn [existsb] in H. apply orb_false_iff in H as [Hc Ha].
    cbn [app PyMore.split]. rewrite N.eqb_sym, Hc, (IH Ha). reflexivity.
Qed.

(** The second piece of [registry/name] and of [registry/name/...]. *)
Lemma split_second (registry name tail : str) :
  RuntimeCleanup.slash_free registry = true ->
  RuntimeCleanup.slash_free name = true ->
  match tail with [] => True | c :: _ => c = 47%N end ->
  nth_error (PyMore.split 47 (registry ++ 47%N :: name ++ tail)) 1
  = Some name.
Proof.
  unfold RuntimeCleanup.slash_free. intros Hr Hn Htail.
  apply negb_true_iff in Hr, Hn.
  rewrite (split_segment _ _ _ Hr). cbn [nth_error].
  destruct tail as [|c tail].
  - now rewrite app_nil_r, (split_plain _ _ Hn).
  - subst c. now rewrite (split_segment _ _ _ Hn).
Qed.

Lemma iter_of_followed_by {A} (xs ys : list A) (raised : option exn) :
  iter_of (xs ++ ys) raised = PyMore.followed_by xs (iter_of ys raised).
Proof.
  induction xs as [|x xs IH]; [reflexivity|].
  cbn [app iter_of]. rewrite IH. reflexivity.
Qed.

Section RuntimeCleanupFacts.

Import RuntimeCleanup.

Variable env : services.
Variable clients : string -> value.
Variables region launch_result agent_id deleted : value.
Variable uri : str.

Hypothesis Hclients : forall service,
  boto3_client env service = Returns (clients service).
Hypothesis Hagent : PyMore.getattr launch_result "agent_id" = Returns agent_id.
Hypothesis Hruntime :
  delete_agent_runtime env (runtime_kwargs agent_id) = Returns deleted.
Hypothesis Huri :
  PyMore.getattr launch_result "ecr_uri" = Returns (VStr uri).

(** The clients made and the runtime deleted. *)
Let opening : list action :=
  [Call "boto3.client" [VStr (lit "bedrock-agentcore-control"); region]
     (Returns (clients "bedrock-agentcore-control"));
   Call "boto3.client" [VStr (lit "ecr"); region] (Returns (clients "ecr"));
   Call "boto3.client" [VStr (lit "iam")] (Returns (clients "iam"));
   Call "agentcore_control_client.delete_agent_runtime"
     [runtime_kwargs agent_id] (Returns deleted)].

(** The first half of the cell when the URI has a second piece. *)
Lemma first_half_run (k : kernel) (name : str) :
  find_name "region" (ns k) = Some region ->
  find_name "launch_result" (ns k) = Some launch_result ->
  nth_error (PyMore.split 47 uri) 1 = Some name ->
  exists k1,
    delete_runtime_and_repository env k
    = (opening
       ++ [Call "ecr_client.delete_repository"
             [repository_kwargs (VStr name)]
             (delete_repository env (repository_kwargs (VStr name)))],
       k1,
       match delete_repository env (repository_kwargs (VStr name)) with
       | Returns _ => Ok tt
       | Raises e => Raise e
       end)
    /\ find_name "iam_client" (ns k1) = Some (clients "iam")
    /\ find_name "agentcore_iam_role" (ns k1)
       = find_name "agentcore_iam_role" (ns k).
Proof.
  intros Hregion Hlaunch Hname.
  pose proof Hruntime as Hr. unfold runtime_kwargs in Hr.
  unfold delete_runtime_and_repository, opening, repository_kwargs,
    runtime_kwargs.
  unfold bind, read, call, assign, modify, lift.
  repeat (progress
    (cbn [ended ns ticks find_name String.eqb Ascii.eqb Bool.eqb app
          getindex PyMore.split_method];
     rewrite ?Hclients, ?Hregion, ?Hlaunch, ?Hagent, ?Hr, ?Huri,
       ?nth_error_map, ?Hname; cbn [option_map])).
  destruct (delete_repository env _) as [v|e]; cbn [ended];
    eexists; repeat split.
Qed.

(** The first half of the cell when the URI has no second piece. *)
Lemma first_half_stops (k : kernel) :
  find_name "region" (ns k) = Some region ->
  find_name "launch_result" (ns k) = Some launch_result ->
  nth_error (PyMore.split 47 uri) 1 = None ->
  exists k1,
    delete_runtime_and_repository env k
    = (opening, k1,
       Raise (MkExn IndexError (lit "list index out of range"))).
Proof.
  intros Hregion Hlaunch Hname.
  pose proof Hruntime as Hr. unfold runtime_kwargs in Hr.
  unfold delete_runtime_and_repository, opening, repository_kwargs,
    runtime_kwargs.
  unfold bind, read, call, assign, modify, lift.
  repeat (progress
    (cbn [ended ns ticks find_name String.eqb Ascii.eqb Bool.eqb app
          getindex PyMore.split_method];
     rewrite ?Hclients, ?Hregion, ?Hlaunch, ?Hagent, ?Hr, ?Huri,
       ?nth_error_map, ?Hname; cbn [option_map])).
  eexists; reflexivity.
Qed.

Variables iam_role role_dict role policies : value.
Variable names : list value.

Hypothesis Hrole : getitem iam_role (lit "Role") = Returns role_dict.
Hypothesis Hrole_name : getitem role_dict (lit "RoleName") = Returns role.
Hypothesis Hlist :
  list_role_policies env
    (VDict [(lit "RoleName", role); (lit "MaxItems", VInt 100)])
  = Returns policies.
Hypothesis Hnames :
  getitem policies (lit "PolicyNames") = Returns (VList names).

(** What the second half of the cell needs of the kernel. *)
Let has_role (k : kernel) : Prop :=
  find_name "iam_client" (ns k) = Some (clients "iam")
  /\ find_name "agentcore_iam_role" (ns k) = Some iam_role.

Lemma delete_policy_run (name : value) (k : kernel) :
  has_role k ->
  exists k',
    delete_policy env name k
    = ([Call "iam_client.delete_role_policy" [policy_kwargs role name]
          (delete_role_policy env (policy_kwargs role name))],
       k',
       match delete_role_policy env (policy_kwargs role name) with
       | Returns _ => Ok tt
       | Raises e => Raise e
       end)
    /\ has_role k'.
Proof.
  intros [Hc Hr].
  unfold delete_policy, role_name, bind, read, call, assign, modify, lift,
    ret.
  repeat (progress
    (cbn [ended ns ticks find_name String.eqb Ascii.eqb Bool.eqb app];
     rewrite ?Hc, ?Hr, ?Hrole, ?Hrole_name)).
  destruct (delete_role_policy env _) as [v|e]; cbn [ended];
    eexists; (split; [reflexivity|]); split; assumption.
Qed.

(** The loop when every policy is deleted. *)
Lemma policies_loop (done : list value) :
  forall k : kernel,
    has_role k ->
    (forall name, In name done ->
       exists v,
         delete_role_policy env (policy_kwargs role name) = Returns v) ->
    exists k',
      for_each (fun v => v) (iter_of done None) (delete_policy env) k
      = (policy_deletions env role done, k', Ok tt)
      /\ has_role k'.
Proof.
  induction done as [|name done IH]; intros k Hk Hall.
  - exists k. split; [reflexivity|assumption].
  - destruct (delete_policy_run name k Hk) as (k1 & Hrun & Hk1).
    destruct (Hall name (or_introl eq_refl)) as (v & Hv).
    destruct (IH k1 Hk1 (fun n Hn => Hall n (or_intror Hn)))
      as (k2 & Hrun2 & Hk2).
    exists k2. split; [|assumption].
    cbn [iter_of for_each policy_deletions flat_map app].
    apply (bind_run _ _ k [Fetch name] k tt); [reflexivity|].
    apply (bind_run _ _ k
             [Call "iam_client.delete_role_policy"
                [policy_kwargs role name]
                (delete_role_policy env (policy_kwargs role name))]
             k1 tt); [now rewrite Hrun, Hv|exact Hrun2].
Qed.

(** The loop up to the first policy that cannot be deleted. *)
Lemma policies_loop_fails (done : list value) (name : value)
    (rest : iter value) (e : exn) :
  forall k : kernel,
    has_role k ->
    (forall n, In n done ->
       exists v, delete_role_policy env (policy_kwargs role n) = Returns v) ->
    delete_role_policy env (policy_kwargs role name) = Raises e ->
    exists k',
      for_each (fun v => v) (PyMore.followed_by done (Next name rest))
        (delete_policy env) k
      = (policy_deletions env role (done ++ [name]), k', Raise e).
Proof.
  induction done as [|n done IH]; intros k Hk Hall Hfail.
  - destruct (delete_policy_run name k Hk) as (k1 & Hrun & _).
    exists k1. unfold PyMore.followed_by.
    cbn [fold_right for_each app policy_deletions flat_map].
    apply (bind_run _ _ k [Fetch name] k tt); [reflexivity|].
    apply bind_raised. now rewrite Hrun, Hfail.
  - destruct (delete_policy_run n k Hk) as (k1 & Hrun & Hk1).
    destruct (Hall n (or_introl eq_refl)) as (v & Hv).
    destruct (IH k1 Hk1 (fun m Hm => Hall m (or_intror Hm)) Hfail)
      as (k2 & Hrun2).
    exists k2. unfold PyMore.followed_by in *.
    cbn [fold_right for_each app policy_deletions flat_map].
    apply (bind_run _ _ k [Fetch n] k tt); [reflexivity|].
    apply (bind_run _ _ k
             [Call "iam_client.delete_role_policy" [policy_kwargs role n]
                (delete_role_policy env (policy_kwargs role n))]
             k1 tt); [now rewrite Hrun, Hv|exact Hrun2].
Qed.

Lemma role_name_run (k : kernel) :
  has_role k -> role_name k = ([], k, Ok role).
Proof.
  intros [_ Hr]. unfold role_name, bind, read, lift.
  rewrite Hr, Hrole. cbn [ended]. now rewrite Hrole_name.
Qed.

(** The second half of the cell up to the loop. *)
Lemma second_half_unfold (k : kernel) :
  has_role k ->
  delete_role_with_policies env k
  = (let k0 := MkKernel (("policies", policies) :: ns k) (ticks k) in
     let '(t1, k1, r1) :=
       for_each (fun v => v) (iter_of names None) (delete_policy env) k0 in
     match r1 with
     | Ok _ =>
         let '(t2, k2, r2) :=
           (_ <- read "iam_client" ;;
            role <- role_name ;;
            r <- call "iam_client.delete_role" [role_kwargs role]
                   (delete_role env (role_kwargs role)) ;;
            assign "iam_response" r) k1 in
         (Call "iam_client.list_role_policies"
            [VDict [(lit "RoleName", role); (lit "MaxItems", VInt 100)]]
            (Returns policies) :: t1 ++ t2, k2, r2)
     | Raise e =>
         (Call "iam_client.list_role_policies"
            [VDict [(lit "RoleName", role); (lit "MaxItems", VInt 100)]]
            (Returns policies) :: t1, k1, Raise e)
     | Running =>
         (Call "iam_client.list_role_policies"
            [VDict [(lit "RoleName", role); (lit "MaxItems", VInt 100)]]
            (Returns policies) :: t1, k1, Running)
     end).
Proof.
  intros Hk. pose proof (role_name_run k Hk) as Hrn.
  destruct Hk as [Hc Hr].
  set (k0 := MkKernel (("policies", policies) :: ns k) (ticks k)).
  unfold delete_role_with_policies.
  rewrite (bind_ok _ _ k [] k (clients "iam"))
    by (unfold read; now rewrite Hc).
  rewrite (bind_ok _ _ k [] k role) by exact Hrn.
  rewrite (bind_ok _ _ k
             [Call "iam_client.list_role_policies"
                [VDict [(lit "RoleName", role); (lit "MaxItems", VInt 100)]]
                (Returns policies)]
             k policies)
    by (unfold call; now rewrite Hlist).
  rewrite (bind_ok _ _ k [] k0 tt) by reflexivity.
  rewrite (bind_ok _ _ k0 [] k0 policies) by reflexivity.
  rewrite (bind_ok _ _ k0 [] k0 (VList names))
    by (unfold lift; now rewrite Hnames).
  rewrite (bind_ok _ _ k0 [] k0 names) by reflexivity.
  unfold bind at 1. cbv zeta.
  destruct (for_each _ _ _ k0) as [[t1 k1] r1].
  destruct r1; [|reflexivity|reflexivity].
  unfold role_kwargs.
  destruct (bind (read "iam_client") _ k1) as [[t2 k2] r2].
  reflexivity.
Qed.

(** The deletion of the role, after the loop. *)
Lemma delete_role_run (k : kernel) :
  has_role k ->
  exists k',
    (_ <- read "iam_client" ;;
     role <- role_name ;;
     r <- call "iam_client.delete_role" [role_kwargs role]
            (delete_role env (role_kwargs role)) ;;
     assign "iam_response" r) k
    = ([Call "iam_client.delete_role" [role_kwargs role]
          (delete_role env (role_kwargs role))],
       k',
       match delete_role env (role_kwargs role) with
       | Returns _ => Ok tt
       | Raises e => Raise e
       end).
Proof.
  intros [Hc Hr].
  unfold role_name, bind, read, call, assign, modify, lift.
  rewrite Hc, Hr, Hrole. cbn [ended]. rewrite Hrole_name. cbn [ended app].
  destruct (delete_role env (role_kwargs role)); cbn [ended];
    eexists; reflexivity.
Qed.

(** The calls of the whole cell when everything up to the deletion of
    the role works. *)
Lemma cleanup_run_all (k : kernel) (name : str) (v : value) :
  find_name "region" (ns k) = Some region ->
  find_name "launch_result" (ns k) = Some launch_result ->
  find_name "agentcore_iam_role" (ns k) = Some iam_role ->
  nth_error (PyMore.split 47 uri) 1 = Some name ->
  delete_repository env (repository_kwargs (VStr name)) = Returns v ->
  (forall n, In n names ->
     exists w, delete_role_policy env (policy_kwargs role n) = Returns w) ->
  exists k',
    cleanup_cell env k
    = ((opening
        ++ [Call "ecr_client.delete_repository"
              [repository_kwargs (VStr name)] (Returns v)])
       ++ Call "iam_client.list_role_policies"
            [VDict [(lit "RoleName", role); (lit "MaxItems", VInt 100)]]
            (Returns policies)
          :: policy_deletions env role names
             ++ [Call "iam_client.delete_role" [role_kwargs role]
                   (delete_role env (role_kwargs role))],
       k',
       match delete_role env (role_kwargs role) with
       | Returns _ => Ok tt
       | Raises e => Raise e
       end).
Proof.
  intros Hregion Hlaunch Hiam Hname Hv Hall.
  destruct (first_half_run k name Hregion Hlaunch Hname)
    as (k1 & Hrun & Hc1 & Hr1).
  rewrite Hv in Hrun. rewrite Hiam in Hr1.
  unfold cleanup_cell. rewrite (bind_ok _ _ _ _ _ _ Hrun).
  rewrite (second_half_unfold k1 (conj Hc1 Hr1)). cbv zeta.
  destruct (policies_loop names
              (MkKernel (("policies", policies) :: ns k1) (ticks k1))
              (conj Hc1 Hr1) Hall) as (k2 & Hloop & Hk2).
  rewrite Hloop.
  destruct (delete_role_run k2 Hk2) as (k3 & Hdr). rewrite Hdr.
  exists k3. reflexivity.
Qed.

(** The calls of the whole cell when a policy cannot be deleted. *)
Lemma cleanup_run_policy_fails (k : kernel) (name : str) (v : value)
    (done rest : list value) (n : value) (e : exn) :
  find_name "region" (ns k) = Some region ->
  find_name "launch_result" (ns k) = Some launch_result ->
  find_name "agentcore_iam_role" (ns k) = Some iam_role ->
  nth_error (PyMore.split 47 uri) 1 = Some name ->
  delete_repository env (repository_kwargs (VStr name)) = Returns v ->
  names = done ++ n :: rest ->
  (forall m, In m done ->
     exists w, delete_role_policy env (policy_kwargs role m) = Returns w) ->
  delete_role_policy env (policy_kwargs role n) = Raises e ->
  exists k',
    cleanup_cell env k
    = ((opening
        ++ [Call "ecr_client.delete_repository"
              [repository_kwargs (VStr name)] (Returns v)])
       ++ Call "iam_client.list_role_policies"
            [VDict [(lit "RoleName", role); (lit "MaxItems", VInt 100)]]
            (Returns policies)
          :: policy_deletions env role (done ++ [n]),
       k', Raise e).
Proof.
  intros Hregion Hlaunch Hiam Hname Hv Hsplit Hall Hfail.
  destruct (first_half_run k name Hregion Hlaunch Hname)
    as (k1 & Hrun & Hc1 & Hr1).
  rewrite Hv in Hrun. rewrite Hiam in Hr1.
  unfold cleanup_cell. rewrite (bind_ok _ _ _ _ _ _ Hrun).
  rewrite (second_half_unfold k1 (conj Hc1 Hr1)). cbv zeta.
  rewrite Hsplit, iter_of_followed_by. cbn [iter_of].
  destruct (policies_loop_fails done n (iter_of rest None) e
              (MkKernel (("policies", policies) :: ns k1) (ticks k1))
              (conj Hc1 Hr1) Hall Hfail) as (k2 & Hloop).
  rewrite Hloop. exists k2. reflexivity.
Qed.

End RuntimeCleanupFacts.

Lemma bind_all {St A B} (P : action -> bool) (m : M St A)
    (f : A -> M St B) (s : St) :
  forallb P (trace (m s)) = true ->
  (forall a s', forallb P (trace (f a s')) = true) ->
  forallb P (trace (bind m f s)) = true.
Proof.
  intros Hm Hf. unfold bind. destruct (m s) as [[t1 s1] r1].
  unfold trace in *. cbn [fst] in *. destruct r1; try exact Hm.
  specialize (Hf a s1). destruct (f a s1) as [[t2 s2] r2].
  cbn [fst] in *. now rewrite forallb_app, Hm, Hf.
Qed.

Lemma for_each_all {St A} (P : action -> bool) (inj : A -> value)
    (body : A -> M St unit) (it : iter A) :
  (forall a, P (Fetch (inj a)) = true) ->
  (forall a s, forallb P (trace (body a s)) = true) ->
  forall s, forallb P (trace (for_each inj it body s)) = true.
Proof.
  intros Hfetch Hbody. induction it as [|e|a rest IH]; intros s;
    try reflexivity.
  cbn [for_each]. apply bind_all.
  - cbn. now rewrite Hfetch.
  - intros _ s1. apply bind_all; [apply Hbody|]. intros _ s2. apply IH.
Qed.

Lemma read_all (P : action -> bool) (x : string) (k : kernel) :
  forallb P (trace (read x k)) = true.
Proof. unfold read. now destruct (find_name x (ns k)). Qed.

Lemma lift_all {St A} (P : action -> bool) (r : answer A) (s : St) :
  forallb P (trace (lift r s)) = true.
Proof. reflexivity. Qed.

(** The second half of the cell calls nothing but the IAM client. *)
Lemma second_half_is_iam_only (env : RuntimeCleanup.services) (k : kernel) :
  forallb RuntimeCleanup.iam_only
    (trace (RuntimeCleanup.delete_role_with_policies env k))
  = true.
Proof.
  assert (Hrole : forall k',
    forallb RuntimeCleanup.iam_only (trace (RuntimeCleanup.role_name k'))
    = true).
  { intros k'. unfold RuntimeCleanup.role_name.
    apply bind_all; [apply read_all|]. intros a s.
    apply bind_all; [apply lift_all|]. intros b s'. apply lift_all. }
  assert (Hpolicy : forall name k',
    forallb RuntimeCleanup.iam_only
      (trace (RuntimeCleanup.delete_policy env name k')) = true).
  { intros name k'. unfold RuntimeCleanup.delete_policy.
    apply bind_all; [reflexivity|]. intros _ s1.
    apply bind_all; [apply read_all|]. intros _ s2.
    apply bind_all; [apply Hrole|]. intros role s3.
    apply bind_all; [apply read_all|]. intros name' s4.
    apply bind_all; [reflexivity|]. reflexivity. }
  unfold RuntimeCleanup.delete_role_with_policies.
  apply bind_all; [apply read_all|]. intros _ s1.
  apply bind_all; [apply Hrole|]. intros role s2.
  apply bind_all; [reflexivity|]. intros policies s3.
  apply bind_all; [reflexivity|]. intros _ s4.
  apply bind_all; [apply read_all|]. intros policies' s5.
  apply bind_all; [apply lift_all|]. intros names s6.
  apply bind_all; [apply lift_all|]. intros names' s7.
  apply bind_all; [now apply for_each_all|]. intros _ s8.
  apply bind_all; [apply read_all|]. intros _ s9.
  apply bind_all; [apply Hrole|]. intros role' s10.
  apply bind_all; [reflexivity|]. reflexivity.
Qed.

Lemma iam_only_calls (f : string) (t : list action) :
  forallb RuntimeCleanup.iam_only t = true ->
  String.prefix "iam_client." f = false ->
  calls_to f t = [].
Proof.
  intros Ht Hf. induction t as [|a t IH]; [reflexivity|].
  cbn [forallb] in Ht. apply andb_true_iff in Ht as [Ha Ht].
  destruct a as [ps|v|target args res|v|z]; cbn [calls_to]; auto.
  destruct (String.eqb target f) eqn:Heq; auto.
  apply String.eqb_eq in Heq. subst target. cbn in Ha. congruence.
Qed.

Lemma policy_deletions_calls (env : RuntimeCleanup.services) (role : value)
    (names : list value) :
  calls_to "iam_client.delete_role_policy"
    (RuntimeCleanup.policy_deletions env role names)
  = map (fun n =>
           ([RuntimeCleanup.policy_kwargs role n],
            RuntimeCleanup.delete_role_policy env
              (RuntimeCleanup.policy_kwargs role n)))
        names.
Proof.
  unfold RuntimeCleanup.policy_deletions.
  induction names as [|n names IH]; [reflexivity|].
  cbn [flat_map app map calls_to String.eqb Ascii.eqb Bool.eqb].
  now rewrite IH.
Qed.

Lemma policy_deletions_other (env : RuntimeCleanup.services) (role : value)
    (names : list value) (f : string) :
  String.eqb "iam_client.delete_role_policy" f = false ->
  calls_to f (RuntimeCleanup.policy_deletions env role names) = [].
Proof.
  intros Hf. unfold RuntimeCleanup.policy_deletions.
  induction names as [|n names IH]; [reflexivity|].
  cbn [flat_map app calls_to]. now rewrite Hf.
Qed.

(** X11: the repository that the cleanup cell deletes is named by the
    piece of [launch_result.ecr_uri] between the first slash and the
    next one (or the end): for [registry/name] and for
    [registry/name/more] alike the cell asks once for the deletion of
    [name], with [force=True]. *)
Theorem repository_is_named_by_second_segment
    (env : RuntimeCleanup.services) (clients : string -> value)
    (region launch_result agent_id deleted : value)
    (registry name tail : str) (k : kernel) :
  (forall service,
     RuntimeCleanup.boto3_client env service = Returns (clients service)) ->
  find_name "region" (ns k) = Some region ->
  find_name "launch_result" (ns k) = Some launch_result ->
  PyMore.getattr launch_result "agent_id" = Returns agent_id ->
  RuntimeCleanup.delete_agent_runtime env
    (RuntimeCleanup.runtime_kwargs agent_id) = Returns deleted ->
  PyMore.getattr launch_result "ecr_uri"
    = Returns (VStr (registry ++ 47%N :: name ++ tail)) ->
  RuntimeCleanup.slash_free registry = true ->
  RuntimeCleanup.slash_free name = true ->
  match tail with [] => True | c :: _ => c = 47%N end ->
  calls_to "ecr_client.delete_repository"
    (trace (RuntimeCleanup.cleanup_cell env k))
  = [([RuntimeCleanup.repository_kwargs (VStr name)],
      RuntimeCleanup.delete_repository env
        (RuntimeCleanup.repository_kwargs (VStr name)))].
Proof.
  intros Hclients Hregion Hlaunch Hagent Hruntime Huri Hreg Hname Htail.
  destruct (first_half_run env clients region launch_result agent_id
              deleted _ Hclients Hagent Hruntime Huri k name Hregion
              Hlaunch (split_second _ _ _ Hreg Hname Htail))
    as (k1 & Hrun & _).
  unfold RuntimeCleanup.cleanup_cell.
  destruct (RuntimeCleanup.delete_repository env _) as [v|e].
  - rewrite (bind_ok _ _ _ _ _ _ Hrun).
    pose proof (second_half_is_iam_only env k1) as Hiam.
    destruct (RuntimeCleanup.delete_role_with_policies env k1)
      as [[t2 k2] r2].
    unfold trace in *. cbn [fst] in *.
    rewrite calls_to_app,
      (iam_only_calls "ecr_client.delete_repository" t2 Hiam eq_refl).
    reflexivity.
  - now rewrite (bind_raised _ _ _ _ _ _ Hrun).
Qed.

Lemma repository_is_named_by_second_segment_witness :
  (forall service,
     RuntimeCleanup.boto3_client (account []) service
     = Returns (VObj service))
  /\ find_name "region"
       (ns (deployed (registry ++ lit "/team/streaming-agent")))
     = Some (VStr (lit "us-west-2"))
  /\ find_name "launch_result"
       (ns (deployed (registry ++ lit "/team/streaming-agent")))
     = Some (launched (registry ++ lit "/team/streaming-agent"))
  /\ RuntimeCleanup.slash_free registry = true
  /\ RuntimeCleanup.slash_free (lit "team") = true
  /\ calls_to "ecr_client.delete_repository"
       (trace (RuntimeCleanup.cleanup_cell (account [])
                 (deployed (registry ++ lit "/team/streaming-agent"))))
     = [([RuntimeCleanup.repository_kwargs (VStr (lit "team"))],
         Returns (VDict []))].
Proof.
  assert (Hclients : forall service,
     RuntimeCleanup.boto3_client (account []) service
     = Returns (VObj service)) by reflexivity.
  split; [exact Hclients|]. split; [reflexivity|]. split; [reflexivity|].
  split; [reflexivity|]. split; [reflexivity|].
  exact (repository_is_named_by_second_segment (account []) VObj
           (VStr (lit "us-west-2"))
           (launched (registry ++ lit "/team/streaming-agent"))
           (VStr (lit "strands_claude_streaming-a1b2"))
           (VDict [(lit "status", VStr (lit "DELETING"))])
           registry (lit "team") (lit "/streaming-agent")
           (deployed (registry ++ lit "/team/streaming-agent"))
           Hclients eq_refl eq_refl eq_refl eq_refl eq_refl eq_refl eq_refl
           eq_refl).
Defined.

(** X12: when [launch_result.ecr_uri] holds no slash, the cell deletes
    the runtime and then ends with [IndexError]: the repository, the
    policies and the role are left as they are. *)
Theorem uri_without_slash_stops_cleanup
    (env : RuntimeCleanup.services) (clients : string -> value)
    (region launch_result agent_id deleted : value) (uri : str)
    (k : kernel) :
  (forall service,
     RuntimeCleanup.boto3_client env service = Returns (clients service)) ->
  find_name "region" (ns k) = Some region ->
  find_name "launch_result" (ns k) = Some launch_result ->
  PyMore.getattr launch_result "agent_id" = Returns agent_id ->
  RuntimeCleanup.delete_agent_runtime env
    (RuntimeCleanup.runtime_kwargs agent_id) = Returns deleted ->
  PyMore.getattr launch_result "ecr_uri" = Returns (VStr uri) ->
  RuntimeCleanup.slash_free uri = true ->
  let r := RuntimeCleanup.cleanup_cell env k in
  result r = Raise (MkExn IndexError (lit "list index out of range"))
  /\ calls_to "agentcore_control_client.delete_agent_runtime" (trace r)
     = [([RuntimeCleanup.runtime_kwargs agent_id], Returns deleted)]
  /\ calls_to "ecr_client.delete_repository" (trace r) = []
  /\ calls_to "iam_client.list_role_policies" (trace r) = []
  /\ calls_to "iam_client.delete_role" (trace r) = [].
Proof.
  intros Hclients Hregion Hlaunch Hagent Hruntime Huri Hfree r. subst r.
  assert (Hsplit : nth_error (PyMore.split 47 uri) 1 = None).
  { unfold RuntimeCleanup.slash_free in Hfree.
    apply negb_true_iff in Hfree. now rewrite (split_plain _ _ Hfree). }
  destruct (first_half_stops env clients region launch_result agent_id
              deleted uri Hclients Hagent Hruntime Huri k Hregion Hlaunch
              Hsplit) as (k1 & Hrun).
  unfold RuntimeCleanup.cleanup_cell.
  rewrite (bind_raised _ _ _ _ _ _ Hrun). repeat split.
Qed.

Lemma uri_without_slash_stops_cleanup_witness :
  (forall service,
     RuntimeCleanup.boto3_client (account []) service
     = Returns (VObj service))
  /\ RuntimeCleanup.slash_free (lit "streaming-agent") = true
  /\ (let r := RuntimeCleanup.cleanup_cell (account [])
                 (deployed (lit "streaming-agent")) in
      result r = Raise (MkExn IndexError (lit "list index out of range"))
      /\ calls_to "agentcore_control_client.delete_agent_runtime" (trace r)
         = [([RuntimeCleanup.runtime_kwargs
                (VStr (lit "strands_claude_streaming-a1b2"))],
             Returns (VDict [(lit "status", VStr (lit "DELETING"))]))]
      /\ calls_to "ecr_client.delete_repository" (trace r) = []
      /\ calls_to "iam_client.list_role_policies" (trace r) = []
      /\ calls_to "iam_client.delete_role" (trace r) = []).
Proof.
  assert (Hclients : forall service,
     RuntimeCleanup.boto3_client (account []) service
     = Returns (VObj service)) by reflexivity.
  split; [exact Hclients|]. split; [reflexivity|].
  exact (uri_without_slash_stops_cleanup (account []) VObj
           (VStr (lit "us-west-2")) (launched (lit "streaming-agent"))
           (VStr (lit "strands_claude_streaming-a1b2"))
           (VDict [(lit "status", VStr (lit "DELETING"))])
           (lit "streaming-agent") (deployed (lit "streaming-agent"))
           Hclients eq_refl eq_refl eq_refl eq_refl eq_refl eq_refl).
Defined.

(** X13: the role goes last.  When the runtime and the repository were
    deleted and every inline policy that [list_role_policies] names can
    be deleted, the cell deletes those policies one by one in the order
    of the listing, each for the role of [agentcore_iam_role], and only
    then asks for the deletion of the role, which is its last action. *)
Theorem role_is_deleted_after_its_policies
    (env : RuntimeCleanup.services) (clients : string -> value)
    (region launch_result agent_id deleted : value) (uri name : str)
    (removed iam_role role_dict role policies : value)
    (names : list value) (k : kernel) :
  (forall service,
     RuntimeCleanup.boto3_client env service = Returns (clients service)) ->
  find_name "region" (ns k) = Some region ->
  find_name "launch_result" (ns k) = Some launch_result ->
  find_name "agentcore_iam_role" (ns k) = Some iam_role ->
  PyMore.getattr launch_result "agent_id" = Returns agent_id ->
  RuntimeCleanup.delete_agent_runtime env
    (RuntimeCleanup.runtime_kwargs agent_id) = Returns deleted ->
  PyMore.getattr launch_result "ecr_uri" = Returns (VStr uri) ->
  nth_error (PyMore.split 47 uri) 1 = Some name ->
  RuntimeCleanup.delete_repository env
    (RuntimeCleanup.repository_kwargs (VStr name)) = Returns removed ->
  getitem iam_role (lit "Role") = Returns role_dict ->
  getitem role_dict (lit "RoleName") = Returns role ->
  RuntimeCleanup.list_role_policies env
    (VDict [(lit "RoleName", role); (lit "MaxItems", VInt 100)])
  = Returns policies ->
  getitem policies (lit "PolicyNames") = Returns (VList names) ->
  (forall n, In n names ->
     exists w,
       RuntimeCleanup.delete_role_policy env
         (RuntimeCleanup.policy_kwargs role n) = Returns w) ->
  let r := RuntimeCleanup.cleanup_cell env k in
  calls_to "iam_client.delete_role_policy" (trace r)
  = map (fun n =>
           ([RuntimeCleanup.policy_kwargs role n],
            RuntimeCleanup.delete_role_policy env
              (RuntimeCleanup.policy_kwargs role n)))
        names
  /\ calls_to "iam_client.delete_role" (trace r)
     = [([RuntimeCleanup.role_kwargs role],
         RuntimeCleanup.delete_role env (RuntimeCleanup.role_kwargs role))]
  /\ (exists before,
        trace r
        = before
          ++ [Call "iam_client.delete_role" [RuntimeCleanup.role_kwargs role]
                (RuntimeCleanup.delete_role env
                   (RuntimeCleanup.role_kwargs role))])
  /\ result r
     = ended (match RuntimeCleanup.delete_role env
                      (RuntimeCleanup.role_kwargs role) with
              | Returns _ => Returns tt
              | Raises e => Raises e
              end).
Proof.
  intros Hclients Hregion Hlaunch Hiam Hagent Hruntime Huri Hname Hrepo
    Hrole Hrole_name Hlist Hnames Hall r. subst r.
  destruct (cleanup_run_all env clients region launch_result agent_id
              deleted uri Hclients Hagent Hruntime Huri iam_role role_dict
              role policies names Hrole Hrole_name Hlist Hnames k name
              removed Hregion Hlaunch Hiam Hname Hrepo Hall)
    as (k' & ->).
  unfold trace, result. cbn [fst snd].
  split; [|split; [|split]].
  - rewrite calls_to_app. cbn [app calls_to String.eqb Ascii.eqb Bool.eqb].
    rewrite calls_to_app, policy_deletions_calls.
    cbn [calls_to String.eqb Ascii.eqb Bool.eqb]. now rewrite app_nil_r.
  - rewrite calls_to_app. cbn [app calls_to String.eqb Ascii.eqb Bool.eqb].
    rewrite calls_to_app, (policy_deletions_other _ _ _ "iam_client.delete_role" eq_refl).
    cbn [calls_to String.eqb Ascii.eqb Bool.eqb]. reflexivity.
  - eexists. rewrite app_comm_cons, app_assoc. reflexivity.
  - now destruct (RuntimeCleanup.delete_role env _).
Qed.

Lemma role_is_deleted_after_its_policies_witness :
  (forall service,
     RuntimeCleanup.boto3_client (account []) service
     = Returns (VObj service))
  /\ nth_error (PyMore.split 47 (registry ++ lit "/streaming-agent")) 1
     = Some (lit "streaming-agent")
  /\ (forall n, In n inline_policies ->
        exists w,
          RuntimeCleanup.delete_role_policy (account [])
            (RuntimeCleanup.policy_kwargs
               (VStr (lit "agentcore-streaming-role")) n)
          = Returns w)
  /\ (let r := RuntimeCleanup.cleanup_cell (account [])
                 (deployed (registry ++ lit "/streaming-agent")) in
      calls_to "iam_client.delete_role_policy" (trace r)
      = map (fun n =>
               ([RuntimeCleanup.policy_kwargs
                   (VStr (lit "agentcore-streaming-role")) n],
                Returns (VDict [])))
            inline_policies
      /\ calls_to "iam_client.delete_role" (trace r)
         = [([RuntimeCleanup.role_kwargs
                (VStr (lit "agentcore-streaming-role"))],
             Returns (VDict []))]
      /\ (exists before,
            trace r
            = before
              ++ [Call "iam_client.delete_role"
                    [RuntimeCleanup.role_kwargs
                       (VStr (lit "agentcore-streaming-role"))]
                    (Returns (VDict []))])
      /\ result r = Ok tt).
Proof.
  assert (Hclients : forall service,
     RuntimeCleanup.boto3_client (account []) service
     = Returns (VObj service)) by reflexivity.
  assert (Hall : forall n, In n inline_policies ->
     exists w,
       RuntimeCleanup.delete_role_policy (account [])
         (RuntimeCleanup.policy_kwargs
            (VStr (lit "agentcore-streaming-role")) n)
       = Returns w).
  { intros n [<- | [<- | [<- | []]]]; exists (VDict []); reflexivity. }
  split; [exact Hclients|]. split; [reflexivity|]. split; [exact Hall|].
  exact (role_is_deleted_after_its_policies (account []) VObj
           (VStr (lit "us-west-2"))
           (launched (registry ++ lit "/streaming-agent"))
           (VStr (lit "strands_claude_streaming-a1b2"))
           (VDict [(lit "status", VStr (lit "DELETING"))])
           (registry ++ lit "/streaming-agent") (lit "streaming-agent")
           (VDict []) runtime_role
           (VDict [(lit "RoleName", VStr (lit "agentcore-streaming-role"));
                   (lit "Path", VStr (lit "/"))])
           (VStr (lit "agentcore-streaming-role"))
           (VDict [(lit "PolicyNames", VList inline_policies)])
           inline_policies
           (deployed (registry ++ lit "/streaming-agent"))
           Hclients eq_refl eq_refl eq_refl eq_refl eq_refl eq_refl eq_refl
           eq_refl eq_refl eq_refl eq_refl eq_refl Hall).
Defined.

(** X14: a policy that cannot be deleted keeps the role.  When the
    deletion of one of the listed policies raises, the cell ends with
    that exception: the policies listed before it are deleted, those
    after it are not asked for, and [delete_role] is never called. *)
Theorem failed_policy_deletion_keeps_the_role
    (env : RuntimeCleanup.services) (clients : string -> value)
    (region launch_result agent_id deleted : value) (uri name : str)
    (removed iam_role role_dict role policies : value)
    (done rest : list value) (n : value) (e : exn) (k : kernel) :
  (forall service,
     RuntimeCleanup.boto3_client env service = Returns (clients service)) ->
  find_name "region" (ns k) = Some region ->
  find_name "launch_result" (ns k) = Some launch_result ->
  find_name "agentcore_iam_role" (ns k) = Some iam_role ->
  PyMore.getattr launch_result "agent_id" = Returns agent_id ->
  RuntimeCleanup.delete_agent_runtime env
    (RuntimeCleanup.runtime_kwargs agent_id) = Returns deleted ->
  PyMore.getattr launch_result "ecr_uri" = Returns (VStr uri) ->
  nth_error (PyMore.split 47 uri) 1 = Some name ->
  RuntimeCleanup.delete_repository env
    (RuntimeCleanup.repository_kwargs (VStr name)) = Returns removed ->
  getitem iam_role (lit "Role") = Returns role_dict ->
  getitem role_dict (lit "RoleName") = Returns role ->
  RuntimeCleanup.list_role_policies env
    (VDict [(lit "RoleName", role); (lit "MaxItems", VInt 100)])
  = Returns policies ->
  getitem policies (lit "PolicyNames")
    = Returns (VList (done ++ n :: rest)) ->
  (forall m, In m done ->
     exists w,
       RuntimeCleanup.delete_role_policy env
         (RuntimeCleanup.policy_kwargs role m) = Returns w) ->
  RuntimeCleanup.delete_role_policy env
    (RuntimeCleanup.policy_kwargs role n) = Raises e ->
  let r := RuntimeCleanup.cleanup_cell env k in
  result r = Raise e
  /\ calls_to "iam_client.delete_role_policy" (trace r)
     = map (fun m =>
              ([RuntimeCleanup.policy_kwargs role m],
               RuntimeCleanup.delete_role_policy env
                 (RuntimeCleanup.policy_kwargs role m)))
           (done ++ [n])
  /\ calls_to "iam_client.delete_role" (trace r) = [].
Proof.
  intros Hclients Hregion Hlaunch Hiam Hagent Hruntime Huri Hname Hrepo
    Hrole Hrole_name Hlist Hnames Hall Hfail r. subst r.
  destruct (cleanup_run_policy_fails env clients region launch_result
              agent_id deleted uri Hclients Hagent Hruntime Huri iam_role
              role_dict role policies (done ++ n :: rest) Hrole Hrole_name
              Hlist Hnames k name removed done rest n e Hregion Hlaunch
              Hiam Hname Hrepo eq_refl Hall Hfail)
    as (k' & ->).
  unfold trace, result. cbn [fst snd].
  split; [reflexivity|]. split.
  - rewrite calls_to_app. cbn [app calls_to String.eqb Ascii.eqb Bool.eqb].
    now rewrite policy_deletions_calls.
  - rewrite calls_to_app. cbn [app calls_to String.eqb Ascii.eqb Bool.eqb].
    now rewrite (policy_deletions_other _ _ _ "iam_client.delete_role" eq_refl).
Qed.

Lemma failed_policy_deletion_keeps_the_role_witness :
  (forall service,
     RuntimeCleanup.boto3_client (account [lit "pull-image"]) service
     = Returns (VObj service))
  /\ nth_error (PyMore.split 47 (registry ++ lit "/streaming-agent")) 1
     = Some (lit "streaming-agent")
  /\ (forall m, In m (firstn 1 inline_policies) ->
        exists w,
          RuntimeCleanup.delete_role_policy (account [lit "pull-image"])
            (RuntimeCleanup.policy_kwargs
               (VStr (lit "agentcore-streaming-role")) m)
          = Returns w)
  /\ RuntimeCleanup.delete_role_policy (account [lit "pull-image"])
       (RuntimeCleanup.policy_kwargs
          (VStr (lit "agentcore-streaming-role")) (VStr (lit "pull-image")))
     = Raises (MkExn (UserError "ClientError") (lit "AccessDenied"))
  /\ (let r := RuntimeCleanup.cleanup_cell (account [lit "pull-image"])
                 (deployed (registry ++ lit "/streaming-agent")) in
      result r = Raise (MkExn (UserError "ClientError") (lit "AccessDenied"))
      /\ List.length (calls_to "iam_client.delete_role_policy" (trace r))
         = 2
      /\ calls_to "iam_client.delete_role" (trace r) = []).
Proof.
  assert (Hclients : forall service,
     RuntimeCleanup.boto3_client (account [lit "pull-image"]) service
     = Returns (VObj service)) by reflexivity.
  assert (Hall : forall m, In m (firstn 1 inline_policies) ->
     exists w,
       RuntimeCleanup.delete_role_policy (account [lit "pull-image"])
         (RuntimeCleanup.policy_kwargs
            (VStr (lit "agentcore-streaming-role")) m)
       = Returns w).
  { intros m [<- | []]. exists (VDict []). reflexivity. }
  split; [exact Hclients|]. split; [reflexivity|]. split; [exact Hall|].
  split; [reflexivity|].
  pose proof
    (failed_policy_deletion_keeps_the_role (account [lit "pull-image"]) VObj
       (VStr (lit "us-west-2"))
       (launched (registry ++ lit "/streaming-agent"))
       (VStr (lit "strands_claude_streaming-a1b2"))
       (VDict [(lit "status", VStr (lit "DELETING"))])
       (registry ++ lit "/streaming-agent") (lit "streaming-agent")
       (VDict []) runtime_role
       (VDict [(lit "RoleName", VStr (lit "agentcore-streaming-role"));
               (lit "Path", VStr (lit "/"))])
       (VStr (lit "agentcore-streaming-role"))
       (VDict [(lit "PolicyNames", VList inline_policies)])
       (firstn 1 inline_policies) (skipn 2 inline_policies)
       (VStr (lit "pull-image"))
       (MkExn (UserError "ClientError") (lit "AccessDenied"))
       (deployed (registry ++ lit "/streaming-agent"))
       Hclients eq_refl eq_refl eq_refl eq_refl eq_refl eq_refl eq_refl
       eq_refl eq_refl eq_refl eq_refl eq_refl Hall eq_refl) as H.
  cbv zeta in H. destruct H as (Hres & Hcalls & Hrole).
  split; [exact Hres|]. split; [|exact Hrole].
  rewrite Hcalls. reflexivity.
Defined.

(* ----------------------------------------------------------------- *)
(** ** The browser session cell: failures of the task and of the setup *)

(** X15: a task that fails with an instance of [Exception] does not by
    itself fail the session cell.  With the session set up, the task
    announced and the error message one that Rich can render, the cell
    prints the error where it would have printed the completion, closes
    the session once, and ends as closing ends: well when [close()]
    returns or raises an instance of [Exception], with the exception of
    [close()] otherwise. *)
Theorem task_exception_does_not_fail_the_session
    (lib : Browser.library) (k : kernel) (headers ws_url : value)
    (e : exn) :
  find_name "headers" (ns k) = Some headers ->
  find_name "ws_url" (ns k) = Some ws_url ->
  BrowserNotebook.session_setup_failure lib = None ->
  Browser.render_markup lib (Browser.task_message BrowserNotebook.task)
    = Returns tt ->
  Browser.task_failure lib BrowserNotebook.task = Some e ->
  isinstance e Exception = true ->
  Browser.render_markup lib (Browser.error_message e) = Returns tt ->
  let r := Browser.browser_session_cell lib k in
  let closed :=
    match Browser.browser_session_close lib with
    | Returns _ => None
    | Raises e' => if isinstance e' Exception then None else Some e'
    end in
  result r = match closed with None => Ok tt | Some e' => Raise e' end
  /\ calls_to "browser_session.close" (trace r)
     = [([], Browser.browser_session_close lib)]
  /\ prints (trace r)
     = [[Txt "Initializing browser session..."];
        [Txt "Browser session initialized and ready for tasks"];
        Browser.task_message BrowserNotebook.task;
        Browser.error_message e;
        [Txt "Closing browser session..."]]
       ++ match closed with
          | None => [[Txt "Browser session closed"]]
          | Some _ => []
          end.
Proof.
  intros Hheaders Hws Hsetup Hannounce Htask He Hprint r closed.
  subst r closed.
  destruct lib as [bp bs st chat agent run close term render].
  unfold BrowserNotebook.session_setup_failure, Browser.task_failure in *.
  cbn [Browser.BrowserProfile Browser.BrowserSession
       Browser.browser_session_start Browser.ChatBedrockConverse
       Browser.Agent Browser.agent_run Browser.browser_session_close
       Browser.render_markup] in *.
  rewrite Hannounce in Htask.
  destruct bp as [[]|]; [|discriminate].
  destruct bs as [[]|]; [|discriminate].
  destruct st as [started|]; [|discriminate].
  destruct chat as [[]|]; [|discriminate].
  unfold Browser.browser_session_cell, Browser.session_body,
    Browser.session_cleanup, Browser.run_browser_task,
    Browser.console_print, suppress.
  unfold Browser.task_message, Browser.error_message, BrowserNotebook.task
    in *.
  cbn in Hannounce, Hprint.
  unfold try_except, try_finally, bind, construct, call, print, emit, ret,
    raise, read, assign, modify.
  cbn. rewrite Hheaders. cbn. rewrite Hws. cbn. rewrite Hannounce. cbn.
  destruct agent as [[]|e1]; cbn.
  - destruct run as [v|e2]; [discriminate|]. injection Htask as ->.
    cbn. rewrite He. cbn. rewrite Hprint. cbn.
    destruct term; cbn;
      (destruct close as [c|e']; cbn;
       [|destruct (isinstance e' Exception); cbn]; repeat split).
  - injection Htask as ->. rewrite He. cbn. rewrite Hprint. cbn.
    destruct term; cbn;
      (destruct close as [c|e']; cbn;
       [|destruct (isinstance e' Exception); cbn]; repeat split).
Qed.

Lemma task_exception_does_not_fail_the_session_witness :
  find_name "headers" (ns browser_ready)
    = Some (VDict [(lit "Authorization", VStr (lit "AWS4"))])
  /\ BrowserNotebook.session_setup_failure browser_throttled = None
  /\ Browser.task_failure browser_throttled BrowserNotebook.task
     = Some throttled
  /\ isinstance throttled Exception = true
  /\ (let r := Browser.browser_session_cell browser_throttled
                 browser_ready in
      result r = Ok tt
      /\ calls_to "browser_session.close" (trace r)
         = [([], Returns VNone)]
      /\ prints (trace r)
         = [[Txt "Initializing browser session..."];
            [Txt "Browser session initialized and ready for tasks"];
            [Txt "Executing task: "; Val BrowserNotebook.task];
            [Txt "Error during task execution: ";
             Val (VStr (lit "throttled"))];
            [Txt "Closing browser session..."];
            [Txt "Browser session closed"]]).
Proof.
  split; [reflexivity|]. split; [reflexivity|]. split; [reflexivity|].
  split; [reflexivity|].
  exact (task_exception_does_not_fail_the_session browser_throttled
           browser_ready _ _ throttled eq_refl eq_refl eq_refl eq_refl
           eq_refl eq_refl eq_refl).
Defined.

(** X16: a failure of the setup is not swallowed and the task is not
    tried.  When the profile, the session, its start or the model
    raises, the agent is neither constructed nor run, and the cell ends
    with that exception whatever its class, after the [finally] block
    ran; only when the session had been constructed and closing it
    raises outside [Exception] does the cell end with the exception of
    [close()] instead. *)
Theorem setup_failure_skips_the_task
    (lib : Browser.library) (k : kernel) (headers ws_url : value)
    (e : exn) :
  find_name "headers" (ns k) = Some headers ->
  find_name "ws_url" (ns k) = Some ws_url ->
  BrowserNotebook.session_setup_failure lib = Some e ->
  let r := Browser.browser_session_cell lib k in
  result r
  = match Browser.BrowserProfile lib, Browser.BrowserSession lib,
          Browser.browser_session_close lib with
    | Returns _, Returns _, Raises e' =>
        if isinstance e' Exception then Raise e else Raise e'
    | _, _, _ => Raise e
    end
  /\ calls_to "Agent" (trace r) = []
  /\ calls_to "agent.run" (trace r) = []
  /\ calls_to "browser_session.start" (trace r)
     = match Browser.BrowserProfile lib, Browser.BrowserSession lib with
       | Returns _, Returns _ => [([], Browser.browser_session_start lib)]
       | _, _ => []
       end.
Proof.
  intros Hheaders Hws Hsetup r. subst r.
  destruct lib as [bp bs st chat agent run close term render].
  unfold BrowserNotebook.session_setup_failure in *.
  cbn [Browser.BrowserProfile Browser.BrowserSession
       Browser.browser_session_start Browser.ChatBedrockConverse
       Browser.Agent Browser.agent_run Browser.browser_session_close] in *.
  unfold Browser.browser_session_cell, Browser.session_body,
    Browser.session_cleanup, Browser.run_browser_task, suppress.
  unfold try_except, try_finally, bind, construct, call, print, emit, ret,
    read, assign, modify.
  cbn. rewrite Hheaders. cbn.
  destruct bp as [[]|e0]; cbn.
  2:{ injection Hsetup as ->. repeat split. }
  rewrite Hws. cbn.
  destruct bs as [[]|e0]; cbn.
  2:{ injection Hsetup as ->. repeat split. }
  destruct st as [started|e0]; cbn.
  2:{ injection Hsetup as ->.
      destruct close as [c|e']; cbn;
        [|destruct (isinstance e' Exception); cbn]; repeat split. }
  destruct chat as [[]|e0]; [discriminate|].
  injection Hsetup as ->. cbn.
  destruct close as [c|e']; cbn;
    [|destruct (isinstance e' Exception); cbn]; repeat split.
Qed.

Lemma setup_failure_skips_the_task_witness :
  find_name "headers" (ns browser_ready)
    = Some (VDict [(lit "Authorization", VStr (lit "AWS4"))])
  /\ BrowserNotebook.session_setup_failure browser_unreachable
     = Some (MkExn (UserError "TimeoutError")
               (lit "CDP connection timed out"))
  /\ (let r := Browser.browser_session_cell browser_unreachable
                 browser_ready in
      result r
      = Raise (MkExn (UserError "TimeoutError")
                 (lit "CDP connection timed out"))
      /\ calls_to "Agent" (trace r) = []
      /\ calls_to "agent.run" (trace r) = []
      /\ calls_to "browser_session.start" (trace r)
         = [([], Raises (MkExn (UserError "TimeoutError")
                           (lit "CDP connection timed out")))]).
Proof.
  split; [reflexivity|]. split; [reflexivity|].
  exact (setup_failure_skips_the_task browser_unreachable browser_ready
           _ _ _ eq_refl eq_refl eq_refl).
Defined.

(* ----------------------------------------------------------------- *)
(** ** The browser notebook from top to bottom *)

(** The setup cell when the client starts and hands over a pair. *)
Lemma setup_cell_run (c : BrowserNotebook.client) (k : kernel)
    (started ws_url headers : value) :
  BrowserNotebook.Session c = Returns tt ->
  BrowserNotebook.BrowserClient c = Returns tt ->
  BrowserNotebook.client_start c = Returns started ->
  BrowserNotebook.generate_ws_headers c = Returns (VList [ws_url; headers]) ->
  BrowserNotebook.setup_cell c k
  = ([Call "Session" [] (Returns (VObj "Session"));
      Call "BrowserClient" [BrowserNotebook.region_name c]
        (Returns (VObj "BrowserClient"));
      Call "client.start" [] (Returns started);
      Call "client.generate_ws_headers" []
        (Returns (VList [ws_url; headers]))],
     MkKernel (("headers", headers) :: ("ws_url", ws_url)
               :: ("client", VObj "BrowserClient")
               :: ("region", BrowserNotebook.region_name c)
               :: ("boto_session", VObj "Session") :: ns k) (ticks k),
     Ok tt).
Proof.
  intros Hsession Hclient Hstart Hgen.
  unfold BrowserNotebook.setup_cell.
  unfold bind, construct, call, read, assign, modify, lift.
  rewrite Hsession, Hclient, Hstart, Hgen. reflexivity.
Qed.

(** X17: the session cell connects to the browser that the setup cell
    started.  Run from top to bottom, the notebook constructs the
    profile once, with the headers that [generate_ws_headers] returned,
    and the session (if the profile could be made) once, with the URL
    that came with them. *)
Theorem session_connects_to_the_started_browser
    (c : BrowserNotebook.client) (lib : Browser.library) (k : kernel)
    (started ws_url headers : value) :
  BrowserNotebook.Session c = Returns tt ->
  BrowserNotebook.BrowserClient c = Returns tt ->
  BrowserNotebook.client_start c = Returns started ->
  BrowserNotebook.generate_ws_headers c = Returns (VList [ws_url; headers]) ->
  let r := CodeInterpreter.run_all (BrowserNotebook.notebook c lib) k in
  map fst (calls_to "BrowserProfile" (trace r))
  = [[headers; VInt 1500000]]
  /\ map fst (calls_to "BrowserSession" (trace r))
     = match Browser.BrowserProfile lib with
       | Returns _ => [[ws_url; VObj "BrowserProfile"; VBool true]]
       | Raises _ => []
       end.
Proof.
  intros Hsession Hclient Hstart Hgen r. subst r.
  unfold BrowserNotebook.notebook. cbn [CodeInterpreter.run_all].
  rewrite (bind_ok _ _ _ _ _ _
             (setup_cell_run c k started ws_url headers Hsession Hclient
                Hstart Hgen)).
  destruct lib as [bp bs st chat agent run close term render].
  destruct c as [se rn bc cs gw stop].
  unfold BrowserNotebook.cleanup_cell, Browser.browser_session_cell,
    Browser.session_body, Browser.session_cleanup,
    Browser.run_browser_task, Browser.console_print,
    Browser.task_message, Browser.error_message, suppress.
  unfold try_except, try_finally, bind, construct, call, print, emit, ret,
    raise, read, assign, modify.
  library_cases render; repeat split.
Qed.

Lemma session_connects_to_the_started_browser_witness :
  BrowserNotebook.Session browser_client = Returns tt
  /\ BrowserNotebook.BrowserClient browser_client = Returns tt
  /\ BrowserNotebook.client_start browser_client
     = Returns (VStr (lit "01K0BROWSER"))
  /\ (let r := CodeInterpreter.run_all
                 (BrowserNotebook.notebook browser_client browser_ok)
                 fresh in
      map fst (calls_to "BrowserProfile" (trace r))
      = [[VDict [(lit "Authorization", VStr (lit "AWS4"))]; VInt 1500000]]
      /\ map fst (calls_to "BrowserSession" (trace r))
         = [[VStr (lit "wss://bedrock-agentcore.us-west-2.amazonaws.com/browser-streams");
             VObj "BrowserProfile"; VBool true]]).
Proof.
  split; [reflexivity|]. split; [reflexivity|]. split; [reflexivity|].
  exact (session_connects_to_the_started_browser browser_client browser_ok
           fresh _ _ _ eq_refl eq_refl eq_refl eq_refl).
Defined.

(** X18: the browser is stopped only when the session cell ends well.
    Run from top to bottom, the notebook calls [client.stop()] exactly
    once when the session cell returns and not at all when it raises:
    the cleanup cell is outside the [try] statement, so a failed setup or
    an interrupted task leaves the browser running. *)
Theorem browser_is_stopped_only_after_a_clean_session
    (c : BrowserNotebook.client) (lib : Browser.library) (k : kernel)
    (started ws_url headers : value) :
  BrowserNotebook.Session c = Returns tt ->
  BrowserNotebook.BrowserClient c = Returns tt ->
  BrowserNotebook.client_start c = Returns started ->
  BrowserNotebook.generate_ws_headers c = Returns (VList [ws_url; headers]) ->
  let r := CodeInterpreter.run_all (BrowserNotebook.notebook c lib) k in
  let session :=
    Browser.browser_session_cell lib
      (vars (BrowserNotebook.setup_cell c k)) in
  calls_to "client.stop" (trace r)
  = match result session with
    | Ok _ => [([], BrowserNotebook.client_stop c)]
    | _ => []
    end.
Proof.
  intros Hsession Hclient Hstart Hgen r session. subst r session.
  unfold BrowserNotebook.notebook. cbn [CodeInterpreter.run_all].
  rewrite (bind_ok _ _ _ _ _ _
             (setup_cell_run c k started ws_url headers Hsession Hclient
                Hstart Hgen)).
  rewrite (setup_cell_run c k started ws_url headers Hsession Hclient
             Hstart Hgen).
  destruct lib as [bp bs st chat agent run close term render].
  destruct c as [se rn bc cs gw stop].
  unfold BrowserNotebook.cleanup_cell, Browser.browser_session_cell,
    Browser.session_body, Browser.session_cleanup,
    Browser.run_browser_task, Browser.console_print,
    Browser.task_message, Browser.error_message, suppress.
  unfold try_except, try_finally, bind, construct, call, print, emit, ret,
    raise, read, assign, modify.
  library_cases render; repeat split.
Qed.

Lemma browser_is_stopped_only_after_a_clean_session_witness :
  BrowserNotebook.Session browser_client = Returns tt
  /\ BrowserNotebook.BrowserClient browser_client = Returns tt
  /\ BrowserNotebook.client_start browser_client
     = Returns (VStr (lit "01K0BROWSER"))
  /\ calls_to "client.stop"
       (trace (CodeInterpreter.run_all
                 (BrowserNotebook.notebook browser_client
                    browser_interrupted) fresh))
     = []
  /\ result (CodeInterpreter.run_all
               (BrowserNotebook.notebook browser_client
                  browser_interrupted) fresh)
     = Raise interrupted.
Proof.
  split; [reflexivity|]. split; [reflexivity|]. split; [reflexivity|].
  split; [|reflexivity].
  exact (browser_is_stopped_only_after_a_clean_session browser_client
           browser_interrupted fresh _ _ _ eq_refl eq_refl eq_refl eq_refl).
Defined.

(* ----------------------------------------------------------------- *)
(** ** The code-interpreter notebook: failures and what is sent *)

Section ToolCalls.

Variable env : CodeInterpreter.services.
Variable k : kernel.
Variables dp_client interpreter_id session_id : value.

Hypothesis Hdp : find_name "dp_client" (ns k) = Some dp_client.
Hypothesis Hid : find_name "interpreter_id" (ns k) = Some interpreter_id.
Hypothesis Hsid : find_name "session_id" (ns k) = Some session_id.

(** [call_tool] up to the loop over the stream. *)
Lemma call_tool_unfold (tool_name : str) (arguments : value) :
  let kwargs :=
    CodeInterpreter.invoke_kwargs interpreter_id session_id tool_name
      arguments in
  let k1 := MkKernel (ns k) (S (ticks k)) in
  CodeInterpreter.call_tool env tool_name arguments k
  = match CodeInterpreter.invoke_code_interpreter env (ticks k) kwargs with
    | Returns stream =>
        let '(t, k2, r) :=
          (returned <-
             for_returning VDict stream (fun event =>
               result <- lift (dict_getitem event (lit "result")) ;;
               text <- lift (Json.dumps result 2) ;;
               ret (Some (VStr text))) ;;
           match returned with
           | Some v => ret v
           | None => ret VNone
           end) k1 in
        (Call "dp_client.invoke_code_interpreter" [kwargs]
           (Returns (VObj "response")) :: t, k2, r)
    | Raises e =>
        ([Call "dp_client.invoke_code_interpreter" [kwargs] (Raises e)],
         k1, Raise e)
    end.
Proof.
  intros kwargs k1. subst kwargs k1.
  unfold CodeInterpreter.call_tool.
  unfold bind at 1, read at 1. rewrite Hdp.
  unfold bind at 1, read at 1. rewrite Hid.
  unfold bind at 1, read at 1. rewrite Hsid.
  unfold bind at 1, tick at 1. cbn [ns ticks].
  unfold bind at 1, call at 1.
  destruct (CodeInterpreter.invoke_code_interpreter env (ticks k) _)
    as [stream|e]; cbn [ended]; [|reflexivity].
  unfold bind at 1, lift at 1. cbn [ended].
  destruct (bind (for_returning _ _ _) _ _) as [[t k2] r]. reflexivity.
Qed.

(** The loop over the stream takes at most one event, calls nothing and
    prints nothing. *)
Lemma first_event_loop_quiet (stream : iter dict) (k1 : kernel) :
  let r :=
    (returned <-
       for_returning VDict stream (fun event =>
         result <- lift (dict_getitem event (lit "result")) ;;
         text <- lift (Json.dumps result 2) ;;
         ret (Some (VStr text))) ;;
     match returned with
     | Some v => ret v
     | None => ret VNone
     end) k1 in
  prints (trace r) = []
  /\ (forall f, calls_to f (trace r) = [])
  /\ vars r = k1.
Proof.
  cbv zeta. destruct stream as [|e|event rest];
    [repeat split| repeat split|].
  cbn [for_returning]. unfold bind, emit, lift, ret.
  destruct (dict_getitem event (lit "result")) as [v|e]; cbn [ended];
    [|repeat split].
  destruct (Json.dumps v 2) as [text|e]; repeat split.
Qed.

(** What [call_tool] does besides returning: one invocation, with the
    identifiers of the kernel, and nothing printed. *)
Lemma call_tool_calls (tool_name : str) (arguments : value) :
  let r := CodeInterpreter.call_tool env tool_name arguments k in
  map fst (calls_to "dp_client.invoke_code_interpreter" (trace r))
  = [[CodeInterpreter.invoke_kwargs interpreter_id session_id tool_name
        arguments]]
  /\ prints (trace r) = []
  /\ (forall f,
        String.eqb "dp_client.invoke_code_interpreter" f = false ->
        calls_to f (trace r) = [])
  /\ ns (vars r) = ns k.
Proof.
  intros r. subst r. rewrite call_tool_unfold. cbv zeta.
  destruct (CodeInterpreter.invoke_code_interpreter env (ticks k) _)
    as [stream|e].
  - pose proof (first_event_loop_quiet stream
                  (MkKernel (ns k) (S (ticks k)))) as (Hp & Hc & Hv).
    cbv zeta in Hp, Hc, Hv.
    destruct (bind (for_returning _ _ _) _ _) as [[t k2] r].
    unfold trace, vars in *. cbn [fst snd] in *. subst k2.
    cbn [calls_to prints String.eqb Ascii.eqb Bool.eqb map fst].
    rewrite Hc, Hp. repeat split.
    intros f Hf. cbn [calls_to]. rewrite Hf. apply Hc.
  - unfold trace, vars. cbn [fst snd calls_to prints String.eqb Ascii.eqb
                             Bool.eqb map].
    repeat split. intros f Hf. now rewrite Hf.
Qed.

End ToolCalls.

(** X19: [call_tool] does not retry and does not hide a failure.  When
    the invocation raises, or the stream of its response fails before
    the first event, [call_tool] raises that exception after exactly one
    invocation. *)
Theorem call_tool_propagates_failures
    (env : CodeInterpreter.services) (tool_name : str) (arguments : value)
    (k : kernel) (dp_client interpreter_id session_id : value) (e : exn) :
  find_name "dp_client" (ns k) = Some dp_client ->
  find_name "interpreter_id" (ns k) = Some interpreter_id ->
  find_name "session_id" (ns k) = Some session_id ->
  (let invoked :=
     CodeInterpreter.invoke_code_interpreter env (ticks k)
       (CodeInterpreter.invoke_kwargs interpreter_id session_id tool_name
          arguments) in
   invoked = Raises e \/ invoked = Returns (Fail e)) ->
  let r := CodeInterpreter.call_tool env tool_name arguments k in
  result r = Raise e
  /\ map fst (calls_to "dp_client.invoke_code_interpreter" (trace r))
     = [[CodeInterpreter.invoke_kwargs interpreter_id session_id tool_name
           arguments]]
  /\ fetched (trace r) = [].
Proof.
  intros Hdp Hid Hsid Hfail r. subst r. cbv zeta in Hfail.
  rewrite (call_tool_unfold env k dp_client interpreter_id session_id
             Hdp Hid Hsid).
  cbv zeta. destruct Hfail as [-> | ->]; repeat split.
Qed.

Lemma call_tool_propagates_failures_witness :
  find_name "dp_client" (ns session_started)
    = Some (VObj "bedrock-agentcore")
  /\ (let r := CodeInterpreter.call_tool
                 (sandbox_where unreachable (fun _ => Returns (VDict []))
                    (fun _ => Returns (VObj "TextIOWrapper"))
                    (Returns (VStr (lit "print(1)"))))
                 (lit "executeCommand")
                 (VDict [(lit "command", VStr (lit "ls"))])
                 session_started in
      result r
      = Raise (MkExn (UserError "ClientError") (lit "ThrottlingException"))
      /\ List.length
           (calls_to "dp_client.invoke_code_interpreter" (trace r)) = 1
      /\ fetched (trace r) = []).
Proof.
  split; [reflexivity|].
  pose proof
    (call_tool_propagates_failures
       (sandbox_where unreachable (fun _ => Returns (VDict []))
          (fun _ => Returns (VObj "TextIOWrapper"))
          (Returns (VStr (lit "print(1)"))))
       (lit "executeCommand") (VDict [(lit "command", VStr (lit "ls"))])
       session_started _ _ _
       (MkExn (UserError "ClientError") (lit "ThrottlingException"))
       eq_refl eq_refl eq_refl (or_introl eq_refl)) as H.
  cbv zeta in H. destruct H as (Hres & Hcalls & Hfetched).
  split; [exact Hres|]. split; [|exact Hfetched].
  rewrite <- (length_map fst), Hcalls. reflexivity.
Defined.

(** X20: an empty response stream fails the first command cell.  When
    the stream hands over no event, [call_tool] returns [None]; the cell
    prints ["command result: None"] and then [json.loads(None)] raises
    [TypeError], so that no output of the command is printed. *)
Theorem empty_stream_fails_the_hello_cell
    (env : CodeInterpreter.services) (k : kernel)
    (dp_client interpreter_id session_id : value) :
  find_name "dp_client" (ns k) = Some dp_client ->
  find_name "interpreter_id" (ns k) = Some interpreter_id ->
  find_name "session_id" (ns k) = Some session_id ->
  CodeInterpreter.invoke_code_interpreter env (ticks k)
    (CodeInterpreter.invoke_kwargs interpreter_id session_id
       (lit "executeCommand")
       (VDict [(lit "command", VStr (lit "echo 'Hello World'"))]))
  = Returns Stop ->
  let r := CodeInterpreter.hello_world_cell env k in
  result r
  = Raise (MkExn TypeError
             (lit "the JSON object must be str, bytes or bytearray, not NoneType"))
  /\ prints (trace r)
     = [[Txt "executing shell command \n"];
        [Txt "command result: "; Val VNone]]
  /\ find_name "command_response" (ns (vars r)) = Some VNone.
Proof.
  intros Hdp Hid Hsid Hinvoke r. subst r.
  pose proof (call_tool_unfold env k dp_client interpreter_id session_id
                Hdp Hid Hsid (lit "executeCommand")
                (VDict [(lit "command", VStr (lit "echo 'Hello World'"))]))
    as Hcall.
  cbv zeta in Hcall. rewrite Hinvoke in Hcall.
  unfold CodeInterpreter.hello_world_cell, CodeInterpreter.execute_command.
  erewrite bind_run;
    [| reflexivity | erewrite bind_run; [reflexivity | exact Hcall |]];
    [|reflexivity].
  repeat split.
Qed.

Lemma empty_stream_fails_the_hello_cell_witness :
  find_name "dp_client" (ns session_started)
    = Some (VObj "bedrock-agentcore")
  /\ (let r := CodeInterpreter.hello_world_cell
                 (sandbox_where silent (fun _ => Returns (VDict []))
                    (fun _ => Returns (VObj "TextIOWrapper"))
                    (Returns (VStr (lit "print(1)"))))
                 session_started in
      result r
      = Raise (MkExn TypeError
                 (lit "the JSON object must be str, bytes or bytearray, not NoneType"))
      /\ prints (trace r)
         = [[Txt "executing shell command \n"];
            [Txt "command result: "; Val VNone]]
      /\ find_name "command_response" (ns (vars r)) = Some VNone).
Proof.
  split; [reflexivity|].
  exact (empty_stream_fails_the_hello_cell
           (sandbox_where silent (fun _ => Returns (VDict []))
              (fun _ => Returns (VObj "TextIOWrapper"))
              (Returns (VStr (lit "print(1)"))))
           session_started _ _ _ eq_refl eq_refl eq_refl eq_refl).
Defined.

(** X21: a session that cannot be stopped keeps its interpreter.  When
    [stop_code_interpreter_session] raises, the cleanup cell ends with
    that exception: it has printed only its heading and
    [delete_code_interpreter] is never called. *)
Theorem failed_stop_keeps_the_interpreter
    (env : CodeInterpreter.services) (k : kernel)
    (dp_client interpreter_id session_id : value) (e : exn) :
  find_name "dp_client" (ns k) = Some dp_client ->
  find_name "interpreter_id" (ns k) = Some interpreter_id ->
  find_name "session_id" (ns k) = Some session_id ->
  CodeInterpreter.stop_code_interpreter_session env
    (VDict [(lit "codeInterpreterIdentifier", interpreter_id);
            (lit "sessionId", session_id)])
  = Raises e ->
  let r := CodeInterpreter.cleanup_cell env k in
  result r = Raise e
  /\ calls_to "cp_client.delete_code_interpreter" (trace r) = []
  /\ prints (trace r) = [[Txt "Cleaning up session and interpreter"]].
Proof.
  intros Hdp Hid Hsid Hstop r. subst r.
  unfold CodeInterpreter.cleanup_cell.
  unfold bind, print, emit, read, call.
  rewrite Hdp, Hid, Hsid, Hstop. repeat split.
Qed.

Lemma failed_stop_keeps_the_interpreter_witness :
  find_name "dp_client" (ns session_started)
    = Some (VObj "bedrock-agentcore")
  /\ (let r := CodeInterpreter.cleanup_cell
                 (sandbox_where silent (fun _ => Raises throttled)
                    (fun _ => Returns (VObj "TextIOWrapper"))
                    (Returns (VStr (lit "print(1)"))))
                 session_started in
      result r = Raise throttled
      /\ calls_to "cp_client.delete_code_interpreter" (trace r) = []
      /\ prints (trace r) = [[Txt "Cleaning up session and interpreter"]]).
Proof.
  split; [reflexivity|].
  exact (failed_stop_keeps_the_interpreter
           (sandbox_where silent (fun _ => Raises throttled)
              (fun _ => Returns (VObj "TextIOWrapper"))
              (Returns (VStr (lit "print(1)"))))
           session_started _ _ _ throttled eq_refl eq_refl eq_refl eq_refl).
Defined.

(** The argument of [writeFiles] for a text. *)
Lemma write_file_cell_unfold (env : CodeInterpreter.services) :
  CodeInterpreter.write_file_cell env
  = (print [Txt "Writing file to sandbox"] ;;
     CodeInterpreter.read_local_file env ;;
     local_file_content <- read "local_file_content" ;;
     assign "files_to_create"
       (VList [VDict [(lit "path", VStr (lit "stats.py"));
                      (lit "text", local_file_content)]]) ;;
     files_to_create <- read "files_to_create" ;;
     write_files_response <-
       CodeInterpreter.call_tool env (lit "writeFiles")
         (VDict [(lit "content", files_to_create)]) ;;
     assign "write_files_response" write_files_response ;;
     print [Txt "write files result: "; Val write_files_response]).
Proof. reflexivity. Qed.

(** The cell after its [try] statement, where [local_file_content]
    holds [text]: one invocation of [writeFiles] with that text under
    the path [stats.py]. *)
Lemma write_file_cell_sends (env : CodeInterpreter.services)
    (k k1 : kernel) (t1 : list action)
    (dp_client interpreter_id session_id text : value) :
  CodeInterpreter.read_local_file env k = (t1, k1, Ok tt) ->
  find_name "local_file_content" (ns k1) = Some text ->
  find_name "dp_client" (ns k1) = Some dp_client ->
  find_name "interpreter_id" (ns k1) = Some interpreter_id ->
  find_name "session_id" (ns k1) = Some session_id ->
  exists t2 k2 r2,
    CodeInterpreter.write_file_cell env k
    = (Print [Txt "Writing file to sandbox"] :: t1 ++ t2, k2, r2)
    /\ map fst (calls_to "dp_client.invoke_code_interpreter" t2)
       = [[CodeInterpreter.invoke_kwargs interpreter_id session_id
             (lit "writeFiles")
             (VDict [(lit "content",
                      VList [VDict [(lit "path", VStr (lit "stats.py"));
                                    (lit "text", text)]])])]]
    /\ (forall f,
          String.eqb "dp_client.invoke_code_interpreter" f = false ->
          calls_to f t2 = []).
Proof.
  intros Hread Htext Hdp Hid Hsid.
  set (files := VList [VDict [(lit "path", VStr (lit "stats.py"));
                              (lit "text", text)]]).
  set (k2 := MkKernel (("files_to_create", files) :: ns k1) (ticks k1)).
  pose proof (call_tool_calls env k2 dp_client interpreter_id session_id
                Hdp Hid Hsid (lit "writeFiles")
                (VDict [(lit "content", files)]))
    as (Hcalls & Hprints & Hother & _).
  cbv zeta in Hcalls, Hprints, Hother.
  destruct (CodeInterpreter.call_tool env (lit "writeFiles")
              (VDict [(lit "content", files)]) k2)
    as [[t3 k3] r3] eqn:Htool.
  unfold trace in Hcalls, Hprints, Hother. cbn [fst] in *.
  rewrite write_file_cell_unfold.
  assert (Hrest :
    exists t2 k4 r4,
      (local_file_content <- read "local_file_content" ;;
       assign "files_to_create"
         (VList [VDict [(lit "path", VStr (lit "stats.py"));
                        (lit "text", local_file_content)]]) ;;
       files_to_create <- read "files_to_create" ;;
       write_files_response <-
         CodeInterpreter.call_tool env (lit "writeFiles")
           (VDict [(lit "content", files_to_create)]) ;;
       assign "write_files_response" write_files_response ;;
       print [Txt "write files result: "; Val write_files_response]) k1
      = (t2, k4, r4)
      /\ calls_to "dp_client.invoke_code_interpreter" t2
         = calls_to "dp_client.invoke_code_interpreter" t3
      /\ (forall f,
            String.eqb "dp_client.invoke_code_interpreter" f = false ->
            calls_to f t2 = [])).
  { unfold bind at 1, read at 1. rewrite Htext.
    unfold bind at 1, assign at 1, modify at 1. fold files. fold k2.
    unfold bind at 1, read at 1. cbn [ns find_name String.eqb Ascii.eqb
                                      Bool.eqb k2].
    unfold bind at 1. fold k2. rewrite Htool.
    destruct r3 as [response|e|].
    - eexists _, _, _. split; [reflexivity|].
      cbn [app]. split.
      + rewrite calls_to_app. cbn. now rewrite app_nil_r.
      + intros f Hf. rewrite calls_to_app, (Hother f Hf). reflexivity.
    - eexists _, _, _. split; [reflexivity|]. cbn [app]. split; auto.
    - eexists _, _, _. split; [reflexivity|]. cbn [app]. split; auto. }
  destruct Hrest as (t2 & k4 & r4 & Hrun & Hsame & Hnone).
  exists t2, k4, r4. split; [|split].
  - apply (bind_run _ _ k [Print [Txt "Writing file to sandbox"]] k tt);
      [reflexivity|].
    now apply (bind_run _ _ k t1 k1 tt).
  - now rewrite Hsame.
  - exact Hnone.
Qed.

(** X22: the text of the local file is written under a fixed name.  When
    the file can be opened and read, the cell invokes [writeFiles] once,
    with one entry whose text is what [read()] returned and whose path is
    [stats.py] (not the local path); the file was opened for reading as
    UTF-8 and closed once. *)
Theorem file_text_is_written_as_stats_py
    (env : CodeInterpreter.services) (k : kernel)
    (path file text dp_client interpreter_id session_id : value) :
  find_name "local_file" (ns k) = Some path ->
  find_name "dp_client" (ns k) = Some dp_client ->
  find_name "interpreter_id" (ns k) = Some interpreter_id ->
  find_name "session_id" (ns k) = Some session_id ->
  CodeInterpreter.open_file env path = Returns file ->
  CodeInterpreter.file_read env = Returns text ->
  let r := CodeInterpreter.write_file_cell env k in
  map fst (calls_to "dp_client.invoke_code_interpreter" (trace r))
  = [[CodeInterpreter.invoke_kwargs interpreter_id session_id
        (lit "writeFiles")
        (VDict [(lit "content",
                 VList [VDict [(lit "path", VStr (lit "stats.py"));
                               (lit "text", text)]])])]]
  /\ calls_to "open" (trace r)
     = [([path; VStr (lit "r"); VStr (lit "utf-8")], Returns file)]
  /\ calls_to "close" (trace r) = [([], Returns VNone)].
Proof.
  intros Hpath Hdp Hid Hsid Hopen Hread r. subst r.
  assert (Hrun :
    CodeInterpreter.read_local_file env k
    = ([Call "open" [path; VStr (lit "r"); VStr (lit "utf-8")]
          (Returns file);
        Call "read" [] (Returns text); Call "close" [] (Returns VNone)],
       MkKernel (("local_file_content", text)
                 :: ("local_file_content", file) :: ns k) (ticks k),
       Ok tt)).
  { unfold CodeInterpreter.read_local_file.
    unfold try_except, try_finally, bind, read, call, print, emit, assign,
      modify, ret.
    rewrite Hpath, Hopen. cbn. now rewrite Hread. }
  destruct (write_file_cell_sends env k _ _ dp_client interpreter_id
              session_id text Hrun eq_refl Hdp Hid Hsid)
    as (t2 & k2 & r2 & -> & Hcalls & Hother).
  unfold trace. cbn [fst app calls_to String.eqb Ascii.eqb Bool.eqb].
  rewrite Hcalls, (Hother "open" eq_refl), (Hother "close" eq_refl).
  repeat split.
Qed.

Lemma file_text_is_written_as_stats_py_witness :
  find_name "local_file" (ns before_write_file)
    = Some (VStr (lit "samples/stats.py"))
  /\ (let r := CodeInterpreter.write_file_cell sandbox_with_file
                 before_write_file in
      map fst (calls_to "dp_client.invoke_code_interpreter" (trace r))
      = [[CodeInterpreter.invoke_kwargs
            (VStr (lit "s3InteractionEnv_1752411395-a1b2"))
            (VStr (lit "01K0SESSION")) (lit "writeFiles")
            (VDict [(lit "content",
                     VList [VDict [(lit "path", VStr (lit "stats.py"));
                                   (lit "text", VStr (lit "print(1)"))]])])]]
      /\ calls_to "open" (trace r)
         = [([VStr (lit "samples/stats.py"); VStr (lit "r");
              VStr (lit "utf-8")],
             Returns (VObj "TextIOWrapper"))]
      /\ calls_to "close" (trace r) = [([], Returns VNone)]).
Proof.
  split; [reflexivity|].
  exact (file_text_is_written_as_stats_py sandbox_with_file
           before_write_file _ _ _ _ _ _ eq_refl eq_refl eq_refl eq_refl
           eq_refl eq_refl).
Defined.

(** X23: a second run with the file missing writes the old text.  When
    the file cannot be opened (an instance of [Exception]) and
    [local_file_content] still holds a value from an earlier run, the
    cell prints the failure and then invokes [writeFiles] with that old
    value as the text. *)
Theorem stale_text_is_written_when_the_file_is_missing
    (env : CodeInterpreter.services) (k : kernel)
    (path old dp_client interpreter_id session_id : value) (e : exn) :
  find_name "local_file" (ns k) = Some path ->
  find_name "local_file_content" (ns k) = Some old ->
  find_name "dp_client" (ns k) = Some dp_client ->
  find_name "interpreter_id" (ns k) = Some interpreter_id ->
  find_name "session_id" (ns k) = Some session_id ->
  CodeInterpreter.open_file env path = Raises e ->
  isinstance e Exception = true ->
  let r := CodeInterpreter.write_file_cell env k in
  map fst (calls_to "dp_client.invoke_code_interpreter" (trace r))
  = [[CodeInterpreter.invoke_kwargs interpreter_id session_id
        (lit "writeFiles")
        (VDict [(lit "content",
                 VList [VDict [(lit "path", VStr (lit "stats.py"));
                               (lit "text", old)]])])]]
  /\ firstn 2 (prints (trace r))
     = [[Txt "Writing file to sandbox"];
        CodeInterpreter.read_failure_message path e].
Proof.
  intros Hpath Hold Hdp Hid Hsid Hopen He r. subst r.
  assert (Hrun :
    CodeInterpreter.read_local_file env k
    = ([Call "open" [path; VStr (lit "r"); VStr (lit "utf-8")] (Raises e);
        Print (CodeInterpreter.read_failure_message path e)],
       k, Ok tt)).
  { unfold CodeInterpreter.read_local_file,
      CodeInterpreter.read_failure_message.
    unfold try_except, try_finally, bind, read, call, print, emit, assign,
      modify, ret.
    rewrite Hpath, Hopen. cbn.
    destruct (isinstance e FileNotFoundError); cbn.
    - rewrite Hpath. now destruct k.
    - rewrite He. now destruct k. }
  destruct (write_file_cell_sends env k _ _ dp_client interpreter_id
              session_id old Hrun Hold Hdp Hid Hsid)
    as (t2 & k2 & r2 & -> & Hcalls & Hother).
  unfold trace. cbn [fst app calls_to prints firstn String.eqb Ascii.eqb
                     Bool.eqb].
  rewrite Hcalls. repeat split.
Qed.

Lemma stale_text_is_written_when_the_file_is_missing_witness :
  find_name "local_file" (ns second_run)
    = Some (VStr (lit "samples/stats.py"))
  /\ find_name "local_file_content" (ns second_run)
     = Some (VStr (lit "print(0)"))
  /\ isinstance
       (MkExn FileNotFoundError
          (lit "[Errno 2] No such file or directory: 'samples/stats.py'"))
       Exception = true
  /\ (let r := CodeInterpreter.write_file_cell sandbox second_run in
      map fst (calls_to "dp_client.invoke_code_interpreter" (trace r))
      = [[CodeInterpreter.invoke_kwargs
            (VStr (lit "s3InteractionEnv_1752411395-a1b2"))
            (VStr (lit "01K0SESSION")) (lit "writeFiles")
            (VDict [(lit "content",
                     VList [VDict [(lit "path", VStr (lit "stats.py"));
                                   (lit "text", VStr (lit "print(0)"))]])])]]
      /\ firstn 2 (prints (trace r))
         = [[Txt "Writing file to sandbox"];
            [Txt "Error: The file '"; Val (VStr (lit "samples/stats.py"));
             Txt "' was not found."]]).
Proof.
  split; [reflexivity|]. split; [reflexivity|]. split; [reflexivity|].
  exact (stale_text_is_written_when_the_file_is_missing sandbox second_run
           _ _ _ _ _ _ eq_refl eq_refl eq_refl eq_refl eq_refl eq_refl
           eq_refl).
Defined.

(** X24: a file that cannot be read is closed, and is itself sent as the
    text.  When [read()] raises an instance of [Exception] (the file is
    not UTF-8, say), the file is closed once and the failure printed;
    [local_file_content] still names the file object that the [with]
    statement bound, and the cell invokes [writeFiles] with that object
    where the text should be. *)
Theorem unreadable_file_is_sent_as_the_text
    (env : CodeInterpreter.services) (k : kernel)
    (path file dp_client interpreter_id session_id : value) (e : exn) :
  find_name "local_file" (ns k) = Some path ->
  find_name "dp_client" (ns k) = Some dp_client ->
  find_name "interpreter_id" (ns k) = Some interpreter_id ->
  find_name "session_id" (ns k) = Some session_id ->
  CodeInterpreter.open_file env path = Returns file ->
  CodeInterpreter.file_read env = Raises e ->
  isinstance e Exception = true ->
  let r := CodeInterpreter.write_file_cell env k in
  map fst (calls_to "dp_client.invoke_code_interpreter" (trace r))
  = [[CodeInterpreter.invoke_kwargs interpreter_id session_id
        (lit "writeFiles")
        (VDict [(lit "content",
                 VList [VDict [(lit "path", VStr (lit "stats.py"));
                               (lit "text", file)]])])]]
  /\ calls_to "close" (trace r) = [([], Returns VNone)]
  /\ firstn 2 (prints (trace r))
     = [[Txt "Writing file to sandbox"];
        CodeInterpreter.read_failure_message path e].
Proof.
  intros Hpath Hdp Hid Hsid Hopen Hread He r. subst r.
  assert (Hrun :
    CodeInterpreter.read_local_file env k
    = ([Call "open" [path; VStr (lit "r"); VStr (lit "utf-8")]
          (Returns file);
        Call "read" [] (Raises e); Call "close" [] (Returns VNone);
        Print (CodeInterpreter.read_failure_message path e)],
       MkKernel (("local_file_content", file) :: ns k) (ticks k),
       Ok tt)).
  { unfold CodeInterpreter.read_local_file,
      CodeInterpreter.read_failure_message.
    unfold try_except, try_finally, bind, read, call, print, emit, assign,
      modify, ret.
    rewrite Hpath, Hopen. cbn. rewrite Hread. cbn.
    destruct (isinstance e FileNotFoundError); cbn.
    - now rewrite Hpath.
    - now rewrite He. }
  destruct (write_file_cell_sends env k _ _ dp_client interpreter_id
              session_id file Hrun eq_refl Hdp Hid Hsid)
    as (t2 & k2 & r2 & -> & Hcalls & Hother).
  unfold trace. cbn [fst app calls_to prints firstn String.eqb Ascii.eqb
                     Bool.eqb].
  rewrite Hcalls, (Hother "close" eq_refl). repeat split.
Qed.

Lemma unreadable_file_is_sent_as_the_text_witness :
  find_name "local_file" (ns before_write_file)
    = Some (VStr (lit "samples/stats.py"))
  /\ isinstance not_utf8 Exception = true
  /\ (let r := CodeInterpreter.write_file_cell
                 (sandbox_where silent (fun _ => Returns (VDict []))
                    (fun _ => Returns (VObj "TextIOWrapper"))
                    (Raises not_utf8))
                 before_write_file in
      map fst (calls_to "dp_client.invoke_code_interpreter" (trace r))
      = [[CodeInterpreter.invoke_kwargs
            (VStr (lit "s3InteractionEnv_1752411395-a1b2"))
            (VStr (lit "01K0SESSION")) (lit "writeFiles")
            (VDict [(lit "content",
                     VList [VDict [(lit "path", VStr (lit "stats.py"));
                                   (lit "text", VObj "TextIOWrapper")]])])]]
      /\ calls_to "close" (trace r) = [([], Returns VNone)]
      /\ firstn 2 (prints (trace r))
         = [[Txt "Writing file to sandbox"];
            [Txt "An error occurred: "; Val (VStr (exn_str not_utf8))]]).
Proof.
  split; [reflexivity|]. split; [reflexivity|].
  exact (unreadable_file_is_sent_as_the_text
           (sandbox_where silent (fun _ => Returns (VDict []))
              (fun _ => Returns (VObj "TextIOWrapper")) (Raises not_utf8))
           before_write_file _ _ _ _ _ not_utf8 eq_refl eq_refl eq_refl
           eq_refl eq_refl eq_refl eq_refl).
Defined.

(* ----------------------------------------------------------------- *)
(** ** The cell that shows what the cleanup will delete *)

(** The preview cell changes nothing and ends as its expression does. *)
Lemma preview_cell_run (k : kernel) :
  RuntimeCleanup.preview_cell k
  = ([], k,
     match find_name "launch_result" (ns k) with
     | None => Raise (name_error "launch_result")
     | Some launch_result =>
         match PyMore.getattr launch_result "ecr_uri" with
         | Raises e => Raise e
         | Returns uri =>
             match PyMore.getattr launch_result "agent_id" with
             | Raises e => Raise e
             | Returns agent_id =>
                 match PyMore.split_method uri 47 with
                 | Raises e => Raise e
                 | Returns parts =>
                     match getindex parts 1 with
                     | Raises e => Raise e
                     | Returns repository =>
                         Ok (VList [uri; agent_id; repository])
                     end
                 end
             end
         end
     end).
Proof.
  unfold RuntimeCleanup.preview_cell, bind, read, lift, ret.
  destruct (find_name "launch_result" (ns k)) as [launch_result|] eqn:Hl;
    [|reflexivity].
  cbn [ended]. rewrite ?Hl.
  destruct (PyMore.getattr launch_result "ecr_uri") as [uri|];
    [|reflexivity].
  cbn [ended]. rewrite ?Hl.
  destruct (PyMore.getattr launch_result "agent_id") as [agent_id|];
    [|reflexivity].
  cbn [ended]. rewrite ?Hl.
  destruct (PyMore.split_method uri 47) as [parts|]; [|reflexivity].
  cbn [ended].
  destruct (getindex parts 1); reflexivity.
Qed.

(** What a preview that returns tells about the kernel. *)
Lemma preview_shown (k : kernel) (uri agent_id repository : value) :
  result (RuntimeCleanup.preview_cell k)
  = Ok (VList [uri; agent_id; repository]) ->
  exists launch_result s name,
    find_name "launch_result" (ns k) = Some launch_result
    /\ PyMore.getattr launch_result "ecr_uri" = Returns (VStr s)
    /\ PyMore.getattr launch_result "agent_id" = Returns agent_id
    /\ nth_error (PyMore.split 47 s) 1 = Some name
    /\ uri = VStr s
    /\ repository = VStr name.
Proof.
  rewrite preview_cell_run. unfold result. cbn [snd].
  destruct (find_name "launch_result" (ns k)) as [launch_result|] eqn:Hl;
    [|discriminate].
  destruct (PyMore.getattr launch_result "ecr_uri") as [u|] eqn:Hu;
    [|discriminate].
  destruct (PyMore.getattr launch_result "agent_id") as [a|] eqn:Ha;
    [|discriminate].
  destruct u as [| | | |s| | | |]; try discriminate.
  cbn [PyMore.split_method getindex]. rewrite nth_error_map.
  destruct (nth_error (PyMore.split 47 s) 1) as [name|] eqn:Hname;
    [|discriminate].
  cbn [option_map]. intros [= <- <- <-].
  exists launch_result, s, name. repeat split; assumption.
Qed.

(** X25: the preview cell shows what the cleanup cell deletes.  When the
    cell before the cleanup returns the triple of URI, agent and
    repository name, the cleanup cell asks for the deletion of that
    agent's runtime and, once it is deleted, of the repository of that
    name. *)
Theorem preview_shows_what_cleanup_deletes
    (env : RuntimeCleanup.services) (clients : string -> value)
    (region uri agent_id repository deleted : value) (k : kernel) :
  result (RuntimeCleanup.preview_cell k)
    = Ok (VList [uri; agent_id; repository]) ->
  find_name "region" (ns k) = Some region ->
  (forall service,
     RuntimeCleanup.boto3_client env service = Returns (clients service)) ->
  RuntimeCleanup.delete_agent_runtime env
    (RuntimeCleanup.runtime_kwargs agent_id) = Returns deleted ->
  let r := RuntimeCleanup.cleanup_cell env k in
  calls_to "agentcore_control_client.delete_agent_runtime" (trace r)
  = [([RuntimeCleanup.runtime_kwargs agent_id], Returns deleted)]
  /\ calls_to "ecr_client.delete_repository" (trace r)
     = [([RuntimeCleanup.repository_kwargs repository],
         RuntimeCleanup.delete_repository env
           (RuntimeCleanup.repository_kwargs repository))].
Proof.
  intros Hshown Hregion Hclients Hruntime r. subst r.
  destruct (preview_shown k uri agent_id repository Hshown)
    as (launch_result & s & name & Hlaunch & Huri & Hagent & Hname
        & -> & ->).
  destruct (first_half_run env clients region launch_result agent_id
              deleted s Hclients Hagent Hruntime Huri k name Hregion
              Hlaunch Hname)
    as (k1 & Hrun & _).
  unfold RuntimeCleanup.cleanup_cell.
  destruct (RuntimeCleanup.delete_repository env _) as [v|e].
  - rewrite (bind_ok _ _ _ _ _ _ Hrun).
    pose proof (second_half_is_iam_only env k1) as Hiam.
    destruct (RuntimeCleanup.delete_role_with_policies env k1)
      as [[t2 k2] r2].
    unfold trace in *. cbn [fst] in *.
    rewrite !calls_to_app,
      (iam_only_calls "ecr_client.delete_repository" t2 Hiam eq_refl),
      (iam_only_calls "agentcore_control_client.delete_agent_runtime" t2
         Hiam eq_refl).
    split; reflexivity.
  - rewrite (bind_raised _ _ _ _ _ _ Hrun). split; reflexivity.
Qed.

Lemma preview_shows_what_cleanup_deletes_witness :
  result (RuntimeCleanup.preview_cell
            (deployed (registry ++ lit "/streaming-agent")))
    = Ok (VList [VStr (registry ++ lit "/streaming-agent");
                 VStr (lit "strands_claude_streaming-a1b2");
                 VStr (lit "streaming-agent")])
  /\ (forall service,
        RuntimeCleanup.boto3_client (account []) service
        = Returns (VObj service))
  /\ (let r := RuntimeCleanup.cleanup_cell (account [])
                 (deployed (registry ++ lit "/streaming-agent")) in
      calls_to "agentcore_control_client.delete_agent_runtime" (trace r)
      = [([RuntimeCleanup.runtime_kwargs
             (VStr (lit "strands_claude_streaming-a1b2"))],
          Returns (VDict [(lit "status", VStr (lit "DELETING"))]))]
      /\ calls_to "ecr_client.delete_repository" (trace r)
         = [([RuntimeCleanup.repository_kwargs
                (VStr (lit "streaming-agent"))],
             Returns (VDict []))]).
Proof.
  assert (Hclients : forall service,
     RuntimeCleanup.boto3_client (account []) service
     = Returns (VObj service)) by reflexivity.
  split; [reflexivity|]. split; [exact Hclients|].
  exact (preview_shows_what_cleanup_deletes (account []) VObj
           (VStr (lit "us-west-2")) _ _ _
           (VDict [(lit "status", VStr (lit "DELETING"))])
           (deployed (registry ++ lit "/streaming-agent"))
           eq_refl eq_refl Hclients eq_refl).
Defined.
